(** * Duty backup application: a shallow embedding of the input parsers,
    the custom-report payload, the database retry wrapper and the per-MAWB
    pipeline, with the properties of the specification stated over them. *)

From Stdlib Require Import String Ascii List Bool Arith ZArith Lia.
From Stdlib Require Import Floats DecimalString.
Import ListNotations.
Open Scope string_scope.
Open Scope nat_scope.

(** ** Python values shared by all modules *)

(** The exceptions the modelled code can raise. *)
Inductive exn : Type :=
| ValueError (msg : string)
| TypeError (msg : string)
| RuntimeError (msg : string)
| OtherError (type_name msg : string).

(** [str(exc)]. *)
Definition exn_str (e : exn) : string :=
  match e with
  | ValueError msg | TypeError msg | RuntimeError msg | OtherError _ msg => msg
  end.

(** [str(n)] for an integer. *)
Definition str_of_Z (z : Z) : string := NilZero.string_of_int (Z.to_int z).
Definition str_of_nat (n : nat) : string := str_of_Z (Z.of_nat n).

(** A computation that either returns or raises. *)
Inductive result (A : Type) : Type :=
| Ok (a : A)
| Raise (e : exn).
Arguments Ok {A} a.
Arguments Raise {A} e.

(** ** Python string operations

    Text is a sequence of characters with code points below 256; the
    predicates are Python's on that range. *)
Module PyStr.

Definition code (c : ascii) : nat := nat_of_ascii c.

(** [re]'s [\d]: the decimal digits. *)
Definition isdecimal (c : ascii) : bool :=
  (48 <=? code c) && (code c <=? 57).

(** [str.isdigit]: the decimal digits and the superscripts 2, 3 and 1. *)
Definition isdigit (c : ascii) : bool :=
  isdecimal c || (code c =? 178) || (code c =? 179) || (code c =? 185).

(** [str.isspace], which is also [re]'s [\s] and what [str.strip] removes. *)
Definition isspace (c : ascii) : bool :=
  ((9 <=? code c) && (code c <=? 13)) || ((28 <=? code c) && (code c <=? 32))
  || (code c =? 133) || (code c =? 160).

Definition tab : ascii := ascii_of_nat 9.
Definition newline : ascii := ascii_of_nat 10.
Definition comma : ascii := ","%char.
Definition space : ascii := " "%char.

Definition is_empty (s : string) : bool :=
  match s with EmptyString => true | String _ _ => false end.

(** Truthiness of a string. *)
Definition truthy (s : string) : bool := negb (is_empty s).

(** [s or None]. *)
Definition or_none (s : string) : option string :=
  if is_empty s then None else Some s.

(** [''.join(ch for ch in s if ch.isdigit())]. *)
Fixpoint digits_of (s : string) : string :=
  match s with
  | EmptyString => EmptyString
  | String c s' => if isdigit c then String c (digits_of s') else digits_of s'
  end.

Fixpoint lstrip (s : string) : string :=
  match s with
  | EmptyString => EmptyString
  | String c s' => if isspace c then lstrip s' else s
  end.

Fixpoint rstrip (s : string) : string :=
  match s with
  | EmptyString => EmptyString
  | String c s' =>
      let r := rstrip s' in
      if isspace c && is_empty r then EmptyString else String c r
  end.

Definition strip (s : string) : string := rstrip (lstrip s).

(** A string starts well when it does not start with white space. *)
Definition starts_well (s : string) : bool :=
  match s with
  | EmptyString => true
  | String c _ => negb (isspace c)
  end.

(** Puts [c] in front of the first piece of a split. *)
Definition cons_head (c : ascii) (l : list string) : list string :=
  match l with
  | [] => [String c EmptyString]
  | h :: t => String c h :: t
  end.

(** [s.split(sep)] for a one-character separator. *)
Fixpoint split_chr (sep : ascii) (s : string) : list string :=
  match s with
  | EmptyString => [EmptyString]
  | String c s' =>
      if Ascii.eqb c sep then EmptyString :: split_chr sep s'
      else cons_head c (split_chr sep s')
  end.

(** [sep.join(l)]. *)
Fixpoint join (sep : string) (l : list string) : string :=
  match l with
  | [] => EmptyString
  | [x] => x
  | x :: rest => x ++ sep ++ join sep rest
  end.

(** [c in s]. *)
Fixpoint contains_chr (c : ascii) (s : string) : bool :=
  match s with
  | EmptyString => false
  | String d s' => Ascii.eqb d c || contains_chr c s'
  end.

(** [s.count(c)]. *)
Fixpoint count_chr (c : ascii) (s : string) : nat :=
  match s with
  | EmptyString => 0
  | String d s' => (if Ascii.eqb d c then 1 else 0) + count_chr c s'
  end.

(** Whether [s] has a run of [need] consecutive characters satisfying [p],
    [run] of them having just been read. *)
Fixpoint has_run (p : ascii -> bool) (need run : nat) (s : string) : bool :=
  (need <=? run) ||
  match s with
  | EmptyString => false
  | String c s' => if p c then has_run p need (S run) s' else has_run p need 0 s'
  end.

(** [re.search(r'\d{11}', s)] as a truth value. *)
Definition search_d11 (s : string) : bool := has_run isdecimal 11 0 s.

(** [re.search(r'\s{2,}', s)] as a truth value. *)
Definition search_s2 (s : string) : bool := has_run isspace 2 0 s.

(** [re.split(r'\s+', s)]; [prev_ws] tells that the previous character was
    white space. *)
Fixpoint re_split_ws_from (prev_ws : bool) (s : string) : list string :=
  match s with
  | EmptyString => [EmptyString]
  | String c s' =>
      if isspace c
      then (if prev_ws then re_split_ws_from true s'
            else EmptyString :: re_split_ws_from true s')
      else cons_head c (re_split_ws_from false s')
  end.

Definition re_split_ws (s : string) : list string := re_split_ws_from false s.

(** [s in text] for a substring [s]. *)
Fixpoint contains (sub s : string) : bool :=
  prefix sub s ||
  match s with
  | EmptyString => false
  | String _ s' => contains sub s'
  end.

(** [c.lower()]: the capital letters are A to Z and, above 127, the code
    points 192 to 222 but for the multiplication sign. *)
Definition lower_chr (c : ascii) : ascii :=
  if ((65 <=? code c) && (code c <=? 90))
     || ((192 <=? code c) && (code c <=? 222) && negb (code c =? 215))
  then ascii_of_nat (code c + 32)
  else c.

Fixpoint lower (s : string) : string :=
  match s with
  | EmptyString => EmptyString
  | String c s' => String (lower_chr c) (lower s')
  end.

(** [s.replace(c, "")] for a one-character [c]. *)
Fixpoint remove_chr (c : ascii) (s : string) : string :=
  match s with
  | EmptyString => EmptyString
  | String d s' => if Ascii.eqb d c then remove_chr c s' else String d (remove_chr c s')
  end.

(** [s.replace(c, d)] for one-character [c] and [d]. *)
Fixpoint replace_chr (c d : ascii) (s : string) : string :=
  match s with
  | EmptyString => EmptyString
  | String x s' =>
      String (if Ascii.eqb x c then d else x) (replace_chr c d s')
  end.

(** [all(p(ch) for ch in s)]. *)
Fixpoint all_chr (p : ascii -> bool) (s : string) : bool :=
  match s with
  | EmptyString => true
  | String c s' => p c && all_chr p s'
  end.

Definition slash : ascii := "/"%char.
Definition backslash : ascii := ascii_of_nat 92.
Definition dash : ascii := "-"%char.

(** The characters of a master number as it is printed: digits and the
    dash. *)
Definition printed (c : ascii) : bool := isdigit c || Ascii.eqb c dash.

(** [s[:n]] and [s[n:]]. *)
Definition slice_to (n : nat) (s : string) : string := substring 0 n s.
Definition slice_from (n : nat) (s : string) : string :=
  substring n (String.length s - n) s.

End PyStr.

(** A parsed batch item: the dictionary the parsers append, whose
    [checkbook_hawbs] key is present only when it is not [None]. *)
Record Item : Type := mkItem {
  mawb : string;
  airport_code : option string;
  customer : option string;
  checkbook_hawbs : option string
}.

(** What the body of the line loop decides before normalisation: [continue],
    or the local variables handed to [normalize_mawb]. *)
Inductive LineVars : Type :=
| Continue
| Vars (mawb_raw : option string) (airport customer checkbook : option string).

(** [x if x else None] on a variable that holds a string or [None]. *)
Definition falsy_to_none (v : option string) : option string :=
  match v with
  | Some s => PyStr.or_none s
  | None => None
  end.

(** ** service/netchb_duty/input_parser.py *)
Module InputParser.
Import PyStr.

(** [normalize_mawb]; the argument is [None] when the caller passes [None],
    on which the generator expression raises [TypeError]. *)
Definition normalize_mawb (mawb : option string) : result string :=
  match mawb with
  | None => Raise (TypeError "'NoneType' object is not iterable")
  | Some m =>
      let digits := digits_of m in
      if String.length digits =? 11 then Ok digits
      else Raise (ValueError ("MAWB '" ++ m ++ "' must contain exactly 11 digits, found "
                              ++ str_of_nat (String.length digits)))
  end.

(** The branches shared by the tab and the comma separated formats. In the
    five-column branch without a match [airport_code] and [customer] are not
    assigned; they are never read, since [normalize_mawb None] raises first. *)
Definition columns (parts : list string) : LineVars :=
  let p i := nth i parts EmptyString in
  if 5 <=? List.length parts then
    if search_d11 (p 4)
    then Vars (Some (p 4)) (or_none (p 0)) (or_none (p 1)) (or_none (p 3))
    else Vars None None None None
  else if 3 <=? List.length parts then
    Vars (Some (p 2)) (or_none (p 0)) (or_none (p 1)) None
  else if List.length parts =? 2 then
    if search_d11 (p 0) then
      Vars (Some (p 0))
           (if truthy (p 1) && negb (search_d11 (p 1)) then Some (p 1) else None)
           None None
    else if search_d11 (p 1) then
      Vars (Some (p 1))
           (if truthy (p 0) && negb (search_d11 (p 0)) then Some (p 0) else None)
           None None
    else Continue
  else Vars (Some (p 0)) None None None.

(** The first part holding eleven consecutive digits, with its index. *)
Fixpoint find_mawb (idx : nat) (parts : list string) : option (nat * string) :=
  match parts with
  | [] => None
  | part :: rest =>
      if search_d11 part then Some (idx, part) else find_mawb (S idx) rest
  end.

Definition spaced (parts : list string) : LineVars :=
  let p i := nth i parts EmptyString in
  match find_mawb 0 parts with
  | Some (mawb_idx, mawb_part) =>
      if (5 <=? List.length parts) && (mawb_idx =? 4) then
        Vars (Some mawb_part) (or_none (p 0)) (or_none (p 1)) (or_none (p 3))
      else
        let before_mawb := firstn mawb_idx parts in
        if 2 <=? List.length before_mawb then
          Vars (Some mawb_part) (or_none (nth 0 before_mawb EmptyString))
               (or_none (nth 1 before_mawb EmptyString)) None
        else if List.length before_mawb =? 1 then
          Vars (Some mawb_part) (or_none (nth 0 before_mawb EmptyString)) None None
        else Vars (Some mawb_part) None None None
  | None =>
      Vars (Some (p 0))
           (if 1 <? List.length parts then Some (p 1) else None)
           (if 2 <? List.length parts then Some (p 2) else None)
           None
  end.

(** The format detection of one stripped, non-empty line. *)
Definition line_vars (line : string) : LineVars :=
  if contains_chr tab line then columns (map strip (split_chr tab line))
  else if contains_chr comma line then columns (map strip (split_chr comma line))
  else if search_s2 line || (2 <=? count_chr space line)
  then spaced (map strip (re_split_ws line))
  else Vars (Some line) None None None.

(** The [for] loop over the lines; [results] is the list built so far. *)
Fixpoint parse_lines (lines : list string) (results : list Item)
  : result (list Item) :=
  match lines with
  | [] => Ok results
  | raw :: rest =>
      let line := strip raw in
      if is_empty line then parse_lines rest results
      else
        match line_vars line with
        | Continue => parse_lines rest results
        | Vars mawb_raw airport cust checkbook =>
            match normalize_mawb mawb_raw with
            | Ok normalized =>
                parse_lines rest
                  (results ++ [mkItem normalized (falsy_to_none airport)
                                      (falsy_to_none cust) checkbook])
            | Raise (ValueError _) => parse_lines rest results
            | Raise e => Raise e
            end
        end
  end.

Definition parse_mawb_input (text : string) : result (list Item) :=
  if is_empty text || is_empty (strip text) then Ok []
  else parse_lines (split_chr newline (strip text)) [].

End InputParser.

(** ** utils/mawb_parser.py *)
Module MawbParser.
Import PyStr.

Definition normalize_mawb (mawb : string) : result string :=
  let digits := digits_of mawb in
  if String.length digits =? 11 then Ok digits
  else Raise (ValueError ("MAWB '" ++ mawb ++ "' must contain exactly 11 digits, found "
                          ++ str_of_nat (String.length digits))).

(** [len(''.join(ch for ch in s if ch.isdigit())) == 11]. *)
Definition has11 (s : string) : bool := String.length (digits_of s) =? 11.

(** [l[a:b]] for indices [a <= b]. *)
Definition slice (l : list string) (a b : nat) : list string :=
  firstn (b - a) (skipn a l).

Definition tab_s : string := String tab EmptyString.
Definition newline_s : string := String newline EmptyString.

(** The look-ahead [for j in range(i, min(i + 10, len(all_lines)))]: the first
    [j] whose line holds eleven digits and for which one of the two tests on
    [j - i] succeeds. *)
Definition scan (all_lines : list string) (i : nat) : option nat :=
  find (fun j => has11 (nth j all_lines EmptyString)
                 && ((4 <=? j - i) || (2 <=? j - i)))
       (seq i (Nat.min (i + 10) (List.length all_lines) - i)).

(** The [while i < len(all_lines)] loop, as the list of groups it appends
    joined with tabs; every iteration advances [i], so [fuel] iterations are
    enough when [fuel] is the number of lines. *)
Fixpoint group_loop (fuel : nat) (all_lines : list string) (i : nat)
  : list (list string) :=
  match fuel with
  | 0 => []
  | S fuel' =>
      if i <? List.length all_lines then
        if (i + 4 <? List.length all_lines)
           && has11 (nth (i + 4) all_lines EmptyString)
        then slice all_lines i (i + 5) :: group_loop fuel' all_lines (i + 5)
        else if (i + 2 <? List.length all_lines)
                && has11 (nth (i + 2) all_lines EmptyString)
        then slice all_lines i (i + 3) :: group_loop fuel' all_lines (i + 3)
        else
          match scan all_lines i with
          | Some j => slice all_lines i (j + 1) :: group_loop fuel' all_lines (j + 1)
          | None => group_loop fuel' all_lines (i + 1)
          end
      else []
  end.

Definition groups (all_lines : list string) : list (list string) :=
  group_loop (List.length all_lines) all_lines 0.

Definition reconstructed_lines (all_lines : list string) : list string :=
  map (join tab_s) (groups all_lines).

(** [[line.strip() for line in text_stripped.split('\n') if line.strip()]]. *)
Definition all_lines_of (text_stripped : string) : list string :=
  map strip (filter (fun line => truthy (strip line))
                    (split_chr newline text_stripped)).

(** The text the line loop reads: the stripped input, or the reconstructed
    rows when the vertical-paste recovery produced any. *)
Definition preprocess (text : string) : string :=
  let text_stripped := strip text in
  let has_tabs := contains_chr tab text_stripped in
  let all_lines := all_lines_of text_stripped in
  if negb has_tabs && (1 <? List.length all_lines) then
    match reconstructed_lines all_lines with
    | [] => text_stripped
    | rows => join newline_s rows
    end
  else text_stripped.

Definition columns (parts : list string) : LineVars :=
  let p i := nth i parts EmptyString in
  if 5 <=? List.length parts then
    if has11 (p 4)
    then Vars (Some (p 4)) (or_none (p 0)) (or_none (p 1)) (or_none (p 3))
    else Vars None None None None
  else if 3 <=? List.length parts then
    Vars (Some (p 2)) (or_none (p 0)) (or_none (p 1)) None
  else if List.length parts =? 2 then
    if has11 (p 0) then
      Vars (Some (p 0))
           (if truthy (p 1) && negb (has11 (p 1)) then Some (p 1) else None)
           None None
    else if has11 (p 1) then
      Vars (Some (p 1))
           (if truthy (p 0) && negb (has11 (p 0)) then Some (p 0) else None)
           None None
    else Continue
  else Vars (Some (p 0)) None None None.

Fixpoint find_mawb (idx : nat) (parts : list string) : option (nat * string) :=
  match parts with
  | [] => None
  | part :: rest =>
      if has11 part then Some (idx, part) else find_mawb (S idx) rest
  end.

Definition spaced (parts : list string) : LineVars :=
  let p i := nth i parts EmptyString in
  match find_mawb 0 parts with
  | Some (mawb_idx, mawb_part) =>
      if (5 <=? List.length parts) && (mawb_idx =? 4) then
        Vars (Some mawb_part) (or_none (p 0)) (or_none (p 1)) (or_none (p 3))
      else
        let before_mawb := firstn mawb_idx parts in
        if 2 <=? List.length before_mawb then
          Vars (Some mawb_part) (or_none (nth 0 before_mawb EmptyString))
               (or_none (nth 1 before_mawb EmptyString)) None
        else if List.length before_mawb =? 1 then
          Vars (Some mawb_part) (or_none (nth 0 before_mawb EmptyString)) None None
        else Vars (Some mawb_part) None None None
  | None =>
      Vars (Some (p 0))
           (if 1 <? List.length parts then Some (p 1) else None)
           (if 2 <? List.length parts then Some (p 2) else None)
           None
  end.

Definition line_vars (line : string) : LineVars :=
  if contains_chr tab line then columns (map strip (split_chr tab line))
  else if contains_chr comma line then columns (map strip (split_chr comma line))
  else if search_s2 line || (2 <=? count_chr space line)
  then spaced (map strip (re_split_ws line))
  else Vars (Some line) None None None.

(** The [for] loop over the lines. A line whose [mawb_raw] is [None] is
    skipped before normalisation, and [ValueError] is the only exception
    [normalize_mawb] raises, so the loop always returns. *)
Fixpoint parse_lines (lines : list string) (results : list Item) : list Item :=
  match lines with
  | [] => results
  | raw :: rest =>
      let line := strip raw in
      if is_empty line then parse_lines rest results
      else
        match line_vars line with
        | Continue => parse_lines rest results
        | Vars None _ _ _ => parse_lines rest results
        | Vars (Some mawb_raw) airport cust checkbook =>
            match normalize_mawb mawb_raw with
            | Ok normalized =>
                parse_lines rest
                  (results ++ [mkItem normalized (falsy_to_none airport)
                                      (falsy_to_none cust) checkbook])
            | Raise _ => parse_lines rest results
            end
        end
  end.

Definition parse_mawb_input (text : string) : list Item :=
  if is_empty text || is_empty (strip text) then []
  else parse_lines (split_chr newline (preprocess text)) [].

(** *** The grouping as the specification words it

    The same walk, except for the look-ahead, which takes the next line
    holding eleven digits among the ten lines from [i] on, whatever its
    distance from [i]. *)
Definition scan_spec (all_lines : list string) (i : nat) : option nat :=
  find (fun j => has11 (nth j all_lines EmptyString))
       (seq i (Nat.min (i + 10) (List.length all_lines) - i)).

Fixpoint group_loop_spec (fuel : nat) (all_lines : list string) (i : nat)
  : list (list string) :=
  match fuel with
  | 0 => []
  | S fuel' =>
      if i <? List.length all_lines then
        if (i + 4 <? List.length all_lines)
           && has11 (nth (i + 4) all_lines EmptyString)
        then slice all_lines i (i + 5) :: group_loop_spec fuel' all_lines (i + 5)
        else if (i + 2 <? List.length all_lines)
                && has11 (nth (i + 2) all_lines EmptyString)
        then slice all_lines i (i + 3) :: group_loop_spec fuel' all_lines (i + 3)
        else
          match scan_spec all_lines i with
          | Some j =>
              slice all_lines i (j + 1) :: group_loop_spec fuel' all_lines (j + 1)
          | None => group_loop_spec fuel' all_lines (i + 1)
          end
      else []
  end.

Definition groups_spec (all_lines : list string) : list (list string) :=
  group_loop_spec (List.length all_lines) all_lines 0.

(** The text the line loop would read with that grouping. *)
Definition preprocess_spec (text : string) : string :=
  let text_stripped := strip text in
  let has_tabs := contains_chr tab text_stripped in
  let all_lines := all_lines_of text_stripped in
  if negb has_tabs && (1 <? List.length all_lines) then
    match map (join tab_s) (groups_spec all_lines) with
    | [] => text_stripped
    | rows => join newline_s rows
    end
  else text_stripped.

(** The items the specification's wording gives. *)
Definition parse_vertical_spec (text : string) : list Item :=
  if is_empty text || is_empty (strip text) then []
  else parse_lines (split_chr newline (preprocess_spec text)) [].

(** A line as the recovery sees it: stripped, not empty, and (the blob
    holding no tab) free of tabs and of line breaks. *)
Definition clean (x : string) : Prop :=
  strip x = x /\ is_empty x = false
  /\ contains_chr tab x = false /\ contains_chr newline x = false.

(** *** The grouping the code performs, as a relation

    [Grouping lines i gs]: walking [lines] from position [i] emits the
    groups [gs]. *)
Definition five_at (lines : list string) (i : nat) : Prop :=
  i + 4 < List.length lines /\ has11 (nth (i + 4) lines EmptyString) = true.

Definition three_at (lines : list string) (i : nat) : Prop :=
  i + 2 < List.length lines /\ has11 (nth (i + 2) lines EmptyString) = true.

(** Line [j] can close a group opened at [i] by the look-ahead: it is one
    of the ten lines from [i] on, holds eleven digits and lies two lines or
    more after [i]. *)
Definition closes (lines : list string) (i j : nat) : Prop :=
  i <= j /\ j < i + 10 /\ j < List.length lines
  /\ has11 (nth j lines EmptyString) = true /\ 2 <= j - i.

Inductive Grouping (lines : list string) : nat -> list (list string) -> Prop :=
| Grouping_end i :
    List.length lines <= i ->
    Grouping lines i []
| Grouping_five i gs :
    five_at lines i ->
    Grouping lines (i + 5) gs ->
    Grouping lines i (slice lines i (i + 5) :: gs)
| Grouping_three i gs :
    i < List.length lines -> ~ five_at lines i -> three_at lines i ->
    Grouping lines (i + 3) gs ->
    Grouping lines i (slice lines i (i + 3) :: gs)
| Grouping_scan i j gs :
    i < List.length lines -> ~ five_at lines i -> ~ three_at lines i ->
    closes lines i j ->
    (forall j', j' < j -> ~ closes lines i j') ->
    Grouping lines (j + 1) gs ->
    Grouping lines i (slice lines i (j + 1) :: gs)
| Grouping_skip i gs :
    i < List.length lines -> ~ five_at lines i -> ~ three_at lines i ->
    (forall j, ~ closes lines i j) ->
    Grouping lines (i + 1) gs ->
    Grouping lines i gs.

End MawbParser.

(** ** Python dictionaries

    A [dict] with string keys, in insertion order: assigning to a key that is
    present replaces its value in place, a new key goes to the end. *)
Module PyDict.

Section Dict.
Context {V : Type}.

Definition dict : Type := list (string * V).

Fixpoint get (d : dict) (k : string) : option V :=
  match d with
  | [] => None
  | (k', v) :: rest => if String.eqb k' k then Some v else get rest k
  end.

(** [d[k] = v]. *)
Fixpoint set (d : dict) (k : string) (v : V) : dict :=
  match d with
  | [] => [(k, v)]
  | (k', v') :: rest =>
      if String.eqb k' k then (k', v) :: rest else (k', v') :: set rest k v
  end.

(** [d.update(other)]. *)
Definition update (d other : dict) : dict :=
  fold_left (fun acc kv => set acc (fst kv) (snd kv)) other d.

Definition keys (d : dict) : list string := map fst d.

Definition has_key (d : dict) (k : string) : bool :=
  match get d k with Some _ => true | None => false end.

End Dict.
Arguments dict V : clear implicits.

End PyDict.

(** ** Dates: [datetime], [timedelta] and [strftime] *)
Module PyDate.

#[local] Open Scope Z_scope.

(** A naive [datetime]: the proleptic Gregorian ordinal of its day (1 is 1
    January of year 1, as [toordinal]) and the microseconds since midnight. *)
Record datetime : Type := mkDatetime {
  ordinal : Z;
  micros : Z
}.

Definition day_us : Z := 86400 * 1000000.

(** The instant as microseconds since the midnight before ordinal 0. *)
Definition instant (d : datetime) : Z := ordinal d * day_us + micros d.

(** [(a - b).days]: a [timedelta] is normalised with a non-negative time of
    day, so its days are the floor of the difference. *)
Definition days_between (a b : datetime) : Z := (instant a - instant b) / day_us.

(** [d + timedelta(days=n)]. *)
Definition add_days (d : datetime) (n : Z) : datetime :=
  mkDatetime (ordinal d + n) (micros d).

(** Year, month and day of an ordinal. *)
Definition civil (ord : Z) : Z * Z * Z :=
  let z := ord + 305 in
  let era := z / 146097 in
  let doe := z - era * 146097 in
  let yoe := (doe - doe / 1460 + doe / 36524 - doe / 146096) / 365 in
  let doy := doe - (365 * yoe + yoe / 4 - yoe / 100) in
  let mp := (5 * doy + 2) / 153 in
  let d := doy - (153 * mp + 2) / 5 + 1 in
  let m := if mp <? 10 then mp + 3 else mp - 9 in
  let y := yoe + era * 400 + (if m <=? 2 then 1 else 0) in
  (y, m, d).

Definition digit_chr (n : Z) : ascii := ascii_of_nat (48 + Z.to_nat (n mod 10)).

(** A number below 100 on two digits, as [%m], [%d] and [%y] print it. *)
Definition two_digits (n : Z) : string :=
  String (digit_chr (n / 10)) (String (digit_chr n) EmptyString).

(** [d.strftime("%m%d%y")]. *)
Definition strftime_mmddyy (d : datetime) : string :=
  let '(y, m, dd) := civil (ordinal d) in
  (two_digits m ++ two_digits dd ++ two_digits (y mod 100))%string.

(** [d.strftime("%m/%d/%y")]. *)
Definition strftime_slashes (d : datetime) : string :=
  let '(y, m, dd) := civil (ordinal d) in
  (two_digits m ++ "/" ++ two_digits dd ++ "/" ++ two_digits (y mod 100))%string.

End PyDate.

(** ** Python floats: binary64 values and their two-decimal format *)
Module PyFloat.

#[local] Open Scope Z_scope.

(** The whole number nearest to [m * 2^e * 100], ties to even. *)
Definition cents (m : positive) (e : Z) : Z :=
  if 0 <=? e then Z.pos m * 2 ^ e * 100
  else
    let d := 2 ^ (- e) in
    let n := Z.pos m * 100 in
    let q := n / d in
    let r := n mod d in
    if 2 * r <? d then q
    else if d <? 2 * r then q + 1
    else if Z.even q then q else q + 1.

(** [f"{x:.2f}"]: the exact value of [x] rounded to two decimals, ties to
    even, with the sign of [x]. *)
Definition format_2f (x : float) : string :=
  match Prim2SF x with
  | S754_nan => "nan"
  | S754_infinity s => if s then "-inf" else "inf"
  | S754_zero s => if s then "-0.00" else "0.00"
  | S754_finite s m e =>
      let c := cents m e in
      ((if s then "-" else "") ++ str_of_Z (c / 100) ++ "."
       ++ PyDate.two_digits (c mod 100))%string
  end.

(** The float of a whole number below [2^63] in absolute value (exact
    below [2^53]). *)
Definition of_Z (z : Z) : float :=
  if z <? 0 then PrimFloat.opp (PrimFloat.of_uint63 (Uint63.of_Z (- z)))
  else PrimFloat.of_uint63 (Uint63.of_Z z).

End PyFloat.

(** ** The custom report request: [_build_custom_report_payload] *)
Module CustomReport.
Import PyStr PyDict PyDate.

(** A form value: a string, or a list of strings sent as repeated keys. *)
Inductive FormValue : Type :=
| Str (s : string)
| StrList (l : list string).

(** [template_payload]; a list field that is absent reads as the empty
    list, [defaultValues] as the empty dictionary. *)
Record TemplatePayload : Type := mkTemplate {
  defaultValues : dict FormValue;
  headerFields : list string;
  manifestFields : list string;
  invoiceFields : list string;
  lineFields : list string;
  tariffFields : list string
}.

(** [if fields: payload[key] = fields]. *)
Definition set_fields (payload : dict FormValue) (key : string)
  (fields : list string) : dict FormValue :=
  match fields with
  | [] => payload
  | _ => set payload key (StrList fields)
  end.

(** The end date of the query; [today] is what [datetime.now()] returned. *)
Definition end_date (today oldest_entry : datetime) : datetime :=
  let days_old := days_between today oldest_entry in
  if (25 <=? days_old)%Z then add_days oldest_entry 25 else today.

Definition _build_custom_report_payload (today : datetime)
  (template_payload : TemplatePayload) (mawb_digits : string)
  (oldest_entry : datetime) : dict FormValue :=
  let payload := set [] "templateId" (Str "0") in
  let payload := set payload "begin" (Str (strftime_mmddyy oldest_entry)) in
  let payload :=
    set payload "end" (Str (strftime_mmddyy (end_date today oldest_entry))) in
  let payload := set payload "masterBill" (Str (digits_of mawb_digits)) in
  let payload := update payload (defaultValues template_payload) in
  let payload := set_fields payload "headerFields" (headerFields template_payload) in
  let payload := set_fields payload "manifestFields" (manifestFields template_payload) in
  let payload := set_fields payload "invoiceFields" (invoiceFields template_payload) in
  let payload := set_fields payload "lineFields" (lineFields template_payload) in
  set_fields payload "tariffFields" (tariffFields template_payload).

End CustomReport.

(** ** The database retry wrapper: [NetChbDutyDatabaseManager._execute] *)
Module Database.
Import PyStr.

(** An exception as the wrapper reads it: [type(exc).__name__] and
    [str(exc)]. *)
Record Exc : Type := mkExc {
  exc_type : string;
  exc_str : string
}.

(** The wrapper returns a value or re-raises the exception it caught. *)
Inductive result_exc (A : Type) : Type :=
| Returned (a : A)
| Raised (e : Exc).
Arguments Returned {A} a.
Arguments Raised {A} e.

Definition is_resource_error (e : Exc) : bool :=
  contains "Resource temporarily unavailable" (exc_str e)
  || contains "Errno 35" (exc_str e)
  || contains "temporarily unavailable" (lower (exc_str e))
  || contains "EAGAIN" (exc_str e)
  || contains "EWOULDBLOCK" (exc_str e).

Definition is_connection_error (e : Exc) : bool :=
  contains "Server disconnected" (exc_str e)
  || contains "RemoteProtocolError" (exc_type e)
  || contains "ConnectionError" (exc_type e)
  || contains "disconnected" (lower (exc_str e))
  || contains "connection reset" (lower (exc_str e))
  || contains "connection closed" (lower (exc_str e)).

Definition max_retries : nat := 3.

(** [0.5 * (2 ** attempt)], a binary64 float. *)
Definition wait_time (attempt : nat) : float :=
  PrimFloat.mul 0.5%float
    (PrimFloat.of_uint63 (Uint63.of_Z (2 ^ Z.of_nat attempt))).

Section Execute.

(** The values a query returns, with Python's truthiness on them. *)
Variable Value : Type.
Variable value_truthy : Value -> bool.

(** What the wrapper reads of a response: its [data] attribute ([None] when
    absent or [None]), and for a response that is a [dict], the value of
    [response.get("data", response)]. *)
Record Response : Type := mkResponse {
  data_attr : option Value;
  dict_data : option Value
}.

(** One call of [query.execute()]. *)
Inductive Attempt : Type :=
| Succeeds (r : Response)
| Fails (e : Exc).

(** What the wrapper does to the outside, in order. *)
Inductive Event : Type :=
| Execute (attempt : nat)
| Recreate (ok : bool)
| Sleep (seconds : float).

(** [data or default] after the two reads of the response. *)
Definition data_or_default (r : Response) (default : option Value)
  : option Value :=
  let data :=
    match data_attr r with
    | Some v => Some v
    | None => dict_data r
    end in
  match data with
  | Some v => if value_truthy v then Some v else default
  | None => default
  end.

(** The answer of the [attempt]-th call of [query.execute()], counted from 0. *)
Variable query : nat -> Attempt.
(** Whether [_get_supabase_client] succeeds when called after that attempt. *)
Variable recreate_ok : nat -> bool.
Variable default : option Value.

(** The client is re-created for a connection error; a failure to do so is
    logged and ignored. *)
Definition recreate_events (e : Exc) (attempt : nat) : list Event :=
  if is_connection_error e then [Recreate (recreate_ok attempt)] else [].

(** The [for attempt in range(max_retries)] loop from [attempt] on, with
    [remaining] iterations left. *)
Fixpoint execute_from (remaining attempt : nat)
  : result_exc (option Value) * list Event :=
  match remaining with
  | 0 => (Returned default, [])
  | S remaining' =>
      match query attempt with
      | Succeeds r => (Returned (data_or_default r default), [Execute attempt])
      | Fails e =>
          if (is_resource_error e || is_connection_error e)
             && (attempt <? max_retries - 1)
          then
            let '(res, events) := execute_from remaining' (S attempt) in
            (res, Execute attempt :: recreate_events e attempt
                    ++ Sleep (wait_time attempt) :: events)
          else (Raised e, [Execute attempt])
      end
  end.

Definition _execute : result_exc (option Value) * list Event :=
  execute_from max_retries 0.

(** The number of calls of [query.execute()] in a trace. *)
Definition executions (events : list Event) : nat :=
  List.length (filter (fun ev => match ev with Execute _ => true | _ => false end)
                      events).

(** The durations of the calls of [time.sleep] in a trace, in order. *)
Definition sleeps (events : list Event) : list float :=
  flat_map (fun ev => match ev with Sleep seconds => [seconds] | _ => [] end)
           events.

End Execute.

End Database.

(** ** The per-MAWB pipeline: [NetChbDutyRunner.process_mawb]

    The portal, the object store and the PDF tools are outside the program;
    a [World] fixes what each of them answers during one run. Log messages
    are not modelled. *)
Module Runner.
Import PyStr PyDict PyDate.

(** The summary: a [Dict[str, str]]. *)
Definition Summary : Type := dict string.

(** [sections], each flag read with [sections.get(...)]. *)
Record Sections : Type := mkSections {
  ams : bool;
  entries : bool;
  custom : bool;
  download_7501_pdf : bool
}.

(** *** AMS *)

(** What [_parse_ams_search_results] returns. *)
Inductive AmsSearch : Type :=
| SearchUnparsed
| SearchMasterNotFound
| SearchRow (master_link : option string) (total_hawbs arrival_date : string).

(** What [_parse_ams_master_page] returns; the three counts are written
    there as [str(int(...))]. *)
Record MasterData : Type := mkMasterData {
  duty : string;
  t11_entries : Z;
  entries_accepted : Z;
  houses_7501 : Z
}.

(** The portal during the AMS section: the search request fails (no
    context, no cookies, transport or status error), or it answers and the
    master page request then answers or fails. *)
Inductive AmsWorld : Type :=
| AmsRequestFails (e : exn)
| AmsAnswers (search : AmsSearch) (master : result MasterData).

(** A section mutates the summary and then returns or raises. *)
Definition _process_ams_section_http (w : AmsWorld) (summary : Summary)
  : Summary * option exn :=
  match w with
  | AmsRequestFails e => (summary, Some e)
  | AmsAnswers SearchMasterNotFound _ =>
      (set summary "Master Status" "Not Found", None)
  | AmsAnswers SearchUnparsed _ =>
      (summary, Some (RuntimeError "AMS HTTP STEP 2 ERROR: Failed to parse search results"))
  | AmsAnswers (SearchRow master_link total_hawbs arrival_date) master =>
      let summary := set summary "AMS Total HAWBs" total_hawbs in
      let summary := set summary "AMS Arrival Date" arrival_date in
      if match master_link with Some l => truthy l | None => false end then
        match master with
        | Raise e =>
            (summary, Some (RuntimeError ("AMS HTTP STEP 3 failed: " ++ exn_str e)))
        | Ok master_data =>
            let summary := set summary "AMS Duty" (duty master_data) in
            let summary :=
              set summary "AMS Total T-11 Entries" (str_of_Z (t11_entries master_data)) in
            let summary :=
              set summary "AMS Entries Accepted" (str_of_Z (entries_accepted master_data)) in
            let summary :=
              set summary "7501 Total Houses" (str_of_Z (houses_7501 master_data)) in
            let rejected := (t11_entries master_data - entries_accepted master_data)%Z in
            (set summary "Rejected Entries" (str_of_Z rejected), None)
        end
      else
        (summary, Some (RuntimeError "AMS HTTP STEP 2 ERROR: No master link found in search results"))
  end.

(** *** Entries *)

Record EntryRow : Type := mkEntryRow {
  entry_date : datetime;
  link : string;
  query_string : string
}.

(** The portal during the Entries section. *)
Inductive EntriesWorld : Type :=
| EntriesRequestFails (e : exn)
| EntriesNotFound
| EntriesFound (oldest_entry_date : option datetime) (rows : list EntryRow).

(** The dictionary the Entries section returns; [entry_rows] is [None] when
    the key is absent. *)
Record EntriesData : Type := mkEntriesData {
  oldest_entry : option datetime;
  entry_rows : option (list EntryRow);
  entries_not_found : bool
}.

Definition _process_entries_section_http (w : EntriesWorld) (summary : Summary)
  : Summary * result EntriesData :=
  match w with
  | EntriesRequestFails e => (summary, Raise e)
  | EntriesNotFound =>
      (set summary "Entries Status" "Not Found", Ok (mkEntriesData None None true))
  | EntriesFound oldest rows =>
      let summary :=
        match oldest with
        | Some d => set summary "Entry Date" (strftime_slashes d)
        | None => summary
        end in
      (summary, Ok (mkEntriesData oldest (Some rows) false))
  end.

(** *** Custom report *)

(** What the workbook parsers return (both dialects return these keys). *)
Record ExcelSummary : Type := mkExcelSummary {
  report_duty : string;
  report_total_house : string;
  total_informal_duty : string;
  complete_total_duty : string;
  excel_entry_date : string;
  excel_cargo_release_date : string
}.

(** The portal and the object store during the custom report: the request,
    the content type check, the file or the workbook fails, or the workbook
    is parsed and the early upload then returns [(storage_path, signed_url)]
    or fails. *)
Inductive CustomAnswer : Type :=
| CustomFails (e : exn)
| CustomParsed (excel : ExcelSummary) (upload : result (string * string)).

Record FormatRecord : Type := mkFormatRecord {
  template_identifier : string;
  template_payload : option CustomReport.TemplatePayload
}.

Definition excel_keys (x : ExcelSummary) : Summary :=
  [ ("Report Duty", report_duty x);
    ("Report Total House", report_total_house x);
    ("Total Informal Duty", total_informal_duty x);
    ("Complete Total Duty", complete_total_duty x);
    ("Entry Date", excel_entry_date x);
    ("Cargo Release Date", excel_cargo_release_date x) ].

Definition report_file (mawb_digits : string) : string :=
  substring 0 3 mawb_digits ++ "-"
  ++ substring 3 (String.length mawb_digits - 3) mawb_digits
  ++ " customizable report.xlsx".

Definition _process_custom_report_http
  (answer : dict CustomReport.FormValue -> CustomAnswer) (today : datetime)
  (mawb_digits : string) (oldest : datetime)
  (payload : CustomReport.TemplatePayload)
  : result (option string * Summary) :=
  let report_summary : Summary :=
    [ ("Report Duty", "N/A"); ("Report Total House", "N/A");
      ("Total Informal Duty", "N/A"); ("Complete Total Duty", "N/A");
      ("Cargo Release Date", "N/A") ] in
  let form_data :=
    CustomReport._build_custom_report_payload today payload mawb_digits oldest in
  match answer form_data with
  | CustomFails e => Raise e
  | CustomParsed excel upload =>
      let report_summary := update report_summary (excel_keys excel) in
      let report_summary :=
        match upload with
        | Ok (storage_path, signed_url) =>
            set (set report_summary "excel_storage_path" storage_path)
                "excel_download_url" signed_url
        | Raise _ => report_summary
        end in
      Ok (Some (report_file mawb_digits), report_summary)
  end.

Definition _process_custom_report
  (answer : dict CustomReport.FormValue -> CustomAnswer) (today : datetime)
  (mawb_digits : string) (oldest : datetime) (format_record : option FormatRecord)
  : result (option string * Summary) :=
  match format_record with
  | None => Raise (RuntimeError "format_record is required for Custom Report HTTP method")
  | Some fr =>
      match template_payload fr with
      | None =>
          Raise (RuntimeError "template_payload is required in format_record for Custom Report HTTP method")
      | Some tp =>
          match CustomReport.headerFields tp, CustomReport.manifestFields tp with
          | _ :: _, _ :: _ =>
              _process_custom_report_http answer today mawb_digits oldest tp
          | _, _ =>
              Raise (RuntimeError "template_payload must contain headerFields and manifestFields for Custom Report HTTP method")
          end
      end
  end.

(** *** The world of one run *)

Record World : Type := mkWorld {
  page_initialized : bool;
  now : datetime;
  ams_world : AmsWorld;
  entries_world : EntriesWorld;
  custom_answer : dict CustomReport.FormValue -> CustomAnswer;
  (** [context.storage_state()] in the PDF section: it raises, or tells
      whether the session holds cookies. *)
  pdf_cookies : result bool;
  (** Whether a statement of the verification [try] block raises. *)
  gate_raises : bool;
  (** [_download_7501_batch_pdf_http]: it raises, returns [None], or
      returns a path, with the answer of [pdf_path.exists()]. *)
  pdf_download : result (option bool);
  (** The import of [pdf_extractor] and the call of
      [extract_entries_and_duty_from_pdf]: [(entry_count, total_duty)]. *)
  pdf_extract : result (Z * float);
  (** [NetChbDutyStorageManager().upload_pdf]: [(pdf_storage_path, pdf_url)]. *)
  pdf_upload : result (string * option string)
}.

(** How the verification [try] block of the PDF section ends. *)
Inductive GateOutcome : Type :=
| GatePassed
| GateFailed
| GateRaised.

(** What a run does, in order: the stages it enters, the verification it
    evaluates with its outcome, and the PDF operations it performs. *)
Inductive Call : Type :=
| CallAms
| CallEntries
| CallCustomReport
| EvalGate (g : GateOutcome)
| CallPdfDownload
| CallPdfExtract
| CallPdfUpload.

(** The calls of the blocks before the PDF section. *)
Definition early (c : Call) : Prop :=
  c = CallAms \/ c = CallEntries \/ c = CallCustomReport.

Ltac early_calls :=
  repeat (apply Forall_cons; [unfold early; auto|]); apply Forall_nil.

(** [DutyRunResult]; [status] and [error_message] are not fields of the
    dataclass: they exist on the object only once assigned. *)
Record DutyRunResult : Type := mkDutyRunResult {
  result_mawb : string;
  summary : Summary;
  download_path : option string;
  status : option string;
  error_message : option string
}.

Definition _normalize_mawb (mawb : string) : result string :=
  let digits := digits_of mawb in
  if String.length digits =? 11 then Ok digits
  else Raise (ValueError ("MAWB '" ++ mawb ++ "' must contain exactly 11 digits")).

Definition initial_summary (digits : string) (checkbook_hawbs : option string)
  : Summary :=
  [ ("MAWB Number", digits);
    ("AMS Total HAWBs", "N/A");
    ("AMS Duty", "N/A");
    ("AMS Total T-11 Entries", "N/A");
    ("AMS Entries Accepted", "N/A");
    ("Rejected Entries", "N/A");
    ("7501 Total T-11 Entries", "N/A");
    ("7501 Total Houses", "N/A");
    ("7501 Duty", "N/A");
    ("Report Duty", "N/A");
    ("Report Total House", "N/A");
    ("Total Informal Duty", "N/A");
    ("Complete Total Duty", "N/A");
    ("Entry Date", "N/A");
    ("Cargo Release Date", "N/A");
    ("7501 Batch PDF URL", "N/A");
    ("Checkbook HAWBs",
     match checkbook_hawbs with Some c => strip c | None => "N/A" end) ].

(** The seventeen fixed keys of the summary, as the specification lists
    them. *)
Definition fixed_keys : list string :=
  [ "MAWB Number"; "AMS Total HAWBs"; "AMS Duty"; "AMS Total T-11 Entries";
    "AMS Entries Accepted"; "Rejected Entries"; "7501 Total T-11 Entries";
    "7501 Total Houses"; "7501 Duty"; "Report Duty"; "Report Total House";
    "Total Informal Duty"; "Complete Total Duty"; "Entry Date";
    "Cargo Release Date"; "7501 Batch PDF URL"; "Checkbook HAWBs" ].

(** The keys the sections add to the summary beside the fixed ones. *)
Definition optional_keys : list string :=
  [ "Master Status"; "AMS Arrival Date"; "Entries Status";
    "excel_storage_path"; "excel_download_url" ].

(** The keys the verification reads. *)
Definition gate_keys : list string :=
  [ "AMS Total HAWBs"; "7501 Total Houses"; "Report Total House";
    "Checkbook HAWBs"; "Rejected Entries"; "AMS Duty"; "Report Duty" ].

(** The world [w] with another answer to "does the verification raise". *)
Definition with_gate_raises (b : bool) (w : World) : World :=
  mkWorld (page_initialized w) (now w) (ams_world w) (entries_world w)
          (custom_answer w) (pdf_cookies w) b (pdf_download w) (pdf_extract w)
          (pdf_upload w).

(** The summary holds the fixed keys first, in their order, then optional
    ones only. *)
Definition well_keyed (s : Summary) : Prop :=
  exists extras, keys s = (fixed_keys ++ extras)%list /\ incl extras optional_keys.

Definition allowed (k : string) : Prop := In k (fixed_keys ++ optional_keys)%list.

Ltac allowed_key :=
  unfold allowed; simpl; repeat (first [left; reflexivity | right]).

(** *** The pre-PDF verification and the PDF section *)

Section Pipeline.

(** Python's [float(s)] on a string: [None] when it raises [ValueError]. *)
Variable py_float : string -> option float.

(** [parse_value], applied to [summary.get(key)]. *)
Definition parse_value (val : option string) : float :=
  match val with
  | None => 0%float
  | Some v =>
      let val_str := strip (remove_chr ","%char (remove_chr "$"%char v)) in
      match py_float val_str with
      | Some x => x
      | None => 0%float
      end
  end.

(** The closest binary64 value to 0.01. *)
Definition tolerance : float := 0x1.47ae147ae147bp-7%float.

Definition houses_match (summary : Summary) : bool :=
  let ams_hawbs := parse_value (get summary "AMS Total HAWBs") in
  let houses := parse_value (get summary "7501 Total Houses") in
  let report_houses := parse_value (get summary "Report Total House") in
  let checkbook := parse_value (get summary "Checkbook HAWBs") in
  PrimFloat.eqb ams_hawbs houses && PrimFloat.eqb houses report_houses
  && PrimFloat.eqb report_houses checkbook.

Definition rejected_ok (summary : Summary) : bool :=
  PrimFloat.eqb (parse_value (get summary "Rejected Entries")) 0%float.

Definition duties_match (summary : Summary) : bool :=
  let ams_duty := parse_value (get summary "AMS Duty") in
  let report_duty := parse_value (get summary "Report Duty") in
  PrimFloat.leb (PrimFloat.abs (PrimFloat.sub ams_duty report_duty)) tolerance.

(** Every assignment to [should_download] is the last statement of its
    branch, so an exception anywhere in the block reaches the handler with
    no verdict recorded. *)
Definition gate (raises : bool) (summary : Summary) : GateOutcome :=
  if raises then GateRaised
  else if houses_match summary && rejected_ok summary && duties_match summary
  then GatePassed
  else GateFailed.

(** [should_download] once the block is left. *)
Definition should_download (g : GateOutcome) : bool :=
  match g with
  | GatePassed => true
  | GateFailed => false
  | GateRaised => true
  end.

(** The code from the call of [_download_7501_batch_pdf_http] on. *)
Definition download_and_store (w : World) (summary : Summary)
  : Summary * list Call :=
  match pdf_download w with
  | Ok (Some true) =>
      let summary :=
        match pdf_extract w with
        | Ok (entry_count, total_duty) =>
            set (set summary "7501 Total T-11 Entries" (str_of_Z entry_count))
                "7501 Duty" (PyFloat.format_2f total_duty)
        | Raise _ => summary
        end in
      let summary :=
        match pdf_upload w with
        | Ok (_, Some pdf_url) =>
            set summary "7501 Batch PDF URL"
                (if truthy pdf_url && truthy (strip pdf_url) then pdf_url
                 else EmptyString)
        | Ok (_, None) => set summary "7501 Batch PDF URL" EmptyString
        | Raise _ => set summary "7501 Batch PDF URL" EmptyString
        end in
      (summary, [CallPdfDownload; CallPdfExtract; CallPdfUpload])
  | Ok _ => (summary, [CallPdfDownload])
  | Raise _ => (summary, [CallPdfDownload])
  end.

(** The PDF section once entry rows and session cookies are at hand. *)
Definition verify_and_download (w : World) (sections : Sections)
  (summary : Summary) : Summary * list Call :=
  if ams sections && custom sections then
    let g := gate (gate_raises w) summary in
    if should_download g then
      let '(summary, calls) := download_and_store w summary in
      (summary, EvalGate g :: calls)
    else (summary, [EvalGate g])
  else download_and_store w summary.

Definition pdf_section (w : World) (sections : Sections)
  (entries_data : option EntriesData) (summary : Summary)
  : Summary * list Call :=
  if match entries_data with Some ed => entries_not_found ed | None => false end
  then (summary, [])
  else
    match match entries_data with Some ed => entry_rows ed | None => None end with
    | Some (_ :: _) =>
        match pdf_cookies w with
        | Ok true => verify_and_download w sections summary
        | Ok false => (summary, [])
        | Raise _ => (summary, [])
        end
    | _ => (summary, [])
    end.

(** The custom report section: the updated summary, [result.download_path]
    and the calls made. *)
Definition custom_section (w : World) (digits : string)
  (format_record : option FormatRecord) (entries_data : option EntriesData)
  (summary : Summary) : Summary * option string * list Call :=
  if match entries_data with Some ed => entries_not_found ed | None => false end
  then (summary, None, [])
  else
    match match entries_data with Some ed => oldest_entry ed | None => None end with
    | None => (summary, None, [])
    | Some oldest =>
        match _process_custom_report (custom_answer w) (now w) digits oldest
                                     format_record with
        | Ok (artifact_path, report_summary) =>
            (update summary report_summary, artifact_path, [CallCustomReport])
        | Raise _ => (summary, None, [CallCustomReport])
        end
    end.

(** The four guarded blocks of [process_mawb]; an exception inside a block
    is logged and the run goes on with the summary as the block left it. *)
Definition ams_stage (w : World) (sections : Sections) (summary : Summary)
  : Summary * list Call :=
  if ams sections
  then (fst (_process_ams_section_http (ams_world w) summary), [CallAms])
  else (summary, []).

(** [sections.get("ams") and summary.get("Master Status") == "Not Found"]. *)
Definition master_not_found (sections : Sections) (summary : Summary) : bool :=
  ams sections
  && match get summary "Master Status" with
     | Some v => String.eqb v "Not Found"
     | None => false
     end.

Definition entries_stage (w : World) (sections : Sections) (summary : Summary)
  : Summary * option EntriesData * list Call :=
  if entries sections || custom sections || download_7501_pdf sections then
    match _process_entries_section_http (entries_world w) summary with
    | (summary, Ok ed) => (summary, Some ed, [CallEntries])
    | (summary, Raise _) => (summary, None, [CallEntries])
    end
  else (summary, None, []).

Definition custom_stage (w : World) (sections : Sections) (digits : string)
  (format_record : option FormatRecord) (entries_data : option EntriesData)
  (summary : Summary) : Summary * option string * list Call :=
  if custom sections
  then custom_section w digits format_record entries_data summary
  else (summary, None, []).

Definition pdf_stage (w : World) (sections : Sections)
  (entries_data : option EntriesData) (summary : Summary)
  : Summary * list Call :=
  if download_7501_pdf sections
  then pdf_section w sections entries_data summary
  else (summary, []).

(** Whether the PDF block gets as far as the verification: its flag is set,
    entries were found, there are entry rows and session cookies. *)
Definition pdf_reached (w : World) (sections : Sections)
  (entries_data : option EntriesData) : bool :=
  download_7501_pdf sections
  && negb match entries_data with Some ed => entries_not_found ed | None => false end
  && match match entries_data with Some ed => entry_rows ed | None => None end with
     | Some (_ :: _) => true
     | _ => false
     end
  && match pdf_cookies w with Ok true => true | _ => false end.

Definition process_mawb (w : World) (mawb : string) (sections : Sections)
  (format_record : option FormatRecord) (checkbook_hawbs : option string)
  : result (DutyRunResult * list Call) :=
  if negb (page_initialized w) then Raise (RuntimeError "Page not initialized")
  else
    match _normalize_mawb mawb with
    | Raise e => Raise e
    | Ok digits =>
        let summary := initial_summary digits checkbook_hawbs in
        let '(summary, calls_ams) := ams_stage w sections summary in
        if master_not_found sections summary then
          Ok (mkDutyRunResult digits summary None (Some "failed")
                              (Some "Master not found"), calls_ams)
        else
          let '(summary, entries_data, calls_entries) :=
            entries_stage w sections summary in
          let '(summary, path, calls_custom) :=
            custom_stage w sections digits format_record entries_data summary in
          let '(summary, calls_pdf) :=
            pdf_stage w sections entries_data summary in
          Ok (mkDutyRunResult digits summary path None None,
              (calls_ams ++ calls_entries ++ calls_custom ++ calls_pdf)%list)
    end.

End Pipeline.

(** *** The keys each block writes *)

Definition ams_written : list string :=
  [ "Master Status"; "AMS Total HAWBs"; "AMS Arrival Date"; "AMS Duty";
    "AMS Total T-11 Entries"; "AMS Entries Accepted"; "7501 Total Houses";
    "Rejected Entries" ].

Definition entries_written : list string := [ "Entries Status"; "Entry Date" ].

Definition custom_written : list string :=
  [ "Report Duty"; "Report Total House"; "Total Informal Duty";
    "Complete Total Duty"; "Cargo Release Date"; "Entry Date";
    "excel_storage_path"; "excel_download_url" ].

Definition pdf_written : list string :=
  [ "7501 Total T-11 Entries"; "7501 Duty"; "7501 Batch PDF URL" ].

(** The calls the PDF block can make, in order: the verification when it
    is required, then the download, then the extraction and the upload
    together. *)
Definition pdf_calls (calls : list Call) : Prop :=
  calls = []
  \/ calls = [EvalGate GateFailed]
  \/ (exists g, g <> GateFailed
       /\ (calls = [EvalGate g; CallPdfDownload]
           \/ calls = [EvalGate g; CallPdfDownload; CallPdfExtract; CallPdfUpload]))
  \/ calls = [CallPdfDownload]
  \/ calls = [CallPdfDownload; CallPdfExtract; CallPdfUpload].

End Runner.

(** ** The service around the runner: [StandaloneDutyService.process_mawb] *)
Module Service.
Import PyStr PyDict Runner.

(** The arguments of [upsert_result] that the service passes. *)
Record ResultRow : Type := mkResultRow {
  row_mawb : string;
  row_status : string;
  row_summary : option Summary;
  row_artifact_path : option string;
  row_artifact_url : option string;
  row_error_message : option string
}.

(** The outside of one service call, in the order the call meets it: the
    catalogue lookups; the first [on_log] call and the load of the saved
    session, which stand before the [try] block; everything between the
    start of the [try] block and the call of the runner (the resource slots,
    the browser, the saved session or the login, the log and progress
    callbacks); the run itself; the object store for the upload of the
    workbook; the progress callback before the row is saved; the upsert of
    the success row; what follows it inside the [try] block (the last
    progress callback, the storage manager for the PDF path, the exits of
    the [async with] blocks); and the upsert of the [except] branch. Each
    step returns or raises. The log callback that the service installs on
    the runner is taken to return during the run, and the [async with]
    blocks to pass on an exception that leaves them. *)
Record ServiceWorld : Type := mkServiceWorld {
  broker_found : bool;
  format_found : option FormatRecord;
  before_try : result unit;
  session_ready : result unit;
  runner_world : World;
  excel_upload : result (string * string);
  saving_progress : result unit;
  upsert_success : result unit;
  after_save : result unit;
  upsert_failed : result unit
}.

(** The dictionary the call returns: the success one, with the row it
    saved, or the failure one, with [str(exc)]. *)
Inductive Reply : Type :=
| ReplySuccess (row : ResultRow)
| ReplyFailure (error : string).

Section Process.

Variable py_float : string -> option float.

(** The row passed to [upsert_result] by the [except] branch. *)
Definition failed_row (mawb : string) (e : exn) : ResultRow :=
  mkResultRow mawb "failed" None None None (Some (exn_str e)).

Definition get_truthy (s : Summary) (k : string) : option string :=
  match get s k with
  | Some v => if truthy v then Some v else None
  | None => None
  end.

(** The [except Exception] branch, reached with the rows already passed to
    [upsert_result]: it passes the failed row, and returns the failure
    dictionary unless that upsert raises in its turn. *)
Definition except_branch (sw : ServiceWorld) (mawb : string)
  (issued : list ResultRow) (e : exn) : list ResultRow * result Reply :=
  ((issued ++ [failed_row mawb e])%list,
   match upsert_failed sw with
   | Ok _ => Ok (ReplyFailure (exn_str e))
   | Raise e' => Raise e'
   end).

(** The rows passed to [upsert_result], in order, and what the call
    returns or raises. An exception before the [try] block leaves the call
    with no row; one inside it, the success upsert and what follows it
    included, reaches the [except] branch. *)
Definition process_mawb (sw : ServiceWorld) (mawb : string)
  (sections : Sections) (checkbook_hawbs : option string)
  : list ResultRow * result Reply :=
  if negb (broker_found sw) then ([], Raise (ValueError "Broker not found"))
  else
    match format_found sw with
    | None => ([], Raise (ValueError "Format not found"))
    | Some format_record =>
        match before_try sw with
        | Raise e => ([], Raise e)
        | Ok _ =>
            match session_ready sw with
            | Raise e => except_branch sw mawb [] e
            | Ok _ =>
                match Runner.process_mawb py_float (runner_world sw) mawb
                        sections (Some format_record) checkbook_hawbs with
                | Raise e => except_branch sw mawb [] e
                | Ok (duty_result, _) =>
                    let stored :=
                      match get_truthy (summary duty_result) "excel_storage_path",
                            get_truthy (summary duty_result) "excel_download_url" with
                      | Some p, Some u => Ok (Some p, Some u)
                      | _, _ =>
                          match download_path duty_result with
                          | Some _ =>
                              match excel_upload sw with
                              | Ok (p, u) => Ok (Some p, Some u)
                              | Raise e => Raise e
                              end
                          | None => Ok (None, None)
                          end
                      end in
                    match stored with
                    | Raise e => except_branch sw mawb [] e
                    | Ok (artifact_path, artifact_url) =>
                        match saving_progress sw with
                        | Raise e => except_branch sw mawb [] e
                        | Ok _ =>
                            let row :=
                              mkResultRow (result_mawb duty_result) "success"
                                (Some (summary duty_result)) artifact_path
                                artifact_url None in
                            match upsert_success sw with
                            | Raise e => except_branch sw mawb [row] e
                            | Ok _ =>
                                match after_save sw with
                                | Raise e => except_branch sw mawb [row] e
                                | Ok _ => ([row], Ok (ReplySuccess row))
                                end
                            end
                        end
                    end
                end
            end
        end
    end.

End Process.

(** What the success row of a call on [mawb] holds: the summary, no error
    message, the master number as its eleven digits, and a storage path
    exactly when it holds a download URL. *)
Definition success_shape (mawb : string) (row : ResultRow) : Prop :=
  row_status row = "success"
  /\ _normalize_mawb mawb = Ok (row_mawb row)
  /\ row_summary row <> None
  /\ row_error_message row = None
  /\ (row_artifact_path row = None <-> row_artifact_url row = None).

(** What the failed row of a call on [mawb] holds: the master number as it
    was given, an error message and nothing else. *)
Definition failed_shape (mawb : string) (row : ResultRow) : Prop :=
  row_status row = "failed"
  /\ row_mawb row = mawb
  /\ row_summary row = None
  /\ row_artifact_path row = None /\ row_artifact_url row = None
  /\ row_error_message row <> None.

(** How a call ends once the failed row is passed: with the failure
    dictionary holding the message of the row, or with the exception of that
    upsert. *)
Definition failure_reply (sw : ServiceWorld) (row : ResultRow)
  (reply : result Reply) : Prop :=
  (exists message, upsert_failed sw = Ok tt
                   /\ row_error_message row = Some message
                   /\ reply = Ok (ReplyFailure message))
  \/ (exists e, upsert_failed sw = Raise e /\ reply = Raise e).

End Service.

(** ** The object store: [NetChbDutyStorageManager]
    (service/netchb_duty/storage.py) *)
Module Storage.
Import PyStr.

(** [mawb.replace("/", "-").replace("\\", "-").replace(" ", "").replace("-", "")]. *)
Definition mawb_clean (mawb : string) : string :=
  remove_chr dash
    (remove_chr space
       (replace_chr backslash dash (replace_chr slash dash mawb))).

(** The master number as [xxx-xxxxxxxx] when eleven characters are left. *)
Definition formatted_mawb (mawb : string) : string :=
  let cleaned := mawb_clean mawb in
  if String.length cleaned =? 11
  then slice_to 3 cleaned ++ "-" ++ slice_from 3 cleaned
  else cleaned.

(** [value.strip().replace("/", "-").replace("\\", "-")]. *)
Definition safe (value : string) : string :=
  replace_chr backslash dash (replace_chr slash dash (strip value)).

(** What an optional field appends to [parts]: nothing when it is [None]
    or empty, or when nothing is left of it once made safe. *)
Definition safe_part (value : option string) : list string :=
  match value with
  | Some v => if truthy v && truthy (safe v) then [safe v] else []
  | None => []
  end.

(** [" ".join(parts)]. *)
Definition file_stem (mawb : string) (airport_code customer : option string)
  : string :=
  join " " ([formatted_mawb mawb] ++ safe_part airport_code
            ++ safe_part customer)%list.

(** The [_V2] suffix of the Shoaib template. *)
Definition excel_suffix (template_name : option string) : string :=
  match template_name with
  | Some t =>
      if truthy t && contains "shoaib" (lower t) then "_V2.xlsx" else ".xlsx"
  | None => ".xlsx"
  end.

Definition excel_key (prefix mawb : string) (airport_code customer : option string)
  (template_name : option string) : string :=
  prefix ++ "/customizable-reports/" ++ file_stem mawb airport_code customer
  ++ excel_suffix template_name.

Definition pdf_key (prefix mawb : string) (airport_code customer : option string)
  : string :=
  prefix ++ "/7501-batch-pdfs/" ++ file_stem mawb airport_code customer ++ ".pdf".

(** The file system and the bucket during one upload: whether the local
    file exists, and what [upload_file] and [generate_presigned_url] do. *)
Record Bucket : Type := mkBucket {
  file_exists : bool;
  upload_file : result unit;
  generate_presigned_url : result string
}.

(** The signed URL, or the empty string when it cannot be made. *)
Definition signed_url (b : Bucket) : string :=
  match generate_presigned_url b with
  | Ok url => url
  | Raise _ => EmptyString
  end.

Definition upload_excel (prefix : string) (b : Bucket) (file_path mawb : string)
  (airport_code customer template_name : option string)
  : result (string * string) :=
  if negb (file_exists b)
  then Raise (OtherError "FileNotFoundError" ("Excel file not found: " ++ file_path))
  else
    let key := excel_key prefix mawb airport_code customer template_name in
    match upload_file b with
    | Raise exc =>
        Raise (RuntimeError ("Failed to upload duty report to S3: " ++ exn_str exc))
    | Ok _ => Ok (key, signed_url b)
    end.

Definition upload_pdf (prefix : string) (b : Bucket) (file_path mawb : string)
  (airport_code customer : option string) : result (string * string) :=
  if negb (file_exists b)
  then Raise (OtherError "FileNotFoundError" ("PDF file not found: " ++ file_path))
  else
    let key := pdf_key prefix mawb airport_code customer in
    match upload_file b with
    | Raise exc => Raise (RuntimeError ("Failed to upload PDF to S3: " ++ exn_str exc))
    | Ok _ => Ok (key, signed_url b)
    end.

(** The early upload of the workbook by the custom report section: the
    template name is ["Shoaib Match"] when the template identifier names
    that template, and the port and the customer are not passed. *)
Definition early_template_name (template_identifier : option string)
  : option string :=
  match template_identifier with
  | Some t =>
      if truthy t && contains "shoaib" (lower t) then Some "Shoaib Match" else None
  | None => None
  end.

Definition early_upload_excel (prefix : string) (b : Bucket)
  (file_path mawb_digits : string) (template_identifier : option string)
  : result (string * string) :=
  upload_excel prefix b file_path mawb_digits None None
               (early_template_name template_identifier).

End Storage.

(** ** Session cookies: [_load_cookies_from_storage_state] *)
Module Session.
Import PyStr PyDict.

(** A cookie of the storage state, as the loader reads it:
    [cookie.get("name")] and [cookie.get("value")]. *)
Record Cookie : Type := mkCookie {
  cookie_name : option string;
  cookie_value : option string
}.

(** [name and value], with the pair when it holds. *)
Definition named_value (c : Cookie) : option (string * string) :=
  match cookie_name c, cookie_value c with
  | Some name, Some value =>
      if truthy name && truthy value then Some (name, value) else None
  | _, _ => None
  end.

(** The loop over [storage_state.get("cookies", [])], from the dictionary
    built so far. *)
Definition load_from (cookies : dict string) (state_cookies : list Cookie)
  : dict string :=
  fold_left (fun acc c =>
               match named_value c with
               | Some (name, value) => set acc name value
               | None => acc
               end)
            state_cookies cookies.

Definition _load_cookies_from_storage_state (state_cookies : list Cookie)
  : dict string :=
  load_from [] state_cookies.

(** The value of the last cookie called [name] that has a value. *)
Definition last_value (name : string) (state_cookies : list Cookie)
  : option string :=
  fold_left (fun acc c =>
               match named_value c with
               | Some (n, v) => if String.eqb n name then Some v else acc
               | None => acc
               end)
            state_cookies None.

End Session.

(** ** Request models: the validators of service/netchb_duty/models.py *)
Module Models.
Import PyStr.

(** [DutyRunRequest.validate_mawbs]: the loop from the list built so far. *)
Fixpoint validate_mawbs_from (items normalized : list string)
  : result (list string) :=
  match items with
  | [] => Ok normalized
  | mawb :: rest =>
      let digits := digits_of mawb in
      if negb (String.length digits =? 11)
      then Raise (ValueError ("MAWB value '" ++ mawb
                              ++ "' must contain exactly 11 digits"))
      else validate_mawbs_from rest (normalized ++ [digits])
  end.

Definition validate_mawbs (items : list string) : result (list string) :=
  validate_mawbs_from items [].

(** [validate_otp_uri_format] of [BrokerBase] and [BrokerUpdate]. *)
Definition validate_otp_uri_format (v : option string) : result (option string) :=
  match v with
  | Some uri =>
      if truthy uri && negb (prefix "otpauth://totp/" uri)
      then Raise (ValueError "OTP URI must start with 'otpauth://totp/'")
      else Ok v
  | None => Ok v
  end.

(** [validate_otp_uri_required] of [BrokerBase]. *)
Definition validate_otp_uri_required (is_authentication_required : bool)
  (otp_uri : option string) : result unit :=
  if is_authentication_required
     && negb match otp_uri with Some uri => truthy uri | None => false end
  then Raise (ValueError "OTP URI is required when authentication is enabled")
  else Ok tt.

End Models.

(** ** The service's reports: [get_batch_status], [export_results_excel],
    [download_reports_zip] and [download_pdfs_zip] (service/duty_service.py) *)
Module Reports.
Import PyStr PyDict Runner.

(** *** Batch status *)

(** [sum(1 for item in items if item.get("status") == status)]; an item is
    read through its status, [None] when the key is absent. *)
Definition status_count (status : string) (items : list (option string)) : nat :=
  List.length
    (filter (fun st => match st with
                       | Some s => String.eqb s status
                       | None => false
                       end)
            items).

Record BatchStatus : Type := mkBatchStatus {
  item_count : nat;
  pending_count : nat;
  running_count : nat;
  success_count : nat;
  failed_count : nat;
  cancelled_count : nat
}.

(** [batch_found] is the truth value of what [get_batch] returned. *)
Definition get_batch_status (batch_found : bool) (items : list (option string))
  : option BatchStatus :=
  if negb batch_found then None
  else Some (mkBatchStatus (List.length items)
               (status_count "pending" items) (status_count "running" items)
               (status_count "success" items) (status_count "failed" items)
               (status_count "cancelled" items)).

(** The statuses a batch item can have ([BatchItemStatusLiteral]). *)
Definition item_statuses : list string :=
  ["pending"; "running"; "success"; "failed"; "cancelled"].

(** An item has one of these statuses. *)
Definition known_status (st : option string) : Prop :=
  match st with Some s => In s item_statuses | None => False end.

(** *** The Excel export *)

(** [format_mawb] of [export_results_excel]; the argument is [None] when
    the result holds [None] under ["mawb"]. *)
Definition format_mawb (mawb : option string) : string :=
  match mawb with
  | None => EmptyString
  | Some m =>
      if is_empty m then EmptyString
      else
        let digits := digits_of m in
        if String.length digits =? 11
        then slice_to 3 digits ++ "-" ++ slice_from 3 digits
        else m
  end.

(** *** The names of the files in the archives *)



(** *** The PDF archive: finding the URL and the fallback paths *)

Definition possible_keys : list string :=
  [ "7501 Batch PDF URL"; "7501_Batch_PDF_URL"; "7501BatchPDFURL"; "pdf_url";
    "PDF URL" ].

(** [str(raw_value).strip()] when it is neither empty nor ["N/A"]. *)
Definition usable (raw_value : string) : option string :=
  let value_str := strip raw_value in
  if truthy value_str && negb (String.eqb value_str "N/A")
  then Some value_str else None.

(** The loop over [possible_keys]. *)
Fixpoint first_usable (summary : Summary) (keys : list string) : option string :=
  match keys with
  | [] => None
  | key :: rest =>
      match get summary key with
      | Some raw_value =>
          match usable raw_value with
          | Some url => Some url
          | None => first_usable summary rest
          end
      | None => first_usable summary rest
      end
  end.

(** The test of the case-insensitive search on one key. *)
Definition names_pdf_url (key : string) : bool :=
  let key_lower := lower key in
  (contains "7501" key_lower || contains "pdf" key_lower)
  && (contains "url" key_lower || contains "link" key_lower).

(** The loop over [summary.items()]. *)
Fixpoint search_items (items : Summary) : option string :=
  match items with
  | [] => None
  | (key, value) :: rest =>
      if names_pdf_url key then
        match usable value with
        | Some url => Some url
        | None => search_items rest
        end
      else search_items rest
  end.

(** [pdf_url] when the two searches are over. *)
Definition find_pdf_url (summary : Summary) : option string :=
  match first_usable summary possible_keys with
  | Some url => Some url
  | None => search_items summary
  end.

(** The storage paths [download_pdfs_zip] tries, in order, when the URL
    cannot be fetched. *)
Definition fallback_paths (prefix mawb : string)
  (airport_code customer : option string) : list string :=
  let formatted := Storage.formatted_mawb mawb in
  let mawb_only_path := prefix ++ "/7501-batch-pdfs/" ++ formatted ++ ".pdf" in
  let given v := match v with Some s => truthy s | None => false end in
  if given airport_code || given customer then
    [ prefix ++ "/7501-batch-pdfs/"
      ++ join " " ([formatted] ++ Storage.safe_part airport_code
                   ++ Storage.safe_part customer)%list
      ++ ".pdf";
      mawb_only_path ]
  else [mawb_only_path].

(** *** The PDF path [process_mawb] reports *)

(** [pdf_storage_path], rebuilt from the master number alone when the
    summary holds a URL. *)
Definition pdf_storage_path (prefix : string) (duty_result : DutyRunResult)
  : option string :=
  match get (summary duty_result) "7501 Batch PDF URL" with
  | Some pdf_url =>
      if truthy pdf_url && negb (String.eqb pdf_url "N/A") && truthy (strip pdf_url)
      then Some (prefix ++ "/7501-batch-pdfs/"
                 ++ join " " [Storage.formatted_mawb (result_mawb duty_result)]
                 ++ ".pdf")
      else None
  | None => None
  end.

End Reports.

(** ** Fixtures: the concrete inputs of the examples *)
Module Fixtures.
Import PyStr PyDict PyDate Runner.

(** The value of a string of decimal digits. *)
Fixpoint decimal_value (s : string) (acc : Z) : option Z :=
  match s with
  | EmptyString => Some acc
  | String c s' =>
      if isdecimal c
      then decimal_value s' (acc * 10 + Z.of_nat (code c - 48))%Z
      else None
  end.

(** [float(s)] on the plain numerals [ddd] and [ddd.ddd], the only ones the
    fixtures use: the quotient of two exact floats is correctly rounded, as
    Python's conversion is. Every other string is rejected. *)
Definition decimal_float (s : string) : option float :=
  match split_chr "."%char s with
  | [whole] =>
      if is_empty whole then None
      else option_map PyFloat.of_Z (decimal_value whole 0%Z)
  | [whole; frac] =>
      if is_empty whole || is_empty frac then None
      else
        match decimal_value (whole ++ frac) 0%Z with
        | Some n =>
            Some (PrimFloat.div (PyFloat.of_Z n)
                    (PyFloat.of_Z (10 ^ Z.of_nat (String.length frac))))
        | None => None
        end
  | _ => None
  end.

Definition all_sections : Sections := mkSections true true true true.

Definition template : CustomReport.TemplatePayload :=
  CustomReport.mkTemplate [("entryType", CustomReport.Str "11")]
                          ["entryNo"] ["masterBill"] [] [] [].

Definition format_record : FormatRecord := mkFormatRecord "fte-match" (Some template).

(** 5 March 2024 and 14 April 2024, at midnight and at 09:30. *)
Definition oldest : datetime := mkDatetime 738950 0.
Definition today : datetime := mkDatetime 738990 34200000000.

Definition one_row : list EntryRow :=
  [mkEntryRow oldest "https://www.netchb.com/app/entry/viewEntry.do?filerCode=ABC&entryNo=1234567"
              "filerCode=ABC&entryNo=1234567"].

Definition master_4250 : MasterData := mkMasterData "$9,000.00" 3 3 4250.

Definition excel (houses : string) : ExcelSummary :=
  mkExcelSummary "9000.00" houses "4000.00" "5000.00" "03/05/24" "03/07/24".

(** The happy path of the specification: every stage answers, the four
    house counts are 4250 and the duties agree. *)
Definition happy_world (report_houses : string) : World :=
  mkWorld true today
    (AmsAnswers (SearchRow (Some "https://www.netchb.com/app/ams/mawbMenu.do?amsMawbId=77")
                           "4250" "03/04/24")
                (Ok master_4250))
    (EntriesFound (Some oldest) one_row)
    (fun _ => CustomParsed (excel report_houses)
                (Ok ("duty/customizable-reports/235-94731221.xlsx", "https://store/x")))
    (Ok true) false (Ok (Some true)) (Ok (3%Z, 9000%float))
    (Ok ("duty/7501-batch-pdfs/235-94731221.pdf", Some "https://store/pdf")).

(** The happy path with a PDF from which nothing is extracted. *)
Definition empty_pdf_world : World :=
  mkWorld true today
    (AmsAnswers (SearchRow (Some "https://www.netchb.com/app/ams/mawbMenu.do?amsMawbId=77")
                           "4250" "03/04/24")
                (Ok master_4250))
    (EntriesFound (Some oldest) one_row)
    (fun _ => CustomParsed (excel "4250")
                (Ok ("duty/customizable-reports/235-94731221.xlsx", "https://store/x")))
    (Ok true) false (Ok (Some true)) (Ok (0%Z, 0%float))
    (Ok ("duty/7501-batch-pdfs/235-94731221.pdf", Some "https://store/pdf")).

(** The house counts disagree and the verification itself raises. *)
Definition raising_world : World := with_gate_raises true (happy_world "4249").

(** The portal answers "There is no awb". *)
Definition not_found_world : World :=
  mkWorld true today (AmsAnswers SearchMasterNotFound (Raise (RuntimeError "unused")))
    (EntriesFound (Some oldest) one_row)
    (fun _ => CustomParsed (excel "4250") (Raise (RuntimeError "no store")))
    (Ok true) false (Ok (Some true)) (Ok (3%Z, 9000%float))
    (Ok ("duty/7501-batch-pdfs/235-94731221.pdf", Some "https://store/pdf")).

(** The master is found but the portal lists no entry for it. *)
Definition no_entries_world : World :=
  mkWorld true today
    (AmsAnswers (SearchRow (Some "https://www.netchb.com/app/ams/mawbMenu.do?amsMawbId=77")
                           "4250" "03/04/24")
                (Ok master_4250))
    EntriesNotFound
    (fun _ => CustomFails (RuntimeError "unused"))
    (Ok true) false (Ok (Some true)) (Ok (3%Z, 9000%float))
    (Ok ("duty/7501-batch-pdfs/235-94731221.pdf", Some "https://store/pdf")).

(** The happy path with a PDF that the extractor cannot read. *)
Definition unreadable_pdf_world : World :=
  mkWorld true today
    (AmsAnswers (SearchRow (Some "https://www.netchb.com/app/ams/mawbMenu.do?amsMawbId=77")
                           "4250" "03/04/24")
                (Ok master_4250))
    (EntriesFound (Some oldest) one_row)
    (fun _ => CustomParsed (excel "4250")
                (Ok ("duty/customizable-reports/235-94731221.xlsx", "https://store/x")))
    (Ok true) false (Ok (Some true))
    (Raise (OtherError "PDFSyntaxError" "No /Root object! - Is this really a PDF?"))
    (Ok ("duty/7501-batch-pdfs/235-94731221.pdf", Some "https://store/pdf")).

(** The AMS request fails and the portal lists an entry without a date, so
    that no custom report is requested: no section brings a value. *)
Definition idle_world : World :=
  mkWorld true today
    (AmsRequestFails (RuntimeError "AMS HTTP STEP 1 failed: status 503"))
    (EntriesFound None one_row)
    (fun _ => CustomFails (RuntimeError "unused"))
    (Ok true) false (Ok (Some true)) (Ok (3%Z, 9000%float))
    (Ok ("duty/7501-batch-pdfs/235-94731221.pdf", Some "https://store/pdf")).

Definition service_world (w : World) : Service.ServiceWorld :=
  Service.mkServiceWorld true (Some format_record) (Ok tt) (Ok tt) w
    (Ok ("duty/customizable-reports/235-94731221 ORD MZZ.xlsx", "https://store/y"))
    (Ok tt) (Ok tt) (Ok tt) (Ok tt).

(** The same service when the last progress callback raises, after the
    row has been saved. *)
Definition late_failure_world (w : World) : Service.ServiceWorld :=
  Service.mkServiceWorld true (Some format_record) (Ok tt) (Ok tt) w
    (Ok ("duty/customizable-reports/235-94731221 ORD MZZ.xlsx", "https://store/y"))
    (Ok tt) (Ok tt) (Raise (RuntimeError "progress window closed")) (Ok tt).

(** A vertical paste of three rows of five cells, one cell per line. *)
Definition paste_15 : string :=
  join MawbParser.newline_s
    [ "JFK"; "YDH"; "M3"; "1325"; "999-38649026";
      "JFK"; "BFE"; "M3"; "10"; "999-38649030";
      "ORD"; "MZZ"; "BKR"; "4250"; "235-94731221" ].

(** Two ports, each followed by its master number. *)
Definition two_pairs : string :=
  join MawbParser.newline_s ["A"; "12345678901"; "B"; "22222222222"].

(** A template whose default values carry the date fields of the form. *)
Definition dated_template : CustomReport.TemplatePayload :=
  CustomReport.mkTemplate
    [("begin", CustomReport.Str "010124"); ("end", CustomReport.Str "123124")]
    ["entryNo"] ["masterBill"] [] [] [].

(** A query that fails twice with "Resource temporarily unavailable" and
    then returns one row. *)
Definition unavailable : Database.Exc :=
  Database.mkExc "OSError" "[Errno 11] Resource temporarily unavailable".

Definition connection_reset : Database.Exc :=
  Database.mkExc "ConnectError" "[Errno 104] Connection reset by peer".

Definition rows_truthy (rows : list string) : bool :=
  negb (Nat.eqb (List.length rows) 0).

Definition flaky_query (attempt : nat) : Database.Attempt (list string) :=
  match attempt with
  | 0 | 1 => Database.Fails _ unavailable
  | _ => Database.Succeeds _ (Database.mkResponse _ (Some ["row"]) None)
  end.

(** A query the server refuses, and one whose connection drops each time. *)
Definition refused : Database.Exc :=
  Database.mkExc "APIError" "permission denied for table netchb_duty_results".

Definition refused_query (attempt : nat) : Database.Attempt (list string) :=
  Database.Fails _ refused.

Definition dropped_query (attempt : nat) : Database.Attempt (list string) :=
  Database.Fails _ connection_reset.



End Fixtures.

(** ** Tactics for the concrete runs *)

(** Membership in a list that is written out. *)
Ltac in_list := simpl; repeat (first [left; reflexivity | right]).

(** Splits a concrete run into its result and its calls, keeping the
    equation of the run for the theorem to be applied. *)
Ltac concrete_run E r calls :=
  match goal with
  | |- context [Runner.process_mawb ?f ?w ?m ?s ?fr ?cb] =>
      destruct (Runner.process_mawb f w m s fr cb) as [[r calls]|] eqn:E;
      [|vm_compute in E; discriminate]
  end.

(** * Properties *)

(** ** Dictionaries *)
Section DictFacts.
Import PyDict.
Context {V : Type}.
Implicit Types (d other : dict V) (k : string) (v : V).

Lemma get_set_same d k v : get (set d k v) k = Some v.
Proof.
  induction d as [|[k' v'] d IH]; simpl.
  - now rewrite String.eqb_refl.
  - destruct (String.eqb k' k) eqn:E; simpl; rewrite E; auto.
Qed.

Lemma get_set_other d k k' v : k <> k' -> get (set d k v) k' = get d k'.
Proof.
  intros Hne. induction d as [|[k0 v0] d IH]; simpl.
  - destruct (String.eqb k k') eqn:E; auto.
    apply String.eqb_eq in E. contradiction.
  - destruct (String.eqb k0 k) eqn:E; simpl.
    + apply String.eqb_eq in E. subst k0.
      destruct (String.eqb k k') eqn:E'; auto.
      apply String.eqb_eq in E'. contradiction.
    + now rewrite IH.
Qed.

Lemma get_update_absent other : forall d k,
  get other k = None -> get (update d other) k = get d k.
Proof.
  unfold update.
  induction other as [|[k0 v0] other IH]; intros d k Habs; simpl in *; auto.
  destruct (String.eqb k0 k) eqn:E; [discriminate|].
  rewrite IH by assumption. apply get_set_other.
  intros ->. now rewrite String.eqb_refl in E.
Qed.

Lemma keys_set d k v :
  keys (set d k v) = if has_key d k then keys d else (keys d ++ [k])%list.
Proof.
  unfold has_key, keys.
  induction d as [|[k' v'] d IH]; simpl; auto.
  destruct (String.eqb k' k) eqn:E; simpl; auto.
  rewrite IH. now destruct (get d k).
Qed.

Lemma has_key_in d k : has_key d k = true <-> In k (keys d).
Proof.
  unfold has_key, keys.
  induction d as [|[k' v'] d IH]; simpl.
  - split; [discriminate | tauto].
  - destruct (String.eqb k' k) eqn:E.
    + apply String.eqb_eq in E. tauto.
    + rewrite IH. split; auto. intros [->|]; auto.
      now rewrite String.eqb_refl in E.
Qed.

End DictFacts.

(** ** The input parser of the service *)

(** C2. [parse_mawb_input] of [input_parser.py] does not drop a tab separated
    line of five columns whose fifth column is not a master number: it
    raises [TypeError], here on a line whose fifth column is "N/A" and on the
    five-column row of the specification's own scenario, whose dashed master
    number has no eleven consecutive digits; the parser of
    [utils/mawb_parser.py] drops the first and reads the second. *)
Theorem input_parser_raises_on_five_columns :
  let tab := String PyStr.tab EmptyString in
  let bad := "ORD" ++ tab ++ "MZZ" ++ tab ++ "BKR" ++ tab ++ "4250" ++ tab ++ "N/A" in
  let dashed :=
    "ORD" ++ tab ++ "MZZ" ++ tab ++ "BKR" ++ tab ++ "4250" ++ tab ++ "235-94731221" in
  InputParser.parse_mawb_input bad
    = Raise (TypeError "'NoneType' object is not iterable")
  /\ InputParser.parse_mawb_input dashed
    = Raise (TypeError "'NoneType' object is not iterable")
  /\ MawbParser.parse_mawb_input bad = []
  /\ MawbParser.parse_mawb_input dashed
    = [mkItem "23594731221" (Some "ORD") (Some "MZZ") (Some "4250")].
Proof. repeat split; vm_compute; reflexivity. Qed.

(** Any number of well-formed lines before the bad one are lost with it. *)
Lemma input_parser_raise_loses_earlier_items :
  let tab := String PyStr.tab EmptyString in
  let nl := String PyStr.newline EmptyString in
  InputParser.parse_mawb_input
    ("235-94731221" ++ nl ++ "a" ++ tab ++ "b" ++ tab ++ "c" ++ tab ++ "d" ++ tab ++ "e")
  = Raise (TypeError "'NoneType' object is not iterable").
Proof. vm_compute; reflexivity. Qed.

(** ** The pipeline and the service *)
Section PipelineFacts.
Import PyStr PyDict Runner.
Variable py_float : string -> option float.

(** When the AMS search reports that the master does not exist, the runner
    enters no further stage and marks its result as failed. *)
Lemma runner_master_not_found w mawb sections fr cb digits master :
  page_initialized w = true ->
  _normalize_mawb mawb = Ok digits ->
  ams sections = true ->
  ams_world w = AmsAnswers SearchMasterNotFound master ->
  process_mawb py_float w mawb sections fr cb
  = Ok (mkDutyRunResult digits
          (set (initial_summary digits cb) "Master Status" "Not Found")
          None (Some "failed") (Some "Master not found"),
        [CallAms]).
Proof.
  intros Hpage Hnorm Hams Hworld.
  unfold process_mawb, ams_stage, master_not_found.
  rewrite Hpage, Hnorm, Hams, Hworld. simpl.
  destruct cb; reflexivity.
Qed.

(** C1. When the AMS search reports that the master does not exist, the
    runner skips the Entries, Custom Report and PDF stages and marks its
    result failed with "Master not found", but the row the service passes to
    [upsert_result] for that MAWB has status "success" and no error message:
    it is the first row of the call whatever happens afterwards, and the
    only one, returned in the success dictionary, when the upsert and what
    follows it do not raise. *)
Theorem master_not_found_saved_as_success sw mawb sections cb digits fr master :
  Service.broker_found sw = true ->
  Service.format_found sw = Some fr ->
  Service.before_try sw = Ok tt ->
  Service.session_ready sw = Ok tt ->
  Service.saving_progress sw = Ok tt ->
  page_initialized (Service.runner_world sw) = true ->
  _normalize_mawb mawb = Ok digits ->
  ams sections = true ->
  ams_world (Service.runner_world sw) = AmsAnswers SearchMasterNotFound master ->
  let row :=
    Service.mkResultRow digits "success"
      (Some (set (initial_summary digits cb) "Master Status" "Not Found"))
      None None None in
  process_mawb py_float (Service.runner_world sw) mawb sections (Some fr) cb
  = Ok (mkDutyRunResult digits
          (set (initial_summary digits cb) "Master Status" "Not Found")
          None (Some "failed") (Some "Master not found"),
        [CallAms])
  /\ hd_error (fst (Service.process_mawb py_float sw mawb sections cb)) = Some row
  /\ (Service.upsert_success sw = Ok tt -> Service.after_save sw = Ok tt ->
      Service.process_mawb py_float sw mawb sections cb
      = ([row], Ok (Service.ReplySuccess row))).
Proof.
  intros Hb Hf Hpre Hs Hprog Hpage Hnorm Hams Hworld row.
  pose proof (runner_master_not_found _ _ _ (Some fr) cb _ _ Hpage Hnorm Hams Hworld)
    as Hrun.
  split; [exact Hrun|].
  unfold Service.process_mawb. rewrite Hb, Hf, Hpre, Hs, Hrun, Hprog.
  subst row.
  destruct cb; simpl;
    (split;
     [destruct (Service.upsert_success sw); [destruct (Service.after_save sw)|];
      reflexivity
     |intros -> ->; reflexivity]).
Qed.

End PipelineFacts.

(** The scenario "Master not found" of the specification, on the fixtures. *)
Lemma master_not_found_saved_as_success_witness :
  map Service.row_status
    (fst (Service.process_mawb Fixtures.decimal_float
            (Fixtures.service_world Fixtures.not_found_world)
            "235-94731221" Fixtures.all_sections (Some "4250")))
  = ["success"]
  /\ map Service.row_error_message
       (fst (Service.process_mawb Fixtures.decimal_float
               (Fixtures.service_world Fixtures.not_found_world)
               "235-94731221" Fixtures.all_sections (Some "4250")))
     = [None].
Proof.
  pose proof (master_not_found_saved_as_success Fixtures.decimal_float
                (Fixtures.service_world Fixtures.not_found_world)
                "235-94731221" Fixtures.all_sections (Some "4250")
                "23594731221" Fixtures.format_record
                (Raise (RuntimeError "unused"))
                eq_refl eq_refl eq_refl eq_refl eq_refl eq_refl eq_refl eq_refl
                eq_refl) as (_ & _ & H).
  rewrite (H eq_refl eq_refl). split; reflexivity.
Defined.

(** ** The database retry wrapper *)

(** The two waits of the wrapper: half a second, then one second. *)
Lemma wait_time_first : Database.wait_time 0 = 0.5%float.
Proof. vm_compute; reflexivity. Qed.

Lemma wait_time_second : Database.wait_time 1 = 1%float.
Proof. vm_compute; reflexivity. Qed.

Section ExecuteFacts.
Import PyStr Database.
Variable Value : Type.
Variable value_truthy : Value -> bool.
Variable query : nat -> Attempt Value.
Variable recreate_ok : nat -> bool.
Variable default : option Value.





(** A third transient failure is not retried: the exception is re-raised. *)
Lemma execute_gives_up_after_three e0 e1 e2 :
  query 0 = Fails Value e0 ->
  query 1 = Fails Value e1 ->
  query 2 = Fails Value e2 ->
  is_resource_error e0 || is_connection_error e0 = true ->
  is_resource_error e1 || is_connection_error e1 = true ->
  fst (_execute Value value_truthy query recreate_ok default) = Raised e2.
Proof.
  intros H0 H1 H2 He0 He1.
  unfold _execute, max_retries. simpl.
  rewrite H0, He0. simpl. rewrite H1, He1. simpl. rewrite H2. simpl.
  destruct (is_resource_error e2 || is_connection_error e2); reflexivity.
Qed.

End ExecuteFacts.

(** A connection that drops at every attempt: the client is re-created
    twice, and the third failure is re-raised. *)
Lemma dropped_query_is_raised :
  Database._execute (list string) Fixtures.rows_truthy Fixtures.dropped_query
                    (fun _ => true) (Some [])
  = (Database.Raised Fixtures.connection_reset,
     [Database.Execute 0; Database.Recreate true; Database.Sleep 0.5%float;
      Database.Execute 1; Database.Recreate true; Database.Sleep 1%float;
      Database.Execute 2]).
Proof. vm_compute. reflexivity. Qed.


(** ** The custom report request *)
Section CustomReportFacts.
Import PyDict PyDate CustomReport.
#[local] Open Scope Z_scope.

Lemma get_set_fields payload key fields k :
  key <> k -> get (set_fields payload key fields) k = get payload k.
Proof.
  intros Hne. destruct fields; simpl; auto. now apply get_set_other.
Qed.

Lemma day_us_pos : 0 < day_us.
Proof. reflexivity. Qed.

(** [(today - oldest).days >= 25] says that at least 25 whole days lie
    between the two instants. *)
Lemma days_old_at_least_25 today oldest :
  (25 <=? days_between today oldest) = true
  <-> 25 * day_us <= instant today - instant oldest.
Proof.
  unfold days_between. rewrite Z.leb_le. pose proof day_us_pos. split; intros Hd.
  - pose proof (Z.mul_div_le (instant today - instant oldest) day_us ltac:(lia)).
    nia.
  - apply Z.div_le_lower_bound; lia.
Qed.

Lemma end_date_old today oldest :
  25 * day_us <= instant today - instant oldest ->
  end_date today oldest = add_days oldest 25.
Proof.
  intros Hd. unfold end_date.
  now rewrite (proj2 (days_old_at_least_25 today oldest) Hd).
Qed.

Lemma end_date_recent today oldest :
  instant today - instant oldest < 25 * day_us ->
  end_date today oldest = today.
Proof.
  intros Hd. unfold end_date.
  destruct (25 <=? days_between today oldest) eqn:E; auto.
  apply days_old_at_least_25 in E. lia.
Qed.

(** The date fields of the payload are those computed from the oldest entry
    unless the default values of the template name them. *)
Lemma payload_date_field today tp mawb oldest k :
  k = "begin"%string \/ k = "end"%string ->
  get (defaultValues tp) k = None ->
  get (_build_custom_report_payload today tp mawb oldest) k
  = get [("templateId"%string, Str "0");
         ("begin"%string, Str (strftime_mmddyy oldest));
         ("end"%string, Str (strftime_mmddyy (end_date today oldest)))] k.
Proof.
  intros Hk Habs. unfold _build_custom_report_payload.
  rewrite !get_set_fields by (destruct Hk; subst k; discriminate).
  rewrite get_update_absent by assumption.
  rewrite get_set_other by (destruct Hk; subst k; discriminate).
  reflexivity.
Qed.

(** C7, as the code has it. When the default values of the template define
    neither [begin] nor [end], the request's [begin] is the oldest entry date
    as MMDDYY, and its [end] is the oldest entry date plus 25 days when at
    least 25 days lie between it and now, and today otherwise. *)
Theorem custom_report_dates today tp mawb oldest :
  get (defaultValues tp) "begin" = None ->
  get (defaultValues tp) "end" = None ->
  let payload := _build_custom_report_payload today tp mawb oldest in
  get payload "begin" = Some (Str (strftime_mmddyy oldest))
  /\ (25 * day_us <= instant today - instant oldest ->
      get payload "end" = Some (Str (strftime_mmddyy (add_days oldest 25))))
  /\ (instant today - instant oldest < 25 * day_us ->
      get payload "end" = Some (Str (strftime_mmddyy today))).
Proof.
  intros Hb He payload. subst payload. repeat split.
  - rewrite payload_date_field by auto. reflexivity.
  - intros Hd. rewrite payload_date_field by auto. simpl.
    now rewrite end_date_old.
  - intros Hd. rewrite payload_date_field by auto. simpl.
    now rewrite end_date_recent.
Qed.

End CustomReportFacts.

(** An entry of 5 March 2024 queried on 14 April 2024: the report runs from
    030524 to 033024. *)
Lemma custom_report_dates_witness :
  let payload :=
    CustomReport._build_custom_report_payload Fixtures.today Fixtures.template
      "23594731221" Fixtures.oldest in
  PyDict.get payload "begin" = Some (CustomReport.Str "030524")
  /\ PyDict.get payload "end" = Some (CustomReport.Str "033024").
Proof.
  destruct (custom_report_dates Fixtures.today Fixtures.template "23594731221"
              Fixtures.oldest eq_refl eq_refl) as (Hb & Hold & _).
  split; [exact Hb|]. apply Hold. vm_compute. discriminate.
Defined.

(** C7 as stated fails: the default values of the template are merged into
    the payload after the dates, so a template that carries a [begin] field
    decides the request's begin date, whatever the oldest entry date. *)
Lemma custom_report_begin_overridden :
  PyDict.get
    (CustomReport._build_custom_report_payload Fixtures.today
       Fixtures.dated_template "23594731221" Fixtures.oldest) "begin"
  <> Some (CustomReport.Str (PyDate.strftime_mmddyy Fixtures.oldest)).
Proof. vm_compute. discriminate. Qed.

(** ** The keys of the summary *)
Section SummaryKeys.
Import PyStr PyDict Runner.

Lemma well_keyed_initial digits cb : well_keyed (initial_summary digits cb).
Proof. exists []. split; [reflexivity | intros k []]. Qed.

Lemma well_keyed_set s k v : well_keyed s -> allowed k -> well_keyed (set s k v).
Proof.
  intros (extras & Hkeys & Hincl) Hk. unfold well_keyed. rewrite keys_set.
  destruct (has_key s k) eqn:E.
  - exists extras. auto.
  - exists (extras ++ [k])%list. split.
    + now rewrite Hkeys, app_assoc.
    + intros x Hx. apply in_app_or in Hx as [Hx | [<- | []]]; auto.
      apply in_app_or in Hk as [Hk | Hk]; auto.
      assert (has_key s k = true) as Hhas; [|congruence].
      apply has_key_in. rewrite Hkeys. apply in_or_app. now left.
Qed.

Lemma well_keyed_update other : forall s,
  well_keyed s -> Forall allowed (keys other) -> well_keyed (update s other).
Proof.
  unfold update.
  induction other as [|[k v] other IH]; intros s Hs Hall; simpl; auto.
  inversion Hall; subst. apply IH; auto. now apply well_keyed_set.
Qed.

End SummaryKeys.

Section StageKeys.
Import PyStr PyDict Runner.
Variable py_float : string -> option float.

Lemma well_keyed_ams w s :
  well_keyed s -> well_keyed (fst (_process_ams_section_http w s)).
Proof.
  intros Hs. destruct w as [e | [| | link hawbs arrival] master]; simpl; auto.
  - apply well_keyed_set; [assumption | allowed_key].
  - destruct (match link with Some l => truthy l | None => false end);
      [destruct master|]; simpl;
      repeat (apply well_keyed_set; [|allowed_key]); assumption.
Qed.

Lemma well_keyed_entries w s :
  well_keyed s -> well_keyed (fst (_process_entries_section_http w s)).
Proof.
  intros Hs. destruct w as [e | | [d|] rows]; simpl; auto;
    apply well_keyed_set; [assumption | allowed_key | assumption | allowed_key].
Qed.

Lemma report_summary_keys answer today digits oldest fr path report :
  _process_custom_report answer today digits oldest fr = Ok (path, report) ->
  Forall allowed (keys report).
Proof.
  unfold _process_custom_report, _process_custom_report_http.
  destruct fr as [[ident [tp|]]|]; simpl; try discriminate.
  destruct (CustomReport.headerFields tp); try discriminate.
  destruct (CustomReport.manifestFields tp); try discriminate.
  match goal with
  | |- context [answer ?form] => destruct (answer form) as [e | excel [[p u] | e]]
  end; try discriminate;
    intros H; inversion H; subst; clear H;
    repeat (apply Forall_cons; [allowed_key|]); apply Forall_nil.
Qed.

Lemma well_keyed_custom w digits fr ed s :
  well_keyed s -> well_keyed (fst (fst (custom_section w digits fr ed s))).
Proof.
  intros Hs. unfold custom_section.
  destruct (match ed with Some e => entries_not_found e | None => false end); auto.
  destruct (match ed with Some e => oldest_entry e | None => None end); auto.
  destruct (_process_custom_report _ _ _ _ _) as [[path report]|e] eqn:E; auto.
  simpl. apply well_keyed_update; auto. eapply report_summary_keys; eauto.
Qed.

Lemma well_keyed_download w s :
  well_keyed s -> well_keyed (fst (download_and_store w s)).
Proof.
  intros Hs. unfold download_and_store.
  destruct (pdf_download w) as [[[|]|]|]; auto.
  destruct (pdf_extract w) as [[n d]|], (pdf_upload w) as [[p [u|]]|]; simpl;
    repeat (apply well_keyed_set; [|allowed_key]); assumption.
Qed.

Lemma well_keyed_pdf w sections ed s :
  well_keyed s -> well_keyed (fst (pdf_section py_float w sections ed s)).
Proof.
  intros Hs. unfold pdf_section.
  destruct (match ed with Some e => entries_not_found e | None => false end); auto.
  destruct (match ed with Some e => entry_rows e | None => None end) as [[|row rows]|];
    auto.
  destruct (pdf_cookies w) as [[|]|]; auto.
  unfold verify_and_download.
  pose proof (well_keyed_download w s Hs).
  destruct (ams sections && custom sections); auto.
  destruct (should_download _); auto.
  destruct (download_and_store w s); auto.
Qed.

End StageKeys.

(** ** The shape of a run *)
Section RunFacts.
Import PyStr PyDict Runner.
Variable py_float : string -> option float.

(** A run that returns went through the AMS block and either stopped on
    "Master not found" or went through the three other blocks. *)
Lemma process_mawb_returns w mawb sections fr cb r calls :
  process_mawb py_float w mawb sections fr cb = Ok (r, calls) ->
  exists digits s1 c1,
    _normalize_mawb mawb = Ok digits
    /\ ams_stage w sections (initial_summary digits cb) = (s1, c1)
    /\ ((master_not_found sections s1 = true
         /\ r = mkDutyRunResult digits s1 None (Some "failed")
                                (Some "Master not found")
         /\ calls = c1)
        \/ (master_not_found sections s1 = false
            /\ exists s2 ed c2 s3 path c3 s4 c4,
                 entries_stage w sections s1 = (s2, ed, c2)
                 /\ custom_stage w sections digits fr ed s2 = (s3, path, c3)
                 /\ pdf_stage py_float w sections ed s3 = (s4, c4)
                 /\ r = mkDutyRunResult digits s4 path None None
                 /\ calls = (c1 ++ c2 ++ c3 ++ c4)%list)).
Proof.
  unfold process_mawb.
  destruct (page_initialized w); simpl; [|discriminate].
  destruct (_normalize_mawb mawb) as [digits|e]; [|discriminate].
  destruct (ams_stage w sections (initial_summary digits cb)) as [s1 c1] eqn:E1.
  destruct (master_not_found sections s1) eqn:Em.
  - intros H. inversion H; subst.
    exists digits, s1, calls. repeat split; auto.
  - destruct (entries_stage w sections s1) as [[s2 ed] c2] eqn:E2.
    destruct (custom_stage w sections digits fr ed s2) as [[s3 path] c3] eqn:E3.
    destruct (pdf_stage py_float w sections ed s3) as [s4 c4] eqn:E4.
    intros H. inversion H; subst.
    exists digits, s1, c1. repeat split; auto.
    right. split; auto.
    exists s2, ed, c2, s3, path, c3, s4, c4. auto.
Qed.

Lemma ams_stage_calls w sections s s1 c1 :
  ams_stage w sections s = (s1, c1) -> Forall early c1.
Proof.
  unfold ams_stage. destruct (ams sections); intros H; inversion H; subst;
    early_calls.
Qed.

Lemma entries_stage_calls w sections s s2 ed c2 :
  entries_stage w sections s = (s2, ed, c2) -> Forall early c2.
Proof.
  unfold entries_stage.
  destruct (entries sections || custom sections || download_7501_pdf sections).
  - destruct (_process_entries_section_http _ _) as [s' [ed'|e]];
      intros H; inversion H; subst; early_calls.
  - intros H; inversion H; subst. early_calls.
Qed.

Lemma custom_stage_calls w sections digits fr ed s s3 path c3 :
  custom_stage w sections digits fr ed s = (s3, path, c3) -> Forall early c3.
Proof.
  unfold custom_stage, custom_section.
  destruct (custom sections); [|intros H; inversion H; subst; constructor].
  destruct (match ed with Some e => entries_not_found e | None => false end);
    [intros H; inversion H; subst; constructor|].
  destruct (match ed with Some e => oldest_entry e | None => None end);
    [|intros H; inversion H; subst; constructor].
  destruct (_process_custom_report _ _ _ _ _) as [[p report]|e];
    intros H; inversion H; subst; early_calls.
Qed.

(** The PDF operations from the download on: the download alone when it
    gives no file, or the download, the extraction and the upload. *)
Lemma download_and_store_calls w s :
  snd (download_and_store w s) = [CallPdfDownload]
  \/ (pdf_download w = Ok (Some true)
      /\ snd (download_and_store w s)
         = [CallPdfDownload; CallPdfExtract; CallPdfUpload]).
Proof.
  unfold download_and_store.
  destruct (pdf_download w) as [[[|]|]|]; simpl; auto.
Qed.

(** The PDF block leaves the summary alone and calls nothing, or its flag
    is set and it reaches the verification. *)
Lemma pdf_stage_cases w sections ed s3 s4 c4 :
  pdf_stage py_float w sections ed s3 = (s4, c4) ->
  (s4 = s3 /\ c4 = [])
  \/ (download_7501_pdf sections = true
      /\ verify_and_download py_float w sections s3 = (s4, c4)).
Proof.
  unfold pdf_stage, pdf_section.
  destruct (download_7501_pdf sections); [|intros H; inversion H; auto].
  destruct (match ed with Some e => entries_not_found e | None => false end);
    [intros H; inversion H; auto|].
  destruct (match ed with Some e => entry_rows e | None => None end) as [[|row rows]|];
    try (intros H; inversion H; auto; fail).
  destruct (pdf_cookies w) as [[|]|]; intros H; auto; inversion H; auto.
Qed.

(** The verification, when it is required, is evaluated on the summary of
    the moment, and the download follows unless its verdict is a failure. *)
Lemma verify_and_download_cases w sections s3 s4 c4 :
  verify_and_download py_float w sections s3 = (s4, c4) ->
  (ams sections && custom sections = false
   /\ (s4, c4) = download_and_store w s3)
  \/ (ams sections && custom sections = true
      /\ gate py_float (gate_raises w) s3 = GateFailed
      /\ s4 = s3 /\ c4 = [EvalGate GateFailed])
  \/ (ams sections && custom sections = true
      /\ gate py_float (gate_raises w) s3 <> GateFailed
      /\ s4 = fst (download_and_store w s3)
      /\ c4 = EvalGate (gate py_float (gate_raises w) s3)
              :: snd (download_and_store w s3)).
Proof.
  unfold verify_and_download.
  destruct (ams sections && custom sections); [|intros H; left; auto].
  destruct (gate py_float (gate_raises w) s3) eqn:Eg; simpl;
    try (destruct (download_and_store w s3) as [s' c'] eqn:Ed;
         intros H; inversion H; subst; right; right;
         repeat split; auto; discriminate).
  intros H; inversion H; subst. right; left. auto.
Qed.

Lemma early_not_gate calls g : Forall early calls -> ~ In (EvalGate g) calls.
Proof.
  intros Hall Hin. rewrite Forall_forall in Hall.
  destruct (Hall _ Hin) as [H | [H | H]]; discriminate.
Qed.

Lemma early_not_download calls : Forall early calls -> ~ In CallPdfDownload calls.
Proof.
  intros Hall Hin. rewrite Forall_forall in Hall.
  destruct (Hall _ Hin) as [H | [H | H]]; discriminate.
Qed.

Lemma early_not_extract calls : Forall early calls -> ~ In CallPdfExtract calls.
Proof.
  intros Hall Hin. rewrite Forall_forall in Hall.
  destruct (Hall _ Hin) as [H | [H | H]]; discriminate.
Qed.

Lemma download_and_store_no_gate w s g :
  ~ In (EvalGate g) (snd (download_and_store w s)).
Proof.
  destruct (download_and_store_calls w s) as [-> | [_ ->]]; simpl;
    intros H; repeat (destruct H as [H | H]; [discriminate|]); exact H.
Qed.

(** The PDF section writes three keys of the summary and no other. *)
Lemma download_and_store_get w s k :
  k <> "7501 Total T-11 Entries" -> k <> "7501 Duty" ->
  k <> "7501 Batch PDF URL" ->
  get (fst (download_and_store w s)) k = get s k.
Proof.
  intros H1 H2 H3. unfold download_and_store.
  destruct (pdf_download w) as [[[|]|]|]; auto.
  destruct (pdf_extract w) as [[n d]|], (pdf_upload w) as [[p [u|]]|]; simpl;
    rewrite ?get_set_other; auto.
Qed.

End RunFacts.

(** ** The summary a run returns *)
Section SummaryFacts.
Import PyStr PyDict Runner.
Variable py_float : string -> option float.

Lemma ams_stage_keyed w sections s s1 c1 :
  ams_stage w sections s = (s1, c1) -> well_keyed s -> well_keyed s1.
Proof.
  unfold ams_stage. destruct (ams sections); intros H Hs; inversion H; subst; auto.
  now apply well_keyed_ams.
Qed.

Lemma entries_stage_keyed w sections s s2 ed c2 :
  entries_stage w sections s = (s2, ed, c2) -> well_keyed s -> well_keyed s2.
Proof.
  unfold entries_stage. intros H Hs.
  destruct (entries sections || custom sections || download_7501_pdf sections);
    [|inversion H; subst; auto].
  pose proof (well_keyed_entries (entries_world w) s Hs) as Hk.
  destruct (_process_entries_section_http _ _) as [s' [ed'|e]];
    inversion H; subst; auto.
Qed.

Lemma custom_stage_keyed w sections digits fr ed s s3 path c3 :
  custom_stage w sections digits fr ed s = (s3, path, c3) ->
  well_keyed s -> well_keyed s3.
Proof.
  unfold custom_stage. intros H Hs.
  destruct (custom sections); [|inversion H; subst; auto].
  pose proof (well_keyed_custom w digits fr ed s Hs) as Hk.
  rewrite H in Hk. exact Hk.
Qed.

Lemma pdf_stage_keyed w sections ed s s4 c4 :
  pdf_stage py_float w sections ed s = (s4, c4) -> well_keyed s -> well_keyed s4.
Proof.
  unfold pdf_stage. intros H Hs.
  destruct (download_7501_pdf sections); [|inversion H; subst; auto].
  pose proof (well_keyed_pdf py_float w sections ed s Hs) as Hk.
  rewrite H in Hk. exact Hk.
Qed.

(** C5, as the code has it. The summary of every run that returns holds the
    seventeen fixed keys, first and in their order, and beside them only keys
    among "Master Status", "AMS Arrival Date", "Entries Status",
    "excel_storage_path" and "excel_download_url". *)
Theorem summary_keys_fixed_then_optional w mawb sections fr cb r calls :
  process_mawb py_float w mawb sections fr cb = Ok (r, calls) ->
  exists extras,
    keys (summary r) = (fixed_keys ++ extras)%list
    /\ incl extras optional_keys.
Proof.
  intros Hrun.
  destruct (process_mawb_returns _ _ _ _ _ _ _ _ Hrun)
    as (digits & s1 & c1 & _ & E1 & Hcases).
  pose proof (ams_stage_keyed _ _ _ _ _ E1 (well_keyed_initial digits cb)) as K1.
  destruct Hcases as [(_ & -> & _) | (_ & s2 & ed & c2 & s3 & path & c3 & s4 & c4
                                       & E2 & E3 & E4 & -> & _)].
  - exact K1.
  - simpl. eapply pdf_stage_keyed; eauto.
    eapply custom_stage_keyed; eauto.
    eapply entries_stage_keyed; eauto.
Qed.

(** The stages before the PDF section leave the PDF URL alone. *)
Lemma report_summary_no_url answer today digits oldest fr path report :
  _process_custom_report answer today digits oldest fr = Ok (path, report) ->
  get report "7501 Batch PDF URL" = None.
Proof.
  unfold _process_custom_report, _process_custom_report_http.
  destruct fr as [[ident [tp|]]|]; simpl; try discriminate.
  destruct (CustomReport.headerFields tp); try discriminate.
  destruct (CustomReport.manifestFields tp); try discriminate.
  match goal with
  | |- context [answer ?form] => destruct (answer form) as [e | excel [[p u] | e]]
  end; try discriminate; intros H; inversion H; subst; reflexivity.
Qed.

Lemma url_after_early_stages w sections digits fr cb s1 c1 s2 ed c2 s3 path c3 :
  ams_stage w sections (initial_summary digits cb) = (s1, c1) ->
  entries_stage w sections s1 = (s2, ed, c2) ->
  custom_stage w sections digits fr ed s2 = (s3, path, c3) ->
  get s3 "7501 Batch PDF URL" = Some "N/A".
Proof.
  intros E1 E2 E3.
  assert (get s1 "7501 Batch PDF URL" = Some "N/A") as H1.
  { unfold ams_stage in E1. destruct (ams sections); inversion E1; subst;
      [|destruct cb; reflexivity].
    destruct (ams_world w) as [e | [| | link hawbs arrival] master]; simpl;
      try (destruct (match link with Some l => truthy l | None => false end);
           [destruct master|]; simpl);
      rewrite ?get_set_other by discriminate; destruct cb; reflexivity. }
  assert (get s2 "7501 Batch PDF URL" = Some "N/A") as H2.
  { unfold entries_stage in E2.
    destruct (entries sections || custom sections || download_7501_pdf sections);
      [|inversion E2; subst; auto].
    destruct (entries_world w) as [e | | [d|] rows]; simpl in E2;
      inversion E2; subst; rewrite ?get_set_other by discriminate; auto. }
  unfold custom_stage, custom_section in E3.
  destruct (custom sections); [|inversion E3; subst; auto].
  destruct (match ed with Some e => entries_not_found e | None => false end);
    [inversion E3; subst; auto|].
  destruct (match ed with Some e => oldest_entry e | None => None end);
    [|inversion E3; subst; auto].
  destruct (_process_custom_report _ _ _ _ _) as [[p report]|e] eqn:E;
    inversion E3; subst; auto.
  rewrite get_update_absent; auto. eapply report_summary_no_url; eauto.
Qed.

(** They leave the two values of the PDF alone as well. *)
Lemma report_summary_no_pdf_value answer today digits oldest fr path report k :
  k = "7501 Total T-11 Entries" \/ k = "7501 Duty" ->
  _process_custom_report answer today digits oldest fr = Ok (path, report) ->
  get report k = None.
Proof.
  intros Hk.
  unfold _process_custom_report, _process_custom_report_http.
  destruct fr as [[ident [tp|]]|]; simpl; try discriminate.
  destruct (CustomReport.headerFields tp); try discriminate.
  destruct (CustomReport.manifestFields tp); try discriminate.
  match goal with
  | |- context [answer ?form] => destruct (answer form) as [e | excel [[p u] | e]]
  end; try discriminate; intros H; inversion H; subst;
    destruct Hk as [-> | ->]; reflexivity.
Qed.

Lemma pdf_values_after_early_stages w sections digits fr cb s1 c1 s2 ed c2 s3 path c3 k :
  k = "7501 Total T-11 Entries" \/ k = "7501 Duty" ->
  ams_stage w sections (initial_summary digits cb) = (s1, c1) ->
  entries_stage w sections s1 = (s2, ed, c2) ->
  custom_stage w sections digits fr ed s2 = (s3, path, c3) ->
  get s3 k = Some "N/A".
Proof.
  intros Hk E1 E2 E3.
  assert (get s1 k = Some "N/A") as H1.
  { unfold ams_stage in E1. destruct (ams sections); inversion E1; subst;
      [|destruct Hk as [-> | ->]; destruct cb; reflexivity].
    destruct (ams_world w) as [e | [| | link hawbs arrival] master]; simpl;
      try (destruct (match link with Some l => truthy l | None => false end);
           [destruct master|]; simpl);
      destruct Hk as [-> | ->];
      rewrite ?get_set_other by discriminate; destruct cb; reflexivity. }
  assert (get s2 k = Some "N/A") as H2.
  { unfold entries_stage in E2.
    destruct (entries sections || custom sections || download_7501_pdf sections);
      [|inversion E2; subst; auto].
    destruct (entries_world w) as [e | | [d|] rows]; simpl in E2;
      inversion E2; subst; auto;
      destruct Hk as [-> | ->];
      rewrite ?get_set_other by discriminate; auto. }
  unfold custom_stage, custom_section in E3.
  destruct (custom sections); [|inversion E3; subst; auto].
  destruct (match ed with Some e => entries_not_found e | None => false end);
    [inversion E3; subst; auto|].
  destruct (match ed with Some e => oldest_entry e | None => None end);
    [|inversion E3; subst; auto].
  destruct (_process_custom_report _ _ _ _ _) as [[p report]|e] eqn:E;
    inversion E3; subst; auto.
  rewrite get_update_absent; auto. eapply report_summary_no_pdf_value; eauto.
Qed.

End SummaryFacts.

(** ** The PDF section *)
Section PdfFacts.
Import PyStr PyDict Runner.
Variable py_float : string -> option float.

(** What the PDF block contributes to a run that reaches the end. *)
Lemma run_pdf_part w mawb sections fr cb r calls :
  process_mawb py_float w mawb sections fr cb = Ok (r, calls) ->
  (Forall early calls)
  \/ exists digits s1 c1 s2 ed c2 s3 path c3 c4,
       ams_stage w sections (initial_summary digits cb) = (s1, c1)
       /\ entries_stage w sections s1 = (s2, ed, c2)
       /\ custom_stage w sections digits fr ed s2 = (s3, path, c3)
       /\ download_7501_pdf sections = true
       /\ verify_and_download py_float w sections s3 = (summary r, c4)
       /\ status r = None
       /\ calls = ((c1 ++ c2 ++ c3) ++ c4)%list
       /\ Forall early (c1 ++ c2 ++ c3)%list.
Proof.
  intros Hrun.
  destruct (process_mawb_returns _ _ _ _ _ _ _ _ Hrun)
    as (digits & s1 & c1 & _ & E1 & Hcases).
  pose proof (ams_stage_calls _ _ _ _ _ E1) as F1.
  destruct Hcases as [(_ & -> & ->) | (_ & s2 & ed & c2 & s3 & path & c3 & s4 & c4
                                        & E2 & E3 & E4 & -> & ->)]; [now left|].
  pose proof (entries_stage_calls _ _ _ _ _ _ E2) as F2.
  pose proof (custom_stage_calls _ _ _ _ _ _ _ _ _ E3) as F3.
  assert (Forall early (c1 ++ c2 ++ c3)%list) as F
    by (repeat (apply Forall_app; split); assumption).
  destruct (pdf_stage_cases _ _ _ _ _ _ _ E4) as [(-> & ->) | (Hdl & Hv)].
  - left. rewrite !app_assoc, app_nil_r, <- app_assoc. exact F.
  - right. exists digits, s1, c1, s2, ed, c2, s3, path, c3, c4.
    rewrite !app_assoc. repeat split; auto. now rewrite <- app_assoc.
Qed.

Lemma download_and_store_values w s n d :
  pdf_download w = Ok (Some true) ->
  pdf_extract w = Ok (n, d) ->
  get (fst (download_and_store w s)) "7501 Total T-11 Entries" = Some (str_of_Z n)
  /\ get (fst (download_and_store w s)) "7501 Duty" = Some (PyFloat.format_2f d).
Proof.
  intros Hd He. unfold download_and_store. rewrite Hd, He.
  destruct (pdf_upload w) as [[p [u|]]|]; simpl; split;
    repeat first [apply get_set_same | rewrite get_set_other by discriminate].
Qed.

(** An extraction that raises leaves the summary as it was, the URL apart. *)
Lemma download_and_store_unread w s e k :
  pdf_download w = Ok (Some true) ->
  pdf_extract w = Raise e ->
  k <> "7501 Batch PDF URL" ->
  get (fst (download_and_store w s)) k = get s k.
Proof.
  intros Hd He Hk. unfold download_and_store. rewrite Hd, He.
  destruct (pdf_upload w) as [[p [u|]]|]; simpl;
    apply get_set_other; congruence.
Qed.

Lemma download_and_store_all_calls w s :
  pdf_download w = Ok (Some true) ->
  snd (download_and_store w s) = [CallPdfDownload; CallPdfExtract; CallPdfUpload].
Proof. intros Hd. unfold download_and_store. now rewrite Hd. Qed.

(** The summary and the PDF operations of a run that downloads the PDF. *)
Lemma downloading_run w mawb sections fr cb r calls :
  process_mawb py_float w mawb sections fr cb = Ok (r, calls) ->
  In CallPdfDownload calls ->
  exists s3,
    summary r = fst (download_and_store w s3)
    /\ get s3 "7501 Total T-11 Entries" = Some "N/A"
    /\ get s3 "7501 Duty" = Some "N/A"
    /\ incl (snd (download_and_store w s3)) calls.
Proof.
  intros Hrun Hin.
  destruct (run_pdf_part _ _ _ _ _ _ _ Hrun)
    as [F | (digits & s1 & c1 & s2 & ed & c2 & s3 & path & c3 & c4
             & E1 & E2 & E3 & Hdl & Hv & _ & -> & F)].
  - exfalso. eapply early_not_download; eauto.
  - apply in_app_or in Hin as [Hin | Hin];
      [exfalso; eapply early_not_download; eauto|].
    exists s3.
    assert (get s3 "7501 Total T-11 Entries" = Some "N/A") as Hn
      by (eapply pdf_values_after_early_stages; eauto).
    assert (get s3 "7501 Duty" = Some "N/A") as Hd'
      by (eapply pdf_values_after_early_stages; eauto).
    destruct (verify_and_download_cases _ _ _ _ _ _ Hv)
      as [(_ & Heq) | [(_ & _ & _ & ->) | (_ & _ & -> & ->)]].
    + rewrite (surjective_pairing (download_and_store w s3)) in Heq.
      inversion Heq as [[Hs Hc]]. repeat split; auto.
      apply incl_appr, incl_refl.
    + destruct Hin as [Hin | []]. discriminate.
    + repeat split; auto. apply incl_appr, incl_tl, incl_refl.
Qed.

(** C3. Whenever the run downloads the 7501 batch PDF and the file is
    there, the extraction and the upload follow. When the extraction returns
    an entry count and a total duty, the summary that the run returns holds
    them, the count as [str] prints it and the duty with two decimals,
    whatever their values (zero included) and whatever happens to the upload:
    a duty of 0 is written 0.00, one of 1234.5 is written 1234.50 and one of
    0.125 is written 0.12. When the extraction raises, the two keys keep
    the placeholder of the initial summary. *)
Theorem pdf_values_recorded w mawb sections fr cb r calls :
  process_mawb py_float w mawb sections fr cb = Ok (r, calls) ->
  In CallPdfDownload calls ->
  pdf_download w = Ok (Some true) ->
  In CallPdfExtract calls /\ In CallPdfUpload calls
  /\ match pdf_extract w with
     | Ok (entry_count, total_duty) =>
         get (summary r) "7501 Total T-11 Entries" = Some (str_of_Z entry_count)
         /\ get (summary r) "7501 Duty" = Some (PyFloat.format_2f total_duty)
     | Raise _ =>
         get (summary r) "7501 Total T-11 Entries" = Some "N/A"
         /\ get (summary r) "7501 Duty" = Some "N/A"
     end
  /\ (pdf_extract w = Ok (0%Z, 0%float) ->
      get (summary r) "7501 Total T-11 Entries" = Some "0"
      /\ get (summary r) "7501 Duty" = Some "0.00")
  /\ PyFloat.format_2f 1234.5%float = "1234.50"
  /\ PyFloat.format_2f 0.125%float = "0.12".
Proof.
  intros Hrun Hin Hd.
  destruct (downloading_run _ _ _ _ _ _ _ Hrun Hin) as (s3 & -> & Hn & Hduty & Hc).
  rewrite (download_and_store_all_calls w s3 Hd) in Hc.
  split; [apply Hc; simpl; auto|]. split; [apply Hc; simpl; auto|].
  split; [|split; [|split; vm_compute; reflexivity]].
  - destruct (pdf_extract w) as [[n d]|e] eqn:He.
    + now apply download_and_store_values.
    + rewrite !(download_and_store_unread w s3 e) by (auto; discriminate). auto.
  - intros He. now apply (download_and_store_values w s3 0%Z 0%float).
Qed.

(** A verdict of failure is followed by no PDF operation. *)
Lemma failed_gate_run w mawb sections fr cb r calls :
  process_mawb py_float w mawb sections fr cb = Ok (r, calls) ->
  In (EvalGate GateFailed) calls ->
  download_7501_pdf sections = true
  /\ ams sections = true /\ custom sections = true
  /\ gate py_float (gate_raises w) (summary r) = GateFailed
  /\ get (summary r) "7501 Batch PDF URL" = Some "N/A"
  /\ status r = None
  /\ ~ In CallPdfDownload calls.
Proof.
  intros Hrun Hin.
  destruct (run_pdf_part _ _ _ _ _ _ _ Hrun)
    as [F | (digits & s1 & c1 & s2 & ed & c2 & s3 & path & c3 & c4
             & E1 & E2 & E3 & Hdl & Hv & Hst & -> & F)].
  - exfalso. eapply early_not_gate; eauto.
  - apply in_app_or in Hin as [Hin | Hin];
      [exfalso; eapply early_not_gate; eauto|].
    destruct (verify_and_download_cases _ _ _ _ _ _ Hv)
      as [(_ & Heq) | [(Hac & Hg & Hs & ->) | (_ & Hg & _ & ->)]].
    + exfalso. rewrite (surjective_pairing (download_and_store w s3)) in Heq.
      inversion Heq as [[Hs Hc]]. rewrite Hc in Hin.
      eapply download_and_store_no_gate; eauto.
    + apply andb_true_iff in Hac as [Ha Hc]. rewrite Hs.
      repeat split; auto.
      * eapply url_after_early_stages; eauto.
      * intros Hd. apply in_app_or in Hd as [Hd | [Hd | []]];
          [eapply early_not_download; eauto | discriminate].
    + exfalso. destruct Hin as [Hin | Hin].
      * inversion Hin. congruence.
      * eapply download_and_store_no_gate; eauto.
Qed.

End PdfFacts.

(** ** The pre-PDF verification *)
Section GateFacts.
Import PyStr PyDict Runner.
Variable py_float : string -> option float.

Lemma pdf_stage_reached w sections ed s :
  pdf_stage py_float w sections ed s
  = if pdf_reached w sections ed
    then verify_and_download py_float w sections s
    else (s, []).
Proof.
  unfold pdf_stage, pdf_section, pdf_reached.
  destruct (download_7501_pdf sections); simpl; auto.
  destruct (match ed with Some e => entries_not_found e | None => false end);
    simpl; auto.
  destruct (match ed with Some e => entry_rows e | None => None end) as [[|row rows]|];
    simpl; auto.
  destruct (pdf_cookies w) as [[|]|]; auto.
Qed.

(** The verdict depends on the seven keys the verification reads only. *)
Lemma gate_agree b s s' :
  (forall k, In k gate_keys -> get s k = get s' k) ->
  gate py_float b s = gate py_float b s'.
Proof.
  intros H. unfold gate, houses_match, rejected_ok, duties_match.
  rewrite !(H "AMS Total HAWBs"), !(H "7501 Total Houses"),
    !(H "Report Total House"), !(H "Checkbook HAWBs"), !(H "Rejected Entries"),
    !(H "AMS Duty"), !(H "Report Duty");
    solve [reflexivity | simpl; repeat (first [left; reflexivity | right])].
Qed.

Lemma gate_after_download w b s :
  gate py_float b (fst (download_and_store w s)) = gate py_float b s.
Proof.
  apply gate_agree. intros k Hk. apply download_and_store_get;
    intros ->; simpl in Hk;
    repeat (destruct Hk as [Hk | Hk]; [discriminate|]); exact Hk.
Qed.

(** The verdict is a pass exactly when nothing raised and the three checks
    hold. *)
Lemma gate_passes_iff b s :
  gate py_float b s = GatePassed
  <-> b = false
      /\ houses_match py_float s = true
      /\ rejected_ok py_float s = true
      /\ duties_match py_float s = true.
Proof.
  unfold gate. destruct b; [split; [discriminate | intros [? _]; discriminate]|].
  destruct (houses_match py_float s), (rejected_ok py_float s),
    (duties_match py_float s); simpl; split; try discriminate; auto;
    intros (_ & ? & ? & ?); discriminate.
Qed.

Lemma tolerance_is_a_hundredth : tolerance = PrimFloat.div 1%float 100%float.
Proof. vm_compute; reflexivity. Qed.

(** The same, with the three checks spelled out. *)
Lemma gate_passes_spelled b s :
  let num k := parse_value py_float (get s k) in
  gate py_float b s = GatePassed
  <-> b = false
      /\ PrimFloat.eqb (num "AMS Total HAWBs") (num "7501 Total Houses") = true
      /\ PrimFloat.eqb (num "7501 Total Houses") (num "Report Total House") = true
      /\ PrimFloat.eqb (num "Report Total House") (num "Checkbook HAWBs") = true
      /\ PrimFloat.eqb (num "Rejected Entries") 0%float = true
      /\ PrimFloat.leb
           (PrimFloat.abs (PrimFloat.sub (num "AMS Duty") (num "Report Duty")))
           (PrimFloat.div 1%float 100%float) = true.
Proof.
  intros num. rewrite gate_passes_iff.
  unfold houses_match, rejected_ok, duties_match. fold num.
  rewrite tolerance_is_a_hundredth, !andb_true_iff. tauto.
Qed.

(** What a run tells about a verification it evaluated. *)
Lemma evaluated_gate_run w mawb sections fr cb r calls g :
  process_mawb py_float w mawb sections fr cb = Ok (r, calls) ->
  In (EvalGate g) calls ->
  ams sections = true /\ custom sections = true
  /\ g = gate py_float (gate_raises w) (summary r)
  /\ (g <> GateFailed -> In CallPdfDownload calls).
Proof.
  intros Hrun Hin.
  destruct (run_pdf_part _ _ _ _ _ _ _ _ Hrun)
    as [F | (digits & s1 & c1 & s2 & ed & c2 & s3 & path & c3 & c4
             & E1 & E2 & E3 & Hdl & Hv & Hst & -> & F)].
  - exfalso. eapply early_not_gate; eauto.
  - apply in_app_or in Hin as [Hin | Hin];
      [exfalso; eapply early_not_gate; eauto|].
    destruct (verify_and_download_cases _ _ _ _ _ _ Hv)
      as [(_ & Heq) | [(Hac & Hg & Hs & ->) | (Hac & Hg & Hs & ->)]].
    + exfalso. rewrite (surjective_pairing (download_and_store w s3)) in Heq.
      inversion Heq as [[Hs Hc]]. rewrite Hc in Hin.
      eapply download_and_store_no_gate; eauto.
    + apply andb_true_iff in Hac as [Ha Hc].
      destruct Hin as [Hin | []]. inversion Hin; subst g.
      rewrite Hs. repeat split; auto. congruence.
    + apply andb_true_iff in Hac as [Ha Hc].
      destruct Hin as [Hin | Hin];
        [|exfalso; eapply download_and_store_no_gate; eauto].
      inversion Hin as [Hg']. rewrite Hs, gate_after_download.
      repeat split; auto. intros _.
      apply in_or_app. right. right.
      destruct (download_and_store_calls w s3) as [-> | [_ ->]]; simpl; auto.
Qed.

(** C6. A run evaluates the pre-PDF verification only with both the [ams]
    and the [custom] flag set. Its verdict is a pass if and only if no
    statement of it raised and, on the values of the summary parsed as
    floats, the four house counts are equal, the rejected entries are 0 and
    the two duties differ by 0.01 at most; a value that parses, once dollar
    signs, commas and the spaces around it are removed, counts as its
    number, a missing or unparseable one as 0. After a verdict of failure
    the PDF is not downloaded. *)
Theorem pre_pdf_gate w mawb sections fr cb r calls g :
  process_mawb py_float w mawb sections fr cb = Ok (r, calls) ->
  In (EvalGate g) calls ->
  let num k := parse_value py_float (get (summary r) k) in
  ams sections = true /\ custom sections = true
  /\ (g = GatePassed
      <-> gate_raises w = false
          /\ PrimFloat.eqb (num "AMS Total HAWBs") (num "7501 Total Houses") = true
          /\ PrimFloat.eqb (num "7501 Total Houses") (num "Report Total House") = true
          /\ PrimFloat.eqb (num "Report Total House") (num "Checkbook HAWBs") = true
          /\ PrimFloat.eqb (num "Rejected Entries") 0%float = true
          /\ PrimFloat.leb
               (PrimFloat.abs (PrimFloat.sub (num "AMS Duty") (num "Report Duty")))
               (PrimFloat.div 1%float 100%float) = true)
  /\ (g = GateFailed -> ~ In CallPdfDownload calls)
  /\ parse_value py_float None = 0%float
  /\ (forall v,
        py_float (strip (remove_chr ","%char (remove_chr "$"%char v))) = None ->
        parse_value py_float (Some v) = 0%float)
  /\ (forall v x,
        py_float (strip (remove_chr ","%char (remove_chr "$"%char v))) = Some x ->
        parse_value py_float (Some v) = x).
Proof.
  intros Hrun Hin num.
  destruct (evaluated_gate_run _ _ _ _ _ _ _ _ Hrun Hin) as (Ha & Hc & Hg & _).
  split; [exact Ha|]. split; [exact Hc|]. split; [|split; [|split; [|split]]].
  - rewrite Hg. apply gate_passes_spelled.
  - intros Hf. rewrite Hf in Hin. eapply failed_gate_run; eauto.
  - reflexivity.
  - intros v Hv. unfold parse_value. now rewrite Hv.
  - intros v x Hv. unfold parse_value. now rewrite Hv.
Qed.

End GateFacts.

(** ** A failed verification and a raising one *)
Section FailOpenFacts.
Import PyStr PyDict Runner.
Variable py_float : string -> option float.

(** C4, as the code has it. In a run with [download_7501_pdf] on whose
    pre-PDF verification was evaluated and failed, no PDF is downloaded and
    the summary keeps "N/A", the value it starts with, under "7501 Batch PDF
    URL"; the run result carries no failure status, and the service, when its
    own steps up to there succeed, passes it to [upsert_result] with status
    "success": that row is the first of the call whatever happens afterwards,
    and the only one, returned in the success dictionary, when the upsert and
    what follows it do not raise. *)
Theorem failed_gate_keeps_placeholder_url sw mawb sections cb fr r calls :
  Service.broker_found sw = true ->
  Service.format_found sw = Some fr ->
  Service.before_try sw = Ok tt ->
  Service.session_ready sw = Ok tt ->
  (forall e, Service.excel_upload sw <> Raise e) ->
  Service.saving_progress sw = Ok tt ->
  process_mawb py_float (Service.runner_world sw) mawb sections (Some fr) cb
  = Ok (r, calls) ->
  In (EvalGate GateFailed) calls ->
  download_7501_pdf sections = true
  /\ get (summary r) "7501 Batch PDF URL" = Some "N/A"
  /\ ~ In CallPdfDownload calls
  /\ status r = None
  /\ exists artifact_path artifact_url,
       let row :=
         Service.mkResultRow (result_mawb r) "success" (Some (summary r))
                             artifact_path artifact_url None in
       hd_error (fst (Service.process_mawb py_float sw mawb sections cb))
       = Some row
       /\ (Service.upsert_success sw = Ok tt -> Service.after_save sw = Ok tt ->
           Service.process_mawb py_float sw mawb sections cb
           = ([row], Ok (Service.ReplySuccess row))).
Proof.
  intros Hb Hf Hpre Hs Hup Hprog Hrun Hin.
  destruct (failed_gate_run _ _ _ _ _ _ _ _ Hrun Hin)
    as (Hdl & _ & _ & _ & Hurl & Hst & Hno).
  repeat split; auto.
  unfold Service.process_mawb. rewrite Hb, Hf, Hpre, Hs, Hrun. simpl.
  assert (Hrow : forall p u,
            exists artifact_path artifact_url,
              let row :=
                Service.mkResultRow (result_mawb r) "success" (Some (summary r))
                                    artifact_path artifact_url None in
              hd_error
                (fst (match Service.saving_progress sw with
                      | Raise e => Service.except_branch sw mawb [] e
                      | Ok _ =>
                          match Service.upsert_success sw with
                          | Raise e =>
                              Service.except_branch sw mawb
                                [Service.mkResultRow (result_mawb r) "success"
                                   (Some (summary r)) p u None] e
                          | Ok _ =>
                              match Service.after_save sw with
                              | Raise e =>
                                  Service.except_branch sw mawb
                                    [Service.mkResultRow (result_mawb r) "success"
                                       (Some (summary r)) p u None] e
                              | Ok _ =>
                                  ([Service.mkResultRow (result_mawb r) "success"
                                      (Some (summary r)) p u None],
                                   Ok (Service.ReplySuccess
                                         (Service.mkResultRow (result_mawb r)
                                            "success" (Some (summary r)) p u None)))
                              end
                          end
                      end)) = Some row
              /\ (Service.upsert_success sw = Ok tt ->
                  Service.after_save sw = Ok tt ->
                  match Service.saving_progress sw with
                  | Raise e => Service.except_branch sw mawb [] e
                  | Ok _ =>
                      match Service.upsert_success sw with
                      | Raise e =>
                          Service.except_branch sw mawb
                            [Service.mkResultRow (result_mawb r) "success"
                               (Some (summary r)) p u None] e
                      | Ok _ =>
                          match Service.after_save sw with
                          | Raise e =>
                              Service.except_branch sw mawb
                                [Service.mkResultRow (result_mawb r) "success"
                                   (Some (summary r)) p u None] e
                          | Ok _ =>
                              ([Service.mkResultRow (result_mawb r) "success"
                                  (Some (summary r)) p u None],
                               Ok (Service.ReplySuccess
                                     (Service.mkResultRow (result_mawb r)
                                        "success" (Some (summary r)) p u None)))
                          end
                      end
                  end = ([row], Ok (Service.ReplySuccess row)))).
  { intros p u. exists p, u. rewrite Hprog. split.
    - destruct (Service.upsert_success sw); [destruct (Service.after_save sw)|];
        reflexivity.
    - intros -> ->. reflexivity. }
  destruct (Service.get_truthy (summary r) "excel_storage_path") as [p|];
    [destruct (Service.get_truthy (summary r) "excel_download_url") as [u|]|];
    try apply Hrow;
    (destruct (download_path r); [|apply Hrow];
     destruct (Service.excel_upload sw) as [[p' u']|e];
     [apply Hrow | exfalso; eapply Hup; eauto]).
Qed.

(** C10. If the pre-PDF verification raises instead of giving a verdict,
    [should_download] is true and the run goes on with the download, the
    extraction and the upload of the PDF from the summary of that moment; it
    is, but for the recorded outcome, the run of the same world in which the
    verification does not raise and passes. *)
Theorem gate_exception_fails_open w mawb sections fr cb r calls :
  process_mawb py_float w mawb sections fr cb = Ok (r, calls) ->
  In (EvalGate GateRaised) calls ->
  gate_raises w = true
  /\ should_download GateRaised = true
  /\ In CallPdfDownload calls
  /\ exists s3 before,
       calls = (before ++ EvalGate GateRaised :: snd (download_and_store w s3))%list
       /\ summary r = fst (download_and_store w s3)
       /\ (gate py_float false s3 = GatePassed ->
           process_mawb py_float (with_gate_raises false w) mawb sections fr cb
           = Ok (r, (before ++ EvalGate GatePassed
                            :: snd (download_and_store w s3))%list)).
Proof.
  intros Hrun Hin.
  destruct (evaluated_gate_run _ _ _ _ _ _ _ _ _ Hrun Hin) as (Ha & Hc & Hg & Hd).
  assert (gate_raises w = true) as Hraises.
  { unfold gate in Hg. destruct (gate_raises w); auto.
    destruct (_ && _); discriminate. }
  split; [exact Hraises|]. split; [reflexivity|].
  split; [apply Hd; discriminate|].
  destruct (process_mawb_returns _ _ _ _ _ _ _ _ Hrun)
    as (digits & s1 & c1 & Hnorm & E1 & Hcases).
  assert (page_initialized w = true) as Hpage.
  { unfold process_mawb in Hrun. destruct (page_initialized w); auto. discriminate. }
  pose proof (ams_stage_calls _ _ _ _ _ E1) as F1.
  destruct Hcases as [(_ & _ & ->) | (Em & s2 & ed & c2 & s3 & path & c3 & s4 & c4
                                       & E2 & E3 & E4 & -> & ->)];
    [exfalso; eapply early_not_gate; eauto|].
  pose proof (entries_stage_calls _ _ _ _ _ _ E2) as F2.
  pose proof (custom_stage_calls _ _ _ _ _ _ _ _ _ E3) as F3.
  rewrite pdf_stage_reached in E4.
  destruct (pdf_reached w sections ed) eqn:Ereach.
  - unfold verify_and_download in E4. rewrite Ha, Hc in E4. simpl in E4.
    unfold gate in E4. rewrite Hraises in E4. simpl in E4.
    destruct (download_and_store w s3) as [s' c'] eqn:Ed.
    inversion E4; subst s4 c4. clear E4.
    exists s3, (c1 ++ c2 ++ c3)%list. rewrite Ed. simpl.
    split; [now rewrite <- !app_assoc|]. split; [reflexivity|].
    intros Hpass.
    unfold process_mawb. simpl. rewrite Hpage, Hnorm. simpl.
    change (ams_stage (with_gate_raises false w) sections (initial_summary digits cb))
      with (ams_stage w sections (initial_summary digits cb)).
    rewrite E1, Em.
    change (entries_stage (with_gate_raises false w) sections s1)
      with (entries_stage w sections s1).
    rewrite E2.
    change (custom_stage (with_gate_raises false w) sections digits fr ed s2)
      with (custom_stage w sections digits fr ed s2).
    rewrite E3, pdf_stage_reached.
    change (pdf_reached (with_gate_raises false w) sections ed)
      with (pdf_reached w sections ed).
    rewrite Ereach. unfold verify_and_download. rewrite Ha, Hc. simpl.
    rewrite Hpass. simpl.
    change (download_and_store (with_gate_raises false w) s3)
      with (download_and_store w s3).
    rewrite Ed. now rewrite <- !app_assoc.
  - inversion E4; subst s4 c4. exfalso.
    rewrite app_nil_r in Hin.
    eapply (early_not_gate (c1 ++ c2 ++ c3)%list); eauto.
    repeat (apply Forall_app; split); assumption.
Qed.

End FailOpenFacts.

(** ** The scenarios of the specification, on the fixtures *)

(** The happy path: three entries and a duty of 9000 are read from the
    PDF and recorded; and a PDF from which nothing is extracted: the zeros
    are recorded. *)
Lemma pdf_values_recorded_witness :
  match Runner.process_mawb Fixtures.decimal_float (Fixtures.happy_world "4250")
          "235-94731221" Fixtures.all_sections (Some Fixtures.format_record)
          (Some "4250") with
  | Ok (r, _) =>
      PyDict.get (Runner.summary r) "7501 Total T-11 Entries" = Some "3"
      /\ PyDict.get (Runner.summary r) "7501 Duty" = Some "9000.00"
  | Raise _ => False
  end
  /\ match Runner.process_mawb Fixtures.decimal_float Fixtures.empty_pdf_world
            "235-94731221" Fixtures.all_sections (Some Fixtures.format_record)
            (Some "4250") with
     | Ok (r, _) =>
         PyDict.get (Runner.summary r) "7501 Total T-11 Entries" = Some "0"
         /\ PyDict.get (Runner.summary r) "7501 Duty" = Some "0.00"
     | Raise _ => False
     end.
Proof.
  split.
  - concrete_run E r calls.
    refine (proj1 (proj2 (proj2
              (pdf_values_recorded _ _ _ _ _ _ r calls E _ eq_refl)))).
    pose proof E as E'. vm_compute in E'. inversion E'. in_list.
  - concrete_run E r calls.
    refine (proj1 (proj2 (proj2 (proj2
              (pdf_values_recorded _ _ _ _ _ _ r calls E _ eq_refl)))) eq_refl).
    pose proof E as E'. vm_compute in E'. inversion E'. in_list.
Defined.

(** C3 as stated fails: the PDF is downloaded and uploaded, but the
    extractor raises on it, and the two keys hold no extracted value. *)
Lemma unread_pdf_keeps_placeholders :
  match Runner.process_mawb Fixtures.decimal_float Fixtures.unreadable_pdf_world
          "235-94731221" Fixtures.all_sections (Some Fixtures.format_record)
          (Some "4250") with
  | Ok (r, calls) =>
      In Runner.CallPdfDownload calls
      /\ Runner.pdf_download Fixtures.unreadable_pdf_world = Ok (Some true)
      /\ PyDict.get (Runner.summary r) "7501 Batch PDF URL"
         = Some "https://store/pdf"
      /\ PyDict.get (Runner.summary r) "7501 Total T-11 Entries" = Some "N/A"
      /\ PyDict.get (Runner.summary r) "7501 Duty" = Some "N/A"
  | Raise _ => False
  end.
Proof.
  vm_compute. split; [repeat (first [left; reflexivity | right])|].
  repeat split; reflexivity.
Qed.

(** The scenario "pre-PDF gate fails on house mismatch": C4 as stated fails,
    the URL of the summary is "N/A" and not the empty string. *)
Lemma failed_gate_url_is_not_empty :
  match Runner.process_mawb Fixtures.decimal_float (Fixtures.happy_world "4249")
          "235-94731221" Fixtures.all_sections (Some Fixtures.format_record)
          (Some "4250") with
  | Ok (r, calls) =>
      In (Runner.EvalGate Runner.GateFailed) calls
      /\ PyDict.get (Runner.summary r) "7501 Batch PDF URL" <> Some ""
  | Raise _ => False
  end.
Proof. vm_compute. split; [in_list | discriminate]. Qed.

Lemma failed_gate_keeps_placeholder_url_witness :
  match Runner.process_mawb Fixtures.decimal_float (Fixtures.happy_world "4249")
          "235-94731221" Fixtures.all_sections (Some Fixtures.format_record)
          (Some "4250") with
  | Ok (r, calls) =>
      PyDict.get (Runner.summary r) "7501 Batch PDF URL" = Some "N/A"
      /\ ~ In Runner.CallPdfDownload calls
  | Raise _ => False
  end.
Proof.
  concrete_run E r calls.
  assert (In (Runner.EvalGate Runner.GateFailed) calls) as Hin.
  { pose proof E as E'. vm_compute in E'. inversion E'. in_list. }
  destruct (failed_gate_keeps_placeholder_url Fixtures.decimal_float
              (Fixtures.service_world (Fixtures.happy_world "4249"))
              "235-94731221" Fixtures.all_sections (Some "4250")
              Fixtures.format_record r calls eq_refl eq_refl eq_refl eq_refl
              ltac:(discriminate) eq_refl E Hin) as (_ & Hurl & Hno & _).
  split; assumption.
Defined.

(** C5 as stated fails: on "Master not found" the summary has an
    eighteenth key, "Master Status". *)
Lemma summary_has_an_additional_key :
  match Runner.process_mawb Fixtures.decimal_float Fixtures.not_found_world
          "235-94731221" Fixtures.all_sections (Some Fixtures.format_record)
          (Some "4250") with
  | Ok (r, _) =>
      In "Master Status" (PyDict.keys (Runner.summary r))
      /\ ~ In "Master Status" Runner.fixed_keys
      /\ List.length (PyDict.keys (Runner.summary r)) = 18
  | Raise _ => False
  end.
Proof.
  vm_compute. split; [in_list|]. split; [|reflexivity].
  intros H. repeat (destruct H as [H | H]; [discriminate|]). exact H.
Qed.

(** On the happy path the summary has the seventeen keys and three more. *)
Lemma summary_keys_fixed_then_optional_witness :
  match Runner.process_mawb Fixtures.decimal_float (Fixtures.happy_world "4250")
          "235-94731221" Fixtures.all_sections (Some Fixtures.format_record)
          (Some "4250") with
  | Ok (r, _) =>
      exists extras,
        PyDict.keys (Runner.summary r) = (Runner.fixed_keys ++ extras)%list
        /\ incl extras Runner.optional_keys
  | Raise _ => False
  end.
Proof.
  concrete_run E r calls.
  exact (summary_keys_fixed_then_optional _ _ _ _ _ _ r calls E).
Defined.

(** The happy path: the verification is evaluated and passes, the duty
    "$9,000.00" of the master page being read as 9000. With a report of 4249
    houses against 4250 it fails, and the PDF is not downloaded. *)
Lemma pre_pdf_gate_witness :
  match Runner.process_mawb Fixtures.decimal_float (Fixtures.happy_world "4250")
          "235-94731221" Fixtures.all_sections (Some Fixtures.format_record)
          (Some "4250") with
  | Ok (r, calls) =>
      In (Runner.EvalGate Runner.GatePassed) calls
      /\ Runner.gate_raises (Fixtures.happy_world "4250") = false
      /\ Runner.parse_value Fixtures.decimal_float (Some "$9,000.00")
         = 9000%float
      /\ In Runner.CallPdfDownload calls
  | Raise _ => False
  end
  /\ match Runner.process_mawb Fixtures.decimal_float (Fixtures.happy_world "4249")
            "235-94731221" Fixtures.all_sections (Some Fixtures.format_record)
            (Some "4250") with
     | Ok (r, calls) =>
         In (Runner.EvalGate Runner.GateFailed) calls
         /\ ~ In Runner.CallPdfDownload calls
     | Raise _ => False
     end.
Proof.
  split.
  - concrete_run E r calls.
    assert (In (Runner.EvalGate Runner.GatePassed) calls) as Hin.
    { pose proof E as E'. vm_compute in E'. inversion E'. in_list. }
    destruct (pre_pdf_gate Fixtures.decimal_float _ _ _ _ _ r calls
                Runner.GatePassed E Hin) as (_ & _ & Hiff & _ & _ & _ & Hnum).
    split; [exact Hin|]. split; [apply Hiff; reflexivity|].
    split; [apply Hnum; vm_compute; reflexivity|].
    pose proof E as E'. vm_compute in E'. inversion E'. in_list.
  - concrete_run E r calls.
    assert (In (Runner.EvalGate Runner.GateFailed) calls) as Hin.
    { pose proof E as E'. vm_compute in E'. inversion E'. in_list. }
    destruct (pre_pdf_gate Fixtures.decimal_float _ _ _ _ _ r calls
                Runner.GateFailed E Hin) as (_ & _ & _ & Hskip & _).
    split; [exact Hin | apply Hskip; reflexivity].
Defined.

(** C6 as stated fails: with both flags set the verification is evaluated,
    and passes, in a run whose AMS request failed and which requested no
    custom report; every value it compares is the placeholder, read as 0. *)
Lemma gate_passes_on_placeholders :
  match Runner.process_mawb Fixtures.decimal_float Fixtures.idle_world
          "235-94731221" Fixtures.all_sections (Some Fixtures.format_record)
          None with
  | Ok (r, calls) =>
      calls = [Runner.CallAms; Runner.CallEntries;
               Runner.EvalGate Runner.GatePassed; Runner.CallPdfDownload;
               Runner.CallPdfExtract; Runner.CallPdfUpload]
      /\ ~ In Runner.CallCustomReport calls
      /\ map (PyDict.get (Runner.summary r)) Runner.gate_keys
         = map (fun _ => Some "N/A") Runner.gate_keys
  | Raise _ => False
  end.
Proof.
  vm_compute. split; [reflexivity|]. split; [|reflexivity].
  intros H. repeat (destruct H as [H | H]; [discriminate|]). exact H.
Qed.

(** The house counts disagree, but the verification raises: the PDF is
    downloaded all the same. *)
Lemma gate_exception_fails_open_witness :
  match Runner.process_mawb Fixtures.decimal_float Fixtures.raising_world
          "235-94731221" Fixtures.all_sections (Some Fixtures.format_record)
          (Some "4250") with
  | Ok (r, calls) =>
      In Runner.CallPdfDownload calls
      /\ PyDict.get (Runner.summary r) "7501 Batch PDF URL"
         = Some "https://store/pdf"
  | Raise _ => False
  end.
Proof.
  concrete_run E r calls.
  assert (In (Runner.EvalGate Runner.GateRaised) calls) as Hin.
  { pose proof E as E'. vm_compute in E'. inversion E'. in_list. }
  destruct (gate_exception_fails_open Fixtures.decimal_float _ _ _ _ _ r calls
              E Hin) as (_ & _ & Hd & _).
  split; [exact Hd|].
  pose proof E as E'. vm_compute in E'. inversion E'. reflexivity.
Defined.

(** ** Strings: splitting, joining and stripping *)
Section StringFacts.
Import PyStr.

Lemma is_empty_true s : is_empty s = true <-> s = EmptyString.
Proof. destruct s; simpl; split; congruence. Qed.

Lemma is_empty_app a b : is_empty (a ++ b) = is_empty a && is_empty b.
Proof. destruct a; reflexivity. Qed.

Lemma contains_chr_app c a b :
  contains_chr c (a ++ b) = contains_chr c a || contains_chr c b.
Proof.
  induction a as [|d a IH]; simpl; auto. rewrite IH. now rewrite orb_assoc.
Qed.

(** *** Splitting *)

Lemma split_chr_not_nil sep s : split_chr sep s <> [].
Proof.
  destruct s as [|c s]; simpl; [discriminate|].
  destruct (Ascii.eqb c sep); [discriminate|].
  destruct (split_chr sep s); discriminate.
Qed.

Lemma split_chr_free sep s :
  contains_chr sep s = false -> split_chr sep s = [s].
Proof.
  induction s as [|c s IH]; simpl; auto.
  intros H. apply orb_false_iff in H as [Hc Hs].
  rewrite Hc, (IH Hs). reflexivity.
Qed.

Lemma split_chr_app sep a b :
  contains_chr sep a = false ->
  split_chr sep (a ++ String sep b) = a :: split_chr sep b.
Proof.
  induction a as [|c a IH]; simpl.
  - intros _. now rewrite Ascii.eqb_refl.
  - intros H. apply orb_false_iff in H as [Hc Ha].
    rewrite Hc, (IH Ha). reflexivity.
Qed.

(** Splitting a join gives the pieces back when none holds the separator. *)
Lemma split_chr_join sep l :
  l <> [] ->
  Forall (fun x => contains_chr sep x = false) l ->
  split_chr sep (join (String sep EmptyString) l) = l.
Proof.
  induction l as [|x l IH]; [congruence|]. intros _ Hall.
  inversion Hall as [|? ? Hx Hl]; subst.
  destruct l as [|y l].
  - simpl. now apply split_chr_free.
  - change (join (String sep EmptyString) (x :: y :: l))
      with (x ++ String sep (join (String sep EmptyString) (y :: l))).
    rewrite split_chr_app by assumption.
    rewrite IH; auto. discriminate.
Qed.

(** The pieces of a split hold no separator, and only characters of the
    text. *)
Lemma split_chr_pieces_free sep s :
  Forall (fun x => contains_chr sep x = false) (split_chr sep s).
Proof.
  induction s as [|c s IH]; simpl; [repeat constructor|].
  destruct (Ascii.eqb c sep) eqn:E; [constructor; auto|].
  destruct (split_chr sep s) as [|h t]; simpl.
  - repeat constructor. simpl. now rewrite E.
  - inversion IH; subst. constructor; auto. simpl. now rewrite E.
Qed.

Lemma split_chr_pieces_sub sep c s :
  contains_chr c s = false ->
  Forall (fun x => contains_chr c x = false) (split_chr sep s).
Proof.
  induction s as [|d s IH]; simpl; [repeat constructor|].
  intros H. apply orb_false_iff in H as [Hd Hs]. specialize (IH Hs).
  destruct (Ascii.eqb d sep); [constructor; auto|].
  destruct (split_chr sep s) as [|h t]; simpl.
  - repeat constructor. simpl. now rewrite Hd.
  - inversion IH; subst. constructor; auto. simpl. now rewrite Hd.
Qed.

(** *** Stripping *)

Lemma lstrip_sub c s : contains_chr c s = false -> contains_chr c (lstrip s) = false.
Proof.
  induction s as [|d s IH]; simpl; auto.
  intros H. destruct (isspace d); [|exact H].
  apply orb_false_iff in H as [_ Hs]. auto.
Qed.

Lemma rstrip_sub c s : contains_chr c s = false -> contains_chr c (rstrip s) = false.
Proof.
  induction s as [|d s IH]; simpl; auto.
  intros H. apply orb_false_iff in H as [Hd Hs].
  destruct (isspace d && is_empty (rstrip s)); simpl; auto.
  now rewrite Hd, (IH Hs).
Qed.

Lemma strip_sub c s : contains_chr c s = false -> contains_chr c (strip s) = false.
Proof. intros H. unfold strip. now apply rstrip_sub, lstrip_sub. Qed.

Lemma lstrip_starts_well s : starts_well (lstrip s) = true.
Proof.
  induction s as [|c s IH]; simpl; auto.
  destruct (isspace c) eqn:E; auto. simpl. now rewrite E.
Qed.

Lemma lstrip_fixed s : starts_well s = true -> lstrip s = s.
Proof.
  destruct s as [|c s]; simpl; auto. now destruct (isspace c).
Qed.

Lemma rstrip_starts_well s : starts_well s = true -> starts_well (rstrip s) = true.
Proof.
  destruct s as [|c s]; simpl; auto.
  intros H. destruct (isspace c) eqn:E; [discriminate|]. simpl. now rewrite E.
Qed.

Lemma rstrip_idempotent s : rstrip (rstrip s) = rstrip s.
Proof.
  induction s as [|c s IH]; simpl; auto.
  destruct (isspace c && is_empty (rstrip s)) eqn:E; simpl; auto.
  now rewrite IH, E.
Qed.

Lemma strip_idempotent s : strip (strip s) = strip s.
Proof.
  unfold strip.
  rewrite (lstrip_fixed (rstrip (lstrip s)))
    by apply rstrip_starts_well, lstrip_starts_well.
  apply rstrip_idempotent.
Qed.

(** What a stripped, non-empty string is at its two ends. *)
Lemma strip_fixed_ends s :
  strip s = s -> starts_well s = true /\ rstrip s = s.
Proof.
  intros H. assert (starts_well s = true) as Hs.
  { rewrite <- H. unfold strip. apply rstrip_starts_well, lstrip_starts_well. }
  split; auto. unfold strip in H. now rewrite (lstrip_fixed s Hs) in H.
Qed.

Lemma lstrip_app a b :
  starts_well a = true -> is_empty a = false -> lstrip (a ++ b) = (a ++ b)%string.
Proof.
  destruct a as [|c a]; simpl; [discriminate|]. now destruct (isspace c).
Qed.

Lemma rstrip_app a b :
  is_empty (rstrip b) = false -> rstrip (a ++ b) = (a ++ rstrip b)%string.
Proof.
  intros Hb. induction a as [|c a IH]; simpl; auto.
  rewrite IH, is_empty_app, Hb, andb_false_r, andb_false_r. reflexivity.
Qed.

End StringFacts.

(** ** The vertical-paste recovery of [utils/mawb_parser.py] *)
Section RecoveryFacts.
Import PyStr MawbParser.

Lemma all_lines_clean text :
  contains_chr tab text = false -> Forall clean (all_lines_of (strip text)).
Proof.
  intros Htab. unfold all_lines_of.
  pose proof (split_chr_pieces_free newline (strip text)) as Hnl.
  pose proof (split_chr_pieces_sub newline tab (strip text) (strip_sub _ _ Htab))
    as Htb.
  induction (split_chr newline (strip text)) as [|p l IH]; simpl; [constructor|].
  inversion Hnl; subst. inversion Htb; subst.
  destruct (truthy (strip p)) eqn:E; simpl; auto.
  constructor; auto. unfold clean. unfold truthy in E.
  repeat split.
  - apply strip_idempotent.
  - now destruct (is_empty (strip p)).
  - now apply strip_sub.
  - now apply strip_sub.
Qed.

Lemma slice_sub lines a b x : In x (slice lines a b) -> In x lines.
Proof.
  unfold slice. intros Hx.
  rewrite <- (firstn_skipn a lines). apply in_or_app. right.
  rewrite <- (firstn_skipn (b - a) (skipn a lines)). apply in_or_app. now left.
Qed.

Lemma clean_slice lines a b : Forall clean lines -> Forall clean (slice lines a b).
Proof.
  intros H. rewrite Forall_forall in *. intros x Hx.
  apply H. eapply slice_sub; eauto.
Qed.

Lemma join_cons sep x y l :
  join sep (x :: y :: l) = (x ++ sep ++ join sep (y :: l))%string.
Proof. reflexivity. Qed.

Lemma join_free c sep l :
  contains_chr c sep = false ->
  Forall (fun x => contains_chr c x = false) l ->
  contains_chr c (join sep l) = false.
Proof.
  intros Hsep. induction l as [|x l IH]; intros Hall; [reflexivity|].
  inversion Hall; subst. destruct l as [|y l]; [assumption|].
  rewrite join_cons, !contains_chr_app, IH by assumption.
  now rewrite H1, Hsep.
Qed.

Lemma join_starts sep x l :
  is_empty x = false -> starts_well x = true ->
  is_empty (join sep (x :: l)) = false
  /\ starts_well (join sep (x :: l)) = true.
Proof.
  intros He Hs. destruct l as [|y l]; [auto|]. rewrite join_cons.
  destruct x as [|c x]; [discriminate|]. auto.
Qed.

Lemma rstrip_join sep l :
  l <> [] ->
  Forall (fun x => rstrip x = x /\ is_empty x = false) l ->
  rstrip (join sep l) = join sep l.
Proof.
  induction l as [|x l IH]; [congruence|]. intros _ Hall.
  inversion Hall as [|? ? [Hx He] Hl]; subst.
  destruct l as [|y l]; [assumption|].
  assert (rstrip (join sep (y :: l)) = join sep (y :: l)) as Hr
    by (apply IH; [discriminate | assumption]).
  assert (is_empty (join sep (y :: l)) = false) as Hn.
  { inversion Hl as [|? ? [_ Hy] _]; subst. destruct l; [assumption|].
    rewrite join_cons. destruct y; [discriminate | reflexivity]. }
  assert (rstrip (sep ++ join sep (y :: l)) = (sep ++ join sep (y :: l))%string)
    as Hs by (rewrite rstrip_app; rewrite Hr; auto).
  rewrite join_cons, rstrip_app; rewrite Hs; auto.
  now rewrite is_empty_app, Hn, andb_false_r.
Qed.

(** A row built from clean fields is stripped, and splits back into them. *)
Lemma row_of_clean_fields fields :
  Forall clean fields -> 2 <= List.length fields ->
  let row := join tab_s fields in
  strip row = row /\ is_empty row = false
  /\ contains_chr tab row = true
  /\ contains_chr newline row = false
  /\ map strip (split_chr tab row) = fields.
Proof.
  intros Hall Hlen row.
  destruct fields as [|x [|y l]]; simpl in Hlen; try lia.
  inversion Hall as [|? ? (Hsx & Hex & Htx & Hnx) Hrest]; subst.
  destruct (strip_fixed_ends x Hsx) as [Hwx Hrx].
  destruct (join_starts tab_s x (y :: l) Hex Hwx) as [Hne Hw].
  repeat split.
  - unfold strip. fold row in Hw. rewrite (lstrip_fixed row Hw).
    apply rstrip_join; [discriminate|].
    eapply Forall_impl; [|exact Hall]. intros z (Hz & Hez & _).
    split; auto. now apply strip_fixed_ends.
  - exact Hne.
  - unfold row. rewrite join_cons, !contains_chr_app. simpl.
    apply orb_true_r.
  - apply join_free; [reflexivity|].
    eapply Forall_impl; [|exact Hall]. now intros z (_ & _ & _ & Hz).
  - unfold row, tab_s. rewrite split_chr_join; [|discriminate|].
    + clear -Hall. induction Hall as [|z l' (Hz & _) _ IH]; simpl; auto.
      now rewrite Hz, IH.
    + eapply Forall_impl; [|exact Hall]. now intros z (_ & _ & Hz & _).
Qed.

(** The line loop on a reconstructed row of five fields whose last holds
    eleven digits: one item, with the port, the customer and the house count
    of the row. *)
Lemma parse_five_field_row a b c d e rest results :
  Forall clean [a; b; c; d; e] -> has11 e = true ->
  parse_lines (join tab_s [a; b; c; d; e] :: rest) results
  = parse_lines rest
      (results ++ [mkItem (digits_of e) (Some a) (Some b) (Some d)]).
Proof.
  intros Hall H11.
  destruct (row_of_clean_fields [a; b; c; d; e] Hall ltac:(simpl; lia))
    as (Hstrip & Hne & Htab & _ & Hsplit).
  cbv zeta in *.
  cbn [parse_lines]. rewrite Hstrip, Hne.
  unfold line_vars. rewrite Htab, Hsplit.
  unfold columns. cbn [List.length Nat.leb nth]. rewrite H11.
  unfold normalize_mawb. unfold has11 in H11. rewrite H11.
  inversion Hall as [|? ? (_ & Ha & _) H1]; subst.
  inversion H1 as [|? ? (_ & Hb & _) H2]; subst.
  inversion H2 as [|? ? _ H3]; subst.
  inversion H3 as [|? ? (_ & Hd & _) _]; subst.
  unfold or_none. rewrite Ha, Hb, Hd. simpl.
  unfold or_none. now rewrite Ha, Hb.
Qed.

End RecoveryFacts.

Section GroupingFacts.
Import PyStr MawbParser.

Lemma find_seq_first (p : nat -> bool) : forall n i j,
  find p (seq i n) = Some j ->
  i <= j < i + n /\ p j = true /\ forall j', i <= j' < j -> p j' = false.
Proof.
  induction n as [|n IH]; intros i j; simpl; [discriminate|].
  destruct (p i) eqn:E.
  - intros H. inversion H; subst. repeat split; auto; lia.
  - intros H. destruct (IH _ _ H) as (Hr & Hp & Hfirst).
    repeat split; auto; try lia.
    intros j' Hj'. destruct (Nat.eq_dec j' i) as [->|Hne]; auto.
    apply Hfirst. lia.
Qed.

Lemma find_seq_none (p : nat -> bool) n i :
  find p (seq i n) = None -> forall j, i <= j < i + n -> p j = false.
Proof.
  intros H j Hj. apply (find_none _ _ H). apply in_seq. lia.
Qed.

Lemma closes_test lines i j :
  i <= j -> j < Nat.min (i + 10) (List.length lines) ->
  (has11 (nth j lines EmptyString) && ((4 <=? j - i) || (2 <=? j - i)) = true
   <-> closes lines i j).
Proof.
  intros Hij Hj. unfold closes.
  rewrite andb_true_iff, orb_true_iff, !Nat.leb_le. split.
  - intros [H11 Hd]. repeat split; auto; lia.
  - intros (_ & _ & _ & H11 & Hd). split; auto.
Qed.

Lemma scan_some lines i j :
  scan lines i = Some j ->
  closes lines i j /\ forall j', j' < j -> ~ closes lines i j'.
Proof.
  unfold scan. intros H.
  destruct (find_seq_first _ _ _ _ H) as (Hr & Hp & Hfirst).
  split.
  - apply closes_test; auto; lia.
  - intros j' Hlt Hc. assert (i <= j') as Hij by (destruct Hc; auto).
    apply closes_test in Hc; auto; [|lia].
    rewrite Hfirst in Hc by lia. discriminate.
Qed.

Lemma scan_none lines i : scan lines i = None -> forall j, ~ closes lines i j.
Proof.
  unfold scan. intros H j Hc.
  assert (i <= j /\ j < Nat.min (i + 10) (List.length lines)) as [Hij Hj]
    by (destruct Hc as (? & ? & ? & _); lia).
  apply closes_test in Hc; auto.
  rewrite (find_seq_none _ _ _ H j) in Hc by lia. discriminate.
Qed.

Lemma five_test lines i :
  (i + 4 <? List.length lines) && has11 (nth (i + 4) lines EmptyString) = true
  <-> five_at lines i.
Proof. unfold five_at. now rewrite andb_true_iff, Nat.ltb_lt. Qed.

Lemma three_test lines i :
  (i + 2 <? List.length lines) && has11 (nth (i + 2) lines EmptyString) = true
  <-> three_at lines i.
Proof. unfold three_at. now rewrite andb_true_iff, Nat.ltb_lt. Qed.

(** The loop of the code performs the grouping of the relation; the number
    of lines left to read is fuel enough. *)
Lemma group_loop_grouping lines : forall fuel i,
  List.length lines - i <= fuel ->
  Grouping lines i (group_loop fuel lines i).
Proof.
  induction fuel as [|fuel IH]; intros i Hfuel; simpl.
  - apply Grouping_end. lia.
  - destruct (i <? List.length lines) eqn:Ei; [|apply Grouping_end;
      apply Nat.ltb_ge in Ei; exact Ei].
    apply Nat.ltb_lt in Ei.
    destruct ((i + 4 <? List.length lines)
              && has11 (nth (i + 4) lines EmptyString)) eqn:E5.
    { apply Grouping_five; [now apply five_test | apply IH; lia]. }
    assert (~ five_at lines i) as N5
      by (intros H; apply five_test in H; congruence).
    destruct ((i + 2 <? List.length lines)
              && has11 (nth (i + 2) lines EmptyString)) eqn:E3.
    { apply Grouping_three; auto; [now apply three_test | apply IH; lia]. }
    assert (~ three_at lines i) as N3
      by (intros H; apply three_test in H; congruence).
    destruct (scan lines i) as [j|] eqn:Es.
    + destruct (scan_some _ _ _ Es) as [Hc Hfirst].
      apply Grouping_scan; auto. apply IH. destruct Hc; lia.
    + apply Grouping_skip; auto; [now apply scan_none | apply IH; lia].
Qed.

(** More fuel than the lines left changes nothing. *)
Lemma group_loop_fuel lines : forall fuel fuel' i,
  List.length lines - i <= fuel -> List.length lines - i <= fuel' ->
  group_loop fuel lines i = group_loop fuel' lines i.
Proof.
  induction fuel as [|fuel IH]; intros fuel' i H H'.
  - destruct fuel'; simpl; auto.
    destruct (i <? List.length lines) eqn:Ei; auto.
    apply Nat.ltb_lt in Ei. lia.
  - destruct fuel' as [|fuel']; simpl.
    + destruct (i <? List.length lines) eqn:Ei; auto.
      apply Nat.ltb_lt in Ei. lia.
    + destruct (i <? List.length lines) eqn:Ei; auto.
      apply Nat.ltb_lt in Ei.
      destruct (_ && _); [f_equal; apply IH; lia|].
      destruct (_ && _); [f_equal; apply IH; lia|].
      destruct (scan lines i) as [j|] eqn:Es; [|apply IH; lia].
      destruct (scan_some _ _ _ Es) as [Hc _].
      f_equal. apply IH; destruct Hc; lia.
Qed.

(** Every group is a run of consecutive lines. *)
Lemma group_loop_slices lines : forall fuel i,
  Forall (fun g => exists a b, g = slice lines a b) (group_loop fuel lines i).
Proof.
  induction fuel as [|fuel IH]; intros i; simpl; [constructor|].
  destruct (i <? List.length lines); [|constructor].
  destruct (_ && _); [constructor; eauto|].
  destruct (_ && _); [constructor; eauto|].
  destruct (scan lines i); [constructor; eauto | apply IH].
Qed.

Lemma rows_free_of_newline lines :
  Forall clean lines ->
  Forall (fun row => contains_chr newline row = false) (reconstructed_lines lines).
Proof.
  intros Hclean. unfold reconstructed_lines, groups.
  pose proof (group_loop_slices lines (List.length lines) 0) as Hs.
  induction Hs as [|g gs (a & b & ->) _ IH]; simpl; constructor; auto.
  apply join_free; [reflexivity|].
  eapply Forall_impl; [|apply clean_slice; exact Hclean].
  now intros z (_ & _ & _ & Hz).
Qed.

(** What the line loop reads after the recovery: the reconstructed rows, or
    the lines of the text when no group was formed. *)
Lemma parse_after_recovery text :
  contains_chr tab text = false ->
  2 <= List.length (all_lines_of (strip text)) ->
  parse_mawb_input text
  = parse_lines
      match groups (all_lines_of (strip text)) with
      | [] => split_chr newline (strip text)
      | gs => map (join tab_s) gs
      end [].
Proof.
  intros Htab Hlen. unfold parse_mawb_input.
  assert (is_empty (strip text) = false) as Hne.
  { destruct (strip text) eqn:E; auto. simpl in Hlen. lia. }
  assert (is_empty text = false) as Hne'.
  { destruct text; auto. }
  rewrite Hne, Hne'. cbn [orb]. f_equal.
  unfold preprocess. rewrite (strip_sub _ _ Htab). cbn [negb andb].
  destruct (1 <? List.length (all_lines_of (strip text))) eqn:E;
    [|apply Nat.ltb_ge in E; lia].
  pose proof (rows_free_of_newline _ (all_lines_clean text Htab)) as Hrows.
  unfold reconstructed_lines in *.
  destruct (groups (all_lines_of (strip text))) as [|g gs]; [reflexivity|].
  cbn [map] in *. unfold newline_s.
  apply split_chr_join; [discriminate | exact Hrows].
Qed.

End GroupingFacts.

Section FifteenLines.
Import PyStr MawbParser.

(** One iteration of the loop at a position where a row of five starts. *)
Lemma group_loop_five fuel lines i :
  five_at lines i ->
  group_loop (S fuel) lines i
  = slice lines i (i + 5) :: group_loop fuel lines (i + 5).
Proof.
  intros [Hlt H11]. cbn [group_loop].
  assert ((i <? List.length lines) = true) as -> by (apply Nat.ltb_lt; lia).
  assert ((i + 4 <? List.length lines) = true) as -> by (apply Nat.ltb_lt; lia).
  rewrite H11. reflexivity.
Qed.

Lemma group_loop_end fuel lines i :
  List.length lines <= i -> group_loop fuel lines i = [].
Proof.
  intros Hle. destruct fuel; cbn [group_loop]; auto.
  assert ((i <? List.length lines) = false) as -> by (apply Nat.ltb_ge; lia).
  reflexivity.
Qed.

(** Fifteen lines whose fifth, tenth and fifteenth hold eleven digits are
    grouped in three rows of five. *)
Lemma groups_of_fifteen l0 l1 l2 l3 l4 l5 l6 l7 l8 l9 l10 l11 l12 l13 l14 :
  has11 l4 = true -> has11 l9 = true -> has11 l14 = true ->
  groups [l0; l1; l2; l3; l4; l5; l6; l7; l8; l9; l10; l11; l12; l13; l14]
  = [ [l0; l1; l2; l3; l4]; [l5; l6; l7; l8; l9]; [l10; l11; l12; l13; l14] ].
Proof.
  intros H4 H9 H14.
  set (lines := [l0; l1; l2; l3; l4; l5; l6; l7; l8; l9; l10; l11; l12; l13; l14]).
  assert (List.length lines = 15) as Hlen by reflexivity.
  unfold groups. rewrite Hlen.
  rewrite (group_loop_five 14 lines 0) by (split; [rewrite Hlen; lia | exact H4]).
  rewrite (group_loop_five 13 lines (0 + 5))
    by (split; [rewrite Hlen; simpl; lia | exact H9]).
  rewrite (group_loop_five 12 lines (0 + 5 + 5))
    by (split; [rewrite Hlen; simpl; lia | exact H14]).
  rewrite group_loop_end by (rewrite Hlen; simpl; lia).
  reflexivity.
Qed.

(** C8, as the code has it. On a blob with no tab and two non-empty lines or
    more, the parser walks the stripped non-empty lines and groups them: at
    position i it emits lines i..i+4 when line i+4 holds eleven digits, else
    lines i..i+2 when line i+2 does, else lines i..j for the first line j
    among i..i+9 that holds eleven digits and lies two lines or more after i,
    and it skips line i when there is none. The groups, joined with tabs, are
    what the line loop parses (the lines of the blob when no group was
    formed); so fifteen lines in three groups of five give exactly three
    items. *)
Theorem vertical_paste_recovery text :
  contains_chr tab text = false ->
  2 <= List.length (all_lines_of (strip text)) ->
  let lines := all_lines_of (strip text) in
  Grouping lines 0 (groups lines)
  /\ parse_mawb_input text
     = parse_lines
         match groups lines with
         | [] => split_chr newline (strip text)
         | gs => map (join tab_s) gs
         end []
  /\ forall l0 l1 l2 l3 l4 l5 l6 l7 l8 l9 l10 l11 l12 l13 l14,
       lines = [l0; l1; l2; l3; l4; l5; l6; l7; l8; l9; l10; l11; l12; l13; l14] ->
       has11 l4 = true -> has11 l9 = true -> has11 l14 = true ->
       parse_mawb_input text
       = [ mkItem (digits_of l4) (Some l0) (Some l1) (Some l3);
           mkItem (digits_of l9) (Some l5) (Some l6) (Some l8);
           mkItem (digits_of l14) (Some l10) (Some l11) (Some l13) ].
Proof.
  intros Htab Hlen lines.
  pose proof (parse_after_recovery text Htab Hlen) as Hparse.
  pose proof (all_lines_clean text Htab) as Hclean.
  fold lines in Hparse, Hclean.
  split; [apply group_loop_grouping; lia|]. split; [exact Hparse|].
  intros l0 l1 l2 l3 l4 l5 l6 l7 l8 l9 l10 l11 l12 l13 l14 Hl H4 H9 H14.
  rewrite Hparse, Hl, (groups_of_fifteen _ _ _ _ _ _ _ _ _ _ _ _ _ _ _ H4 H9 H14).
  rewrite Hl in Hclean.
  assert (forall a b, Forall clean
            (slice [l0; l1; l2; l3; l4; l5; l6; l7; l8; l9; l10; l11; l12; l13; l14]
                   a b)) as Hs by (intros; now apply clean_slice).
  cbn [map].
  rewrite parse_five_field_row by (exact (Hs 0 5) || assumption).
  rewrite parse_five_field_row by (exact (Hs 5 10) || assumption).
  rewrite parse_five_field_row by (exact (Hs 10 15) || assumption).
  reflexivity.
Qed.

End FifteenLines.

(** The vertical paste of the specification: three items, with their port,
    customer and house count. *)
Lemma vertical_paste_recovery_witness :
  MawbParser.parse_mawb_input Fixtures.paste_15
  = [ mkItem "99938649026" (Some "JFK") (Some "YDH") (Some "1325");
      mkItem "99938649030" (Some "JFK") (Some "BFE") (Some "10");
      mkItem "23594731221" (Some "ORD") (Some "MZZ") (Some "4250") ].
Proof.
  destruct (vertical_paste_recovery Fixtures.paste_15 eq_refl
              ltac:(vm_compute; lia)) as (_ & _ & H15).
  exact (H15 "JFK" "YDH" "M3" "1325" "999-38649026"
             "JFK" "BFE" "M3" "10" "999-38649030"
             "ORD" "MZZ" "BKR" "4250" "235-94731221"
             eq_refl eq_refl eq_refl eq_refl).
Defined.

(** C8 as stated fails: the look-ahead does not take the next line that
    holds eleven digits, it passes over one that lies less than two lines
    after i. On two ports each followed by its master number the code forms
    one group of four lines, which gives no item, where the grouping of the
    specification's wording forms two groups and gives two items. *)
Lemma vertical_paste_differs_from_wording :
  PyStr.contains_chr PyStr.tab Fixtures.two_pairs = false
  /\ List.length (MawbParser.all_lines_of (PyStr.strip Fixtures.two_pairs)) = 4
  /\ MawbParser.groups (MawbParser.all_lines_of (PyStr.strip Fixtures.two_pairs))
     = [["A"; "12345678901"; "B"; "22222222222"]]
  /\ MawbParser.groups_spec (MawbParser.all_lines_of (PyStr.strip Fixtures.two_pairs))
     = [["A"; "12345678901"]; ["B"; "22222222222"]]
  /\ MawbParser.parse_mawb_input Fixtures.two_pairs = []
  /\ MawbParser.parse_vertical_spec Fixtures.two_pairs
     = [ mkItem "12345678901" (Some "A") None None;
         mkItem "22222222222" (Some "B") None None ].
Proof. repeat split; vm_compute; reflexivity. Qed.

(** * Further properties *)

(** ** Strings *)
Section MoreStringFacts.
Import PyStr.

Lemma all_chr_app p a b : all_chr p (a ++ b) = all_chr p a && all_chr p b.
Proof. induction a as [|c a IH]; simpl; auto. now rewrite IH, andb_assoc. Qed.

Lemma digits_of_all_digits s : all_chr isdigit (digits_of s) = true.
Proof.
  induction s as [|c s IH]; simpl; auto.
  destruct (isdigit c) eqn:E; simpl; auto. now rewrite E.
Qed.

Lemma digits_of_fixed s : all_chr isdigit s = true -> digits_of s = s.
Proof.
  induction s as [|c s IH]; simpl; auto.
  intros H. apply andb_prop in H as [Hc Hs]. now rewrite Hc, IH.
Qed.

Lemma digits_of_app a b : digits_of (a ++ b) = digits_of a ++ digits_of b.
Proof.
  induction a as [|c a IH]; simpl; auto.
  destruct (isdigit c); simpl; now rewrite IH.
Qed.

Lemma all_chr_remove p c s :
  p c = false -> all_chr p s = true -> remove_chr c s = s.
Proof.
  intros Hc. induction s as [|d s IH]; simpl; auto.
  intros H. apply andb_prop in H as [Hd Hs].
  destruct (Ascii.eqb d c) eqn:E.
  - apply Ascii.eqb_eq in E. subst. congruence.
  - now rewrite IH.
Qed.

Lemma all_chr_replace p c d s :
  p c = false -> all_chr p s = true -> replace_chr c d s = s.
Proof.
  intros Hc. induction s as [|x s IH]; simpl; auto.
  intros H. apply andb_prop in H as [Hx Hs].
  destruct (Ascii.eqb x c) eqn:E.
  - apply Ascii.eqb_eq in E. subst. congruence.
  - now rewrite IH.
Qed.

Lemma remove_chr_gone c s : contains_chr c (remove_chr c s) = false.
Proof.
  induction s as [|d s IH]; simpl; auto.
  destruct (Ascii.eqb d c) eqn:E; simpl; auto. now rewrite E.
Qed.

Lemma remove_chr_sub x c s :
  contains_chr x s = false -> contains_chr x (remove_chr c s) = false.
Proof.
  induction s as [|d s IH]; simpl; auto.
  intros H. apply orb_false_elim in H as [Hd Hs].
  destruct (Ascii.eqb d c); simpl; auto. now rewrite Hd, IH.
Qed.

Lemma replace_chr_gone c d s :
  Ascii.eqb d c = false -> contains_chr c (replace_chr c d s) = false.
Proof.
  intros Hd. induction s as [|x s IH]; simpl; auto.
  destruct (Ascii.eqb x c) eqn:E; rewrite ?Hd, ?E; simpl; auto.
Qed.

Lemma replace_chr_sub x c d s :
  Ascii.eqb d x = false -> contains_chr x s = false ->
  contains_chr x (replace_chr c d s) = false.
Proof.
  intros Hd. induction s as [|y s IH]; simpl; auto.
  intros H. apply orb_false_elim in H as [Hy Hs].
  destruct (Ascii.eqb y c); rewrite ?Hd, ?Hy; simpl; auto.
Qed.

Lemma substring_sub c n m s :
  contains_chr c s = false -> contains_chr c (substring n m s) = false.
Proof.
  revert n m. induction s as [|d s IH]; intros n m H.
  - destruct n, m; reflexivity.
  - simpl in H. apply orb_false_elim in H as [Hd Hs].
    destruct n; destruct m; simpl; auto. now rewrite Hd, IH.
Qed.

Lemma substring_all p n m s :
  all_chr p s = true -> all_chr p (substring n m s) = true.
Proof.
  revert n m. induction s as [|d s IH]; intros n m H.
  - destruct n, m; reflexivity.
  - simpl in H. apply andb_prop in H as [Hd Hs].
    destruct n; destruct m; simpl; auto. now rewrite Hd, IH.
Qed.

(** [s[:n] + s[n:]] is [s]. *)
Lemma slice_to_from n s : slice_to n s ++ slice_from n s = s.
Proof.
  unfold slice_to, slice_from. revert n.
  induction s as [|c s IH]; intros n.
  - destruct n; reflexivity.
  - destruct n; simpl.
    + clear IH. f_equal. induction s as [|d s IH]; simpl; auto. now f_equal.
    + now rewrite IH.
Qed.

End MoreStringFacts.

(** ** The object store: file names and keys *)
Section StorageFacts.
Import PyStr Storage.

Lemma mawb_clean_free c mawb :
  c = slash \/ c = backslash -> contains_chr c (mawb_clean mawb) = false.
Proof.
  intros Hc. unfold mawb_clean.
  do 2 apply remove_chr_sub.
  destruct Hc as [-> | ->].
  - apply replace_chr_sub; [reflexivity|]. now apply replace_chr_gone.
  - now apply replace_chr_gone.
Qed.

Lemma formatted_mawb_free c mawb :
  c = slash \/ c = backslash -> contains_chr c (formatted_mawb mawb) = false.
Proof.
  intros Hc. unfold formatted_mawb, slice_to, slice_from.
  pose proof (mawb_clean_free c mawb Hc) as H.
  destruct (String.length (mawb_clean mawb) =? 11); [|assumption].
  rewrite !contains_chr_app, !substring_sub by assumption.
  destruct Hc as [-> | ->]; reflexivity.
Qed.

Lemma safe_free c value :
  c = slash \/ c = backslash -> contains_chr c (safe value) = false.
Proof.
  intros [-> | ->]; unfold safe.
  - apply replace_chr_sub; [reflexivity|]. now apply replace_chr_gone.
  - now apply replace_chr_gone.
Qed.

Lemma safe_part_free c value :
  c = slash \/ c = backslash ->
  Forall (fun x => contains_chr c x = false) (safe_part value).
Proof.
  intros Hc. destruct value as [v|]; simpl; [|constructor].
  destruct (truthy v && truthy (safe v)); constructor; [|constructor].
  now apply safe_free.
Qed.

(** X20. The name under which a workbook or a PDF is stored holds no path
    separator, whatever the master number, the port and the customer are:
    the object lies directly in its folder. *)
Theorem stored_name_holds_no_separator mawb airport_code customer :
  contains_chr slash (file_stem mawb airport_code customer) = false
  /\ contains_chr backslash (file_stem mawb airport_code customer) = false.
Proof.
  assert (H : forall c, c = slash \/ c = backslash ->
                        contains_chr c (file_stem mawb airport_code customer) = false).
  { intros c Hc. unfold file_stem. apply join_free.
    - destruct Hc as [-> | ->]; reflexivity.
    - apply Forall_app. split.
      + constructor; [now apply formatted_mawb_free | constructor].
      + apply Forall_app. split; now apply safe_part_free. }
  split; apply H; auto.
Qed.

(** What the normalisers return: eleven characters, all digits. *)
Lemma normalized_digits m d :
  Runner._normalize_mawb m = Ok d ->
  d = digits_of m /\ String.length d = 11 /\ all_chr isdigit d = true.
Proof.
  unfold Runner._normalize_mawb.
  destruct (String.length (digits_of m) =? 11) eqn:E; [|discriminate].
  intros H. injection H as <-. apply Nat.eqb_eq in E.
  repeat split; auto. apply digits_of_all_digits.
Qed.

Lemma normalize_digits d :
  String.length d = 11 -> all_chr isdigit d = true ->
  Runner._normalize_mawb d = Ok d.
Proof.
  intros Hlen Hall. unfold Runner._normalize_mawb.
  now rewrite (digits_of_fixed d Hall), Hlen.
Qed.

Lemma mawb_clean_digits d : all_chr isdigit d = true -> mawb_clean d = d.
Proof.
  intros Hall. unfold mawb_clean.
  rewrite (all_chr_replace isdigit slash dash d) by auto.
  rewrite (all_chr_replace isdigit backslash dash d) by auto.
  rewrite (all_chr_remove isdigit space d) by auto.
  now rewrite (all_chr_remove isdigit dash d) by auto.
Qed.

Lemma dashed_digits d :
  all_chr isdigit d = true ->
  digits_of (slice_to 3 d ++ "-" ++ slice_from 3 d) = d.
Proof.
  intros Hall. rewrite !digits_of_app.
  rewrite (digits_of_fixed (slice_to 3 d)) by now apply substring_all.
  rewrite (digits_of_fixed (slice_from 3 d)) by now apply substring_all.
  apply slice_to_from.
Qed.

(** X21. The stored name of a normalised master number is [xxx-xxxxxxxx], the
    export prints the same text, and normalising it gives the number back. *)
Theorem formatted_mawb_round_trip m d :
  Runner._normalize_mawb m = Ok d ->
  formatted_mawb d = slice_to 3 d ++ "-" ++ slice_from 3 d
  /\ Reports.format_mawb (Some d) = formatted_mawb d
  /\ Runner._normalize_mawb (formatted_mawb d) = Ok d.
Proof.
  intros H. apply normalized_digits in H as (_ & Hlen & Hall).
  assert (Hf : formatted_mawb d = slice_to 3 d ++ "-" ++ slice_from 3 d).
  { unfold formatted_mawb. now rewrite (mawb_clean_digits d Hall), Hlen. }
  repeat split; auto.
  - rewrite Hf. unfold Reports.format_mawb.
    destruct d as [|c d]; [discriminate|]. cbn [is_empty].
    now rewrite (digits_of_fixed _ Hall), Hlen.
  - rewrite Hf. unfold Runner._normalize_mawb.
    now rewrite (dashed_digits d Hall), Hlen.
Qed.

Lemma formatted_mawb_round_trip_witness :
  Runner._normalize_mawb "235-94731221" = Ok "23594731221"
  /\ formatted_mawb "23594731221" = "235-94731221".
Proof.
  split; [reflexivity|].
  destruct (formatted_mawb_round_trip "235-94731221" "23594731221" eq_refl)
    as (H & _).
  rewrite H. reflexivity.
Defined.

End StorageFacts.

(** ** The reports of the service: fallback paths and batch counts *)
Section ReportFacts.
Import PyStr PyDict Runner Storage Reports.

Lemma append_cancel_l a b c : (a ++ b = a ++ c)%string -> b = c.
Proof. induction a as [|x a IH]; simpl; auto. intros H. injection H. auto. Qed.

Lemma length_app_string a b :
  String.length (a ++ b) = String.length a + String.length b.
Proof. induction a as [|x a IH]; simpl; auto. Qed.

Lemma not_given_no_part value :
  match value with Some s => truthy s | None => false end = false ->
  safe_part value = [].
Proof. destruct value as [v|]; simpl; auto. now intros ->. Qed.

(** X23. When the URL of a PDF cannot be fetched, the first storage path the
    archive tries is the key under which [upload_pdf] stored the file. *)
Theorem fallback_starts_with_upload_key prefix b file_path mawb airport_code
  customer key url :
  upload_pdf prefix b file_path mawb airport_code customer = Ok (key, url) ->
  hd_error (fallback_paths prefix mawb airport_code customer) = Some key.
Proof.
  unfold upload_pdf. destruct (file_exists b); [|discriminate]. simpl.
  destruct (upload_file b); [|discriminate].
  intros H. injection H as <- _.
  unfold fallback_paths, pdf_key, file_stem.
  destruct (match airport_code with Some s => truthy s | None => false end) eqn:Ea;
    [reflexivity|].
  destruct (match customer with Some s => truthy s | None => false end) eqn:Ec;
    [reflexivity|].
  now rewrite (not_given_no_part _ Ea), (not_given_no_part _ Ec).
Qed.

Lemma fallback_starts_with_upload_key_witness :
  hd_error (fallback_paths "netchb-duty" "23594731221" (Some " ORD/1 ") (Some "MZZ"))
  = Some "netchb-duty/7501-batch-pdfs/235-94731221 ORD-1 MZZ.pdf".
Proof.
  apply (fallback_starts_with_upload_key "netchb-duty"
           (mkBucket true (Ok tt) (Ok "https://store/pdf")) "/tmp/x.pdf"
           "23594731221" (Some " ORD/1 ") (Some "MZZ") _ "https://store/pdf").
  reflexivity.
Defined.

Lemma join_longer x y l :
  String.length x < String.length (join " " (x :: y :: l)).
Proof. rewrite join_cons, !length_app_string. simpl. lia. Qed.

(** X24. The PDF path the service reports is rebuilt from the master number
    alone: it is the key of the upload exactly when neither the port nor
    the customer added a part to the file name. *)
Theorem reported_pdf_path_is_key_iff prefix duty_result airport_code customer path :
  pdf_storage_path prefix duty_result = Some path ->
  (path = pdf_key prefix (result_mawb duty_result) airport_code customer
   <-> safe_part airport_code = [] /\ safe_part customer = []).
Proof.
  unfold pdf_storage_path.
  destruct (get (summary duty_result) "7501 Batch PDF URL") as [u|]; [|discriminate].
  destruct (truthy u && negb (u =? "N/A")%string && truthy (strip u)); [|discriminate].
  intros H. injection H as <-. unfold pdf_key, file_stem. split.
  - intros H. apply append_cancel_l in H.
    apply (append_cancel_l "/7501-batch-pdfs/") in H.
    apply (f_equal String.length) in H. rewrite !length_app_string in H.
    destruct (safe_part airport_code) as [|a la] eqn:Ea.
    + destruct (safe_part customer) as [|c lc] eqn:Ec; auto.
      exfalso. simpl app in H.
      pose proof (join_longer (formatted_mawb (result_mawb duty_result)) c lc).
      simpl in *. lia.
    + exfalso. simpl app in H.
      pose proof (join_longer (formatted_mawb (result_mawb duty_result)) a
                    (la ++ safe_part customer)).
      simpl in *. lia.
  - now intros [-> ->].
Qed.

Lemma reported_pdf_path_is_key_iff_witness :
  let r := mkDutyRunResult "23594731221"
             [("7501 Batch PDF URL", "https://store/pdf")] None None None in
  pdf_storage_path "netchb-duty" r = Some "netchb-duty/7501-batch-pdfs/235-94731221.pdf"
  /\ "netchb-duty/7501-batch-pdfs/235-94731221.pdf"
     <> pdf_key "netchb-duty" "23594731221" (Some "ORD") None.
Proof.
  intros r. split; [reflexivity|].
  intros H.
  apply (reported_pdf_path_is_key_iff "netchb-duty" r (Some "ORD") None _ eq_refl) in H.
  destruct H as [H _]. discriminate H.
Defined.

(** *** Batch status *)

Lemma status_count_cons status st items :
  status_count status (st :: items)
  = (if match st with Some s => String.eqb s status | None => false end
     then 1 else 0) + status_count status items.
Proof.
  unfold status_count. simpl.
  now destruct (match st with Some s => String.eqb s status | None => false end).
Qed.

Lemma five_counts_cons st :
  (  (if match st with Some s => String.eqb s "pending" | None => false end then 1 else 0)
   + (if match st with Some s => String.eqb s "running" | None => false end then 1 else 0)
   + (if match st with Some s => String.eqb s "success" | None => false end then 1 else 0)
   + (if match st with Some s => String.eqb s "failed" | None => false end then 1 else 0)
   + (if match st with Some s => String.eqb s "cancelled" | None => false end then 1 else 0)
   = 1 /\ known_status st)
  \/
  (  (if match st with Some s => String.eqb s "pending" | None => false end then 1 else 0)
   + (if match st with Some s => String.eqb s "running" | None => false end then 1 else 0)
   + (if match st with Some s => String.eqb s "success" | None => false end then 1 else 0)
   + (if match st with Some s => String.eqb s "failed" | None => false end then 1 else 0)
   + (if match st with Some s => String.eqb s "cancelled" | None => false end then 1 else 0)
   = 0 /\ ~ known_status st).
Proof.
  destruct st as [s|]; [|right; split; auto].
  unfold known_status, item_statuses.
  destruct (String.eqb s "pending") eqn:E1;
    [apply String.eqb_eq in E1; subst; left; split; [reflexivity | simpl; tauto]|].
  destruct (String.eqb s "running") eqn:E2;
    [apply String.eqb_eq in E2; subst; left; split; [reflexivity | simpl; tauto]|].
  destruct (String.eqb s "success") eqn:E3;
    [apply String.eqb_eq in E3; subst; left; split; [reflexivity | simpl; tauto]|].
  destruct (String.eqb s "failed") eqn:E4;
    [apply String.eqb_eq in E4; subst; left; split; [reflexivity | simpl; tauto]|].
  destruct (String.eqb s "cancelled") eqn:E5;
    [apply String.eqb_eq in E5; subst; left; split; [reflexivity | simpl; tauto]|].
  right. split; [reflexivity|].
  apply String.eqb_neq in E1, E2, E3, E4, E5. simpl. intuition congruence.
Qed.

(** X28. The five counts of a batch status never exceed the number of items,
    and they add up to it exactly when every item has one of the five
    statuses. *)
Theorem batch_counts_partition items bs :
  get_batch_status true items = Some bs ->
  item_count bs = List.length items
  /\ pending_count bs + running_count bs + success_count bs + failed_count bs
     + cancelled_count bs <= item_count bs
  /\ (pending_count bs + running_count bs + success_count bs + failed_count bs
      + cancelled_count bs = item_count bs
      <-> Forall known_status items).
Proof.
  simpl. intros H. injection H as <-. simpl.
  split; [reflexivity|].
  induction items as [|st items [IHle IHeq]].
  - unfold status_count. simpl. split; [lia|]. split; auto.
  - rewrite !status_count_cons. simpl List.length.
    destruct (five_counts_cons st) as [[H1 Hk] | [H0 Hk]].
    + split; [lia|]. split.
      * intros H. constructor; auto. apply IHeq. lia.
      * intros H. inversion H; subst. apply IHeq in H4. lia.
    + split; [lia|]. split.
      * intros H. exfalso. lia.
      * intros H. inversion H; subst. contradiction.
Qed.

Lemma batch_counts_partition_witness :
  exists bs,
    get_batch_status true [Some "success"; Some "failed"; None; Some "queued"] = Some bs
    /\ pending_count bs + running_count bs + success_count bs + failed_count bs
         + cancelled_count bs = 2
    /\ item_count bs = 4.
Proof.
  eexists. split; [reflexivity|].
  destruct (batch_counts_partition
              [Some "success"; Some "failed"; None; Some "queued"] _ eq_refl)
    as (H & _ & _).
  split; [reflexivity | exact H].
Defined.

End ReportFacts.

(** ** The reports of the service: the PDF link and the export *)
Section LookupFacts.
Import PyStr PyDict Runner Reports.

Lemma get_app {V} (a b : dict V) k :
  get (a ++ b)%list k = match get a k with Some v => Some v | None => get b k end.
Proof.
  induction a as [|[k' v'] a IH]; simpl; auto.
  now destruct (String.eqb k' k).
Qed.

Lemma get_absent {V} (d : dict V) k : ~ In k (keys d) -> get d k = None.
Proof.
  intros H. destruct (get d k) eqn:E; auto.
  exfalso. apply H, has_key_in. unfold has_key. now rewrite E.
Qed.

Lemma search_items_app a b :
  search_items (a ++ b)%list
  = match search_items a with Some url => Some url | None => search_items b end.
Proof.
  induction a as [|[k v] a IH]; simpl; auto.
  destruct (names_pdf_url k); auto. now destruct (usable v).
Qed.

Lemma search_items_none items :
  Forall (fun k => names_pdf_url k = false) (keys items) ->
  search_items items = None.
Proof.
  induction items as [|[k v] items IH]; simpl; auto.
  intros H. inversion H; subst. simpl in *. rewrite H2. auto.
Qed.

Lemma optional_key_not_pdf k : In k optional_keys -> names_pdf_url k = false.
Proof.
  unfold optional_keys. simpl.
  intros [<-|[<-|[<-|[<-|[<-|[]]]]]]; reflexivity.
Qed.

Lemma optional_key_not_possible k : In k optional_keys -> ~ In k possible_keys.
Proof.
  unfold optional_keys, possible_keys. simpl.
  intros [<-|[<-|[<-|[<-|[<-|[]]]]]]; intuition discriminate.
Qed.

(** In a summary with the keys of the pipeline, the PDF archive finds a
    URL exactly when the value under ["7501 Batch PDF URL"] is, once
    stripped, neither empty nor ["N/A"]; that value is the URL it uses. *)
Lemma pdf_url_found_under_its_key s :
  well_keyed s ->
  exists v, get s "7501 Batch PDF URL" = Some v /\ find_pdf_url s = usable v.
Proof.
  intros (extras & Hk & Hincl).
  assert (Hkeys : keys s = (firstn 15 fixed_keys
                            ++ "7501 Batch PDF URL" :: "Checkbook HAWBs" :: extras)%list)
    by exact Hk.
  unfold keys in Hkeys.
  apply map_eq_app in Hkeys as (front & tail & -> & Hfront & Htail).
  destruct tail as [|[k v] back]; [discriminate|].
  simpl in Htail. injection Htail as -> Hback.
  assert (Hnot : forall k, In k (keys back) -> names_pdf_url k = false
                                               /\ ~ In k possible_keys).
  { intros k Hin. unfold keys in Hin. rewrite Hback in Hin.
    destruct Hin as [<- | Hin].
    - split; [reflexivity | simpl; intuition discriminate].
    - apply Hincl in Hin. split.
      + now apply optional_key_not_pdf.
      + now apply optional_key_not_possible. }
  assert (Hget : forall k, In k possible_keys -> k <> "7501 Batch PDF URL" ->
                           get (front ++ ("7501 Batch PDF URL", v) :: back)%list k = None).
  { intros k Hin Hne. rewrite get_app, get_absent.
    - cbn [get]. destruct (String.eqb "7501 Batch PDF URL" k) eqn:E.
      + apply String.eqb_eq in E. now elim Hne.
      + apply get_absent. intros Hb. now apply Hnot in Hb.
    - unfold keys. rewrite Hfront. revert Hin Hne. simpl.
      intuition (subst; discriminate). }
  exists v. split.
  - rewrite get_app, get_absent; [reflexivity|].
    unfold keys. rewrite Hfront. simpl. intuition discriminate.
  - unfold find_pdf_url, possible_keys. cbn [first_usable].
    rewrite get_app, get_absent
      by (unfold keys; rewrite Hfront; simpl; intuition discriminate).
    cbn [get]. rewrite String.eqb_refl.
    destruct (usable v) eqn:Eu; [reflexivity|].
    rewrite !Hget by (simpl; intuition discriminate).
    rewrite search_items_app, search_items_none.
    + cbn [search_items].
      change (names_pdf_url "7501 Batch PDF URL") with true. cbv iota.
      rewrite Eu. apply search_items_none, Forall_forall.
      intros k Hin. now apply Hnot.
    + unfold keys. rewrite Hfront.
      repeat (apply Forall_cons; [reflexivity|]). apply Forall_nil.
Qed.

(** X27. The export prints a master number with the digits it has, and printing
    the printed text changes nothing. *)
Theorem format_mawb_keeps_digits m :
  digits_of (format_mawb (Some m)) = digits_of m
  /\ format_mawb (Some (format_mawb (Some m))) = format_mawb (Some m).
Proof.
  unfold format_mawb at 1 3.
  destruct (is_empty m) eqn:Em.
  - apply is_empty_true in Em. subst. split; reflexivity.
  - destruct (String.length (digits_of m) =? 11) eqn:E.
    + pose proof (dashed_digits _ (digits_of_all_digits m)) as Hd.
      split; [assumption|].
      unfold format_mawb. rewrite Em, Hd, !E, is_empty_app.
      cbn [append is_empty]. now rewrite andb_false_r.
    + split; [reflexivity|]. unfold format_mawb. now rewrite Em, E.
Qed.

End LookupFacts.

(** ** Request models *)
Section ModelFacts.
Import PyStr Models.

Lemma validate_mawbs_from_ok items : forall normalized out,
  validate_mawbs_from items normalized = Ok out ->
  out = (normalized ++ map digits_of items)%list
  /\ Forall (fun m => String.length (digits_of m) = 11) items.
Proof.
  induction items as [|m items IH]; simpl; intros normalized out H.
  - injection H as <-. now rewrite app_nil_r.
  - destruct (String.length (digits_of m) =? 11) eqn:E; [|discriminate].
    simpl in H. apply IH in H as [-> Hall]. split.
    + now rewrite <- app_assoc.
    + constructor; auto. now apply Nat.eqb_eq.
Qed.

Lemma validate_mawbs_from_all items : forall normalized,
  Forall (fun m => String.length (digits_of m) = 11) items ->
  validate_mawbs_from items normalized
  = Ok (normalized ++ map digits_of items)%list.
Proof.
  induction items as [|m items IH]; simpl; intros normalized H.
  - now rewrite app_nil_r.
  - inversion H; subst. rewrite H2. simpl. rewrite IH by assumption.
    now rewrite <- app_assoc.
Qed.

(** X5. A request is accepted exactly when each of its master numbers holds
    eleven digits; the accepted list holds, in order, what the runner's
    normaliser returns on each, and validating it again changes nothing. *)
Theorem validated_mawbs_are_normal items out :
  Models.validate_mawbs items = Ok out ->
  Forall2 (fun m d => Runner._normalize_mawb m = Ok d) items out
  /\ Models.validate_mawbs out = Ok out.
Proof.
  unfold Models.validate_mawbs. intros H.
  apply validate_mawbs_from_ok in H as [-> Hall]. simpl. split.
  - induction Hall as [|m items Hm Hall IH]; simpl; constructor; auto.
    unfold Runner._normalize_mawb. now rewrite Hm.
  - rewrite validate_mawbs_from_all.
    + simpl. f_equal. rewrite map_map. apply map_ext.
      intros m. apply digits_of_fixed, digits_of_all_digits.
    + apply Forall_map. eapply Forall_impl; [|exact Hall].
      intros m Hm. simpl.
      now rewrite (digits_of_fixed _ (digits_of_all_digits m)).
Qed.

Lemma validated_mawbs_are_normal_witness :
  Models.validate_mawbs ["235-94731221"; "999 3864 9026"]
  = Ok ["23594731221"; "99938649026"]
  /\ Models.validate_mawbs ["23594731221"; "99938649026"]
     = Ok ["23594731221"; "99938649026"].
Proof.
  split; [reflexivity|].
  apply (validated_mawbs_are_normal ["235-94731221"; "999 3864 9026"]).
  reflexivity.
Defined.

Lemma prefix_split p : forall s, prefix p s = true -> exists rest, s = p ++ rest.
Proof.
  induction p as [|c p IH]; intros s H.
  - now exists s.
  - destruct s as [|d s]; [discriminate|]. simpl in H.
    destruct (ascii_dec c d) as [->|]; [|discriminate].
    apply IH in H as [rest ->]. now exists rest.
Qed.

(** X6. A broker that both validators accept with authentication required has
    an OTP URI that starts with [otpauth://totp/]. *)
Theorem authenticated_broker_has_totp_uri required v v' :
  validate_otp_uri_format v = Ok v' ->
  validate_otp_uri_required required v' = Ok tt ->
  required = true ->
  exists rest, v' = Some ("otpauth://totp/" ++ rest).
Proof.
  intros Hformat Hrequired ->.
  unfold validate_otp_uri_required in Hrequired. simpl in Hrequired.
  destruct v' as [uri|]; [|discriminate].
  destruct (truthy uri) eqn:Et; [|discriminate].
  unfold validate_otp_uri_format in Hformat.
  destruct v as [u|]; [|discriminate].
  destruct (truthy u && negb (prefix "otpauth://totp/" u)) eqn:E; [discriminate|].
  injection Hformat as ->. rewrite Et in E. simpl in E.
  apply negb_false_iff in E. apply prefix_split in E as [rest ->].
  now exists rest.
Qed.

Lemma authenticated_broker_has_totp_uri_witness :
  exists rest,
    Some "otpauth://totp/NetCHB:user?secret=JBSWY3DPEHPK3PXP"
    = Some ("otpauth://totp/" ++ rest).
Proof.
  apply (authenticated_broker_has_totp_uri true
           (Some "otpauth://totp/NetCHB:user?secret=JBSWY3DPEHPK3PXP"));
    reflexivity.
Defined.

End ModelFacts.

(** ** Session cookies *)
Section SessionFacts.
Import PyStr PyDict Session.

Lemma load_from_snoc cookies cs c :
  load_from cookies (cs ++ [c])
  = match named_value c with
    | Some (name, value) => set (load_from cookies cs) name value
    | None => load_from cookies cs
    end.
Proof. unfold load_from. now rewrite fold_left_app. Qed.

Lemma last_value_snoc name cs c :
  last_value name (cs ++ [c])
  = match named_value c with
    | Some (n, v) => if String.eqb n name then Some v else last_value name cs
    | None => last_value name cs
    end.
Proof. unfold last_value. now rewrite fold_left_app. Qed.

(** X12. The cookie jar built from a storage state gives, under each name, the
    value of the last cookie of that name that has a value; cookies without
    a name or without a value are left out. *)
Theorem loaded_cookie_is_last_of_its_name cs name :
  get (_load_cookies_from_storage_state cs) name = last_value name cs.
Proof.
  unfold _load_cookies_from_storage_state.
  induction cs as [|c cs IH] using rev_ind; [reflexivity|].
  rewrite load_from_snoc, last_value_snoc.
  destruct (named_value c) as [[n v]|]; [|assumption].
  destruct (String.eqb n name) eqn:E.
  - apply String.eqb_eq in E. subst. apply get_set_same.
  - apply String.eqb_neq in E. now rewrite get_set_other.
Qed.

Lemma set_not_nil {V} (d : dict V) k v : set d k v <> [].
Proof. destruct d as [|[k' v'] d]; simpl; [|destruct (String.eqb k' k)]; discriminate. Qed.

Lemma load_from_not_nil cs : forall cookies,
  cookies <> [] -> load_from cookies cs <> [].
Proof.
  induction cs as [|c cs IH]; intros cookies H; [assumption|].
  unfold load_from in *. simpl.
  destruct (named_value c) as [[n v]|]; apply IH;
    [apply set_not_nil | assumption].
Qed.

(** X13. The jar is empty, and the PDF section is skipped for want of session
    cookies, exactly when no cookie of the state has both a name and a
    value. *)
Theorem no_session_cookies_iff cs :
  _load_cookies_from_storage_state cs = []
  <-> Forall (fun c => named_value c = None) cs.
Proof.
  unfold _load_cookies_from_storage_state. split.
  - induction cs as [|c cs IH]; intros H; constructor.
    + unfold load_from in H. simpl in H.
      destruct (named_value c) as [[n v]|]; auto.
      exfalso. revert H. apply load_from_not_nil. discriminate.
    + apply IH. unfold load_from in *. simpl in H.
      destruct (named_value c) as [[n v]|]; auto.
      exfalso. revert H. apply load_from_not_nil. discriminate.
  - induction 1 as [|c cs Hc Hall IH]; [reflexivity|].
    unfold load_from in *. simpl. now rewrite Hc.
Qed.

End SessionFacts.

(** ** The custom report request: default values and field lists *)
Section PayloadFacts.
Import PyStr PyDict PyDate CustomReport.

Lemma get_update_present {V} (other : dict V) : forall (d : dict V) k v,
  NoDup (keys other) -> get other k = Some v -> get (update d other) k = Some v.
Proof.
  unfold update.
  induction other as [|[k0 v0] other IH]; intros d k v Hnd Hget; [discriminate|].
  simpl in *. inversion Hnd as [|? ? Hnotin Hnd']; subst.
  destruct (String.eqb k0 k) eqn:E.
  - apply String.eqb_eq in E. subst. injection Hget as ->.
    pose proof (get_update_absent other (set d k v) k) as Habs.
    unfold update in Habs. rewrite Habs.
    + apply get_set_same.
    + now apply get_absent.
  - now apply IH.
Qed.

(** The names under which the field lists of the template are sent. *)
Lemma field_list_names k :
  ~ In k ["headerFields"; "manifestFields"; "invoiceFields"; "lineFields";
          "tariffFields"] ->
  "headerFields" <> k /\ "manifestFields" <> k /\ "invoiceFields" <> k
  /\ "lineFields" <> k /\ "tariffFields" <> k.
Proof. simpl. intuition. Qed.

(** X7. The default values of the template go into the request as they are,
    the computed [templateId], [begin], [end] and [masterBill] included;
    only the five field lists can replace one of them. *)
Theorem default_values_sent_verbatim today tp mawb oldest k v :
  NoDup (keys (defaultValues tp)) ->
  get (defaultValues tp) k = Some v ->
  ~ In k ["headerFields"; "manifestFields"; "invoiceFields"; "lineFields";
          "tariffFields"] ->
  get (_build_custom_report_payload today tp mawb oldest) k = Some v.
Proof.
  intros Hnd Hget Hk. apply field_list_names in Hk as (H1 & H2 & H3 & H4 & H5).
  unfold _build_custom_report_payload.
  rewrite !get_set_fields by assumption.
  now apply get_update_present.
Qed.

Lemma default_values_sent_verbatim_witness :
  get (_build_custom_report_payload Fixtures.today Fixtures.dated_template
         "23594731221" Fixtures.oldest) "end"
  = Some (Str "123124").
Proof.
  apply default_values_sent_verbatim.
  - repeat constructor; simpl; intuition discriminate.
  - reflexivity.
  - simpl. intuition discriminate.
Defined.

Lemma get_set_fields_same payload key fields :
  fields <> [] -> get (set_fields payload key fields) key = Some (StrList fields).
Proof. destruct fields; [congruence|]. intros _. apply get_set_same. Qed.

(** X8. A field list of the template that is not empty is sent under its name,
    whatever the default values hold under that name; the master number is
    sent as its digits unless the default values name [masterBill]. *)
Theorem field_lists_sent today tp mawb oldest name fields :
  In (name, fields)
     [ ("headerFields", headerFields tp); ("manifestFields", manifestFields tp);
       ("invoiceFields", invoiceFields tp); ("lineFields", lineFields tp);
       ("tariffFields", tariffFields tp) ] ->
  fields <> [] ->
  get (_build_custom_report_payload today tp mawb oldest) name
  = Some (StrList fields)
  /\ (get (defaultValues tp) "masterBill" = None ->
      get (_build_custom_report_payload today tp mawb oldest) "masterBill"
      = Some (Str (digits_of mawb))).
Proof.
  intros Hin Hne. split.
  - unfold _build_custom_report_payload. simpl in Hin.
    destruct Hin as [H|[H|[H|[H|[H|[]]]]]]; injection H as <- <-;
      rewrite ?get_set_fields by discriminate;
      now apply get_set_fields_same.
  - intros Habs. unfold _build_custom_report_payload.
    rewrite !get_set_fields by discriminate.
    rewrite get_update_absent by assumption.
    apply get_set_same.
Qed.

Lemma field_lists_sent_witness :
  get (_build_custom_report_payload Fixtures.today Fixtures.template
         "235-94731221" Fixtures.oldest) "manifestFields"
  = Some (StrList ["masterBill"]).
Proof.
  apply (field_lists_sent Fixtures.today Fixtures.template "235-94731221"
           Fixtures.oldest "manifestFields" ["masterBill"]).
  - simpl. auto.
  - discriminate.
Defined.

End PayloadFacts.

(** ** The database wrapper: outcomes and waits *)
Section ExecuteOutcomes.
Import Database.
Variable Value : Type.
Variable value_truthy : Value -> bool.
Variable query : nat -> Attempt Value.
Variable recreate_ok : nat -> bool.
Variable default : option Value.

(** X9. The wrapper returns only what an attempt of the query returned: the
    data of the first attempt that succeeds, every attempt before it having
    failed with a transient error. The [return default] after the loop is
    never reached. *)
Theorem execute_returns_only_on_success v :
  fst (_execute Value value_truthy query recreate_ok default) = Returned v ->
  exists n r,
    n < 3 /\ query n = Succeeds Value r
    /\ v = data_or_default Value value_truthy r default
    /\ forall m, m < n ->
         exists e, query m = Fails Value e
                   /\ is_resource_error e || is_connection_error e = true.
Proof.
  unfold _execute, max_retries. simpl.
  destruct (query 0) as [r0|e0] eqn:Q0; simpl.
  { intros H. injection H as <-. exists 0, r0. repeat split; auto; lia. }
  destruct (is_resource_error e0 || is_connection_error e0) eqn:T0; simpl;
    [|discriminate].
  destruct (query 1) as [r1|e1] eqn:Q1; simpl.
  { intros H. injection H as <-. exists 1, r1. repeat split; auto.
    intros m Hm. assert (m = 0) as -> by lia. eauto. }
  destruct (is_resource_error e1 || is_connection_error e1) eqn:T1; simpl;
    [|discriminate].
  destruct (query 2) as [r2|e2] eqn:Q2; simpl.
  { intros H. injection H as <-. exists 2, r2. repeat split; auto.
    intros m Hm.
    assert (m = 0 \/ m = 1) as [-> | ->] by lia; eauto. }
  destruct (is_resource_error e2 || is_connection_error e2); discriminate.
Qed.

(** X10. The exception the wrapper raises is the one of its last attempt,
    unchanged: the first failure that is not transient, or the third
    failure. *)
Theorem execute_raises_last_failure e :
  fst (_execute Value value_truthy query recreate_ok default) = Raised e ->
  exists n,
    n < 3 /\ query n = Fails Value e
    /\ (n = 2 \/ is_resource_error e || is_connection_error e = false)
    /\ executions (snd (_execute Value value_truthy query recreate_ok default)) = S n
    /\ forall m, m < n ->
         exists e', query m = Fails Value e'
                    /\ is_resource_error e' || is_connection_error e' = true.
Proof.
  unfold _execute, max_retries. simpl.
  destruct (query 0) as [r0|e0] eqn:Q0; simpl; [discriminate|].
  destruct (is_resource_error e0 || is_connection_error e0) eqn:T0; simpl.
  2:{ intros H. injection H as <-. exists 0. repeat split; auto; lia. }
  destruct (query 1) as [r1|e1] eqn:Q1; simpl; [discriminate|].
  destruct (is_resource_error e1 || is_connection_error e1) eqn:T1; simpl.
  2:{ intros H. injection H as <-. exists 1. repeat split; auto.
      - unfold executions, recreate_events.
        destruct (is_connection_error e0); reflexivity.
      - intros m Hm. assert (m = 0) as -> by lia. eauto. }
  destruct (query 2) as [r2|e2] eqn:Q2; simpl; [discriminate|].
  destruct (is_resource_error e2 || is_connection_error e2) eqn:T2; simpl;
    intros H; injection H as <-; exists 2; repeat split; auto;
    try (unfold executions, recreate_events;
         destruct (is_connection_error e0), (is_connection_error e1); reflexivity);
    intros m Hm; (assert (m = 0 \/ m = 1) as [-> | ->] by lia); eauto.
Qed.

(** X11. The wrapper sleeps between two attempts and at no other time: half a
    second after the first attempt, one second after the second, never
    after the last; it re-creates the client once at most per sleep. *)
Theorem execute_sleeps_between_attempts :
  1 <= executions (snd (_execute Value value_truthy query recreate_ok default)) <= 3
  /\ sleeps (snd (_execute Value value_truthy query recreate_ok default))
     = firstn (executions (snd (_execute Value value_truthy query recreate_ok default)) - 1) [0.5%float; 1%float]
  /\ exists n, last (snd (_execute Value value_truthy query recreate_ok default)) (Sleep 0%float) = Execute n.
Proof.
  unfold _execute, max_retries. simpl.
  destruct (query 0) as [r0|e0]; simpl.
  { unfold executions. simpl. repeat split; auto. eauto. }
  destruct (is_resource_error e0 || is_connection_error e0); simpl.
  2:{ unfold executions. simpl. repeat split; auto. eauto. }
  destruct (query 1) as [r1|e1]; simpl.
  { unfold executions, sleeps, recreate_events.
    rewrite wait_time_first.
    destruct (is_connection_error e0); simpl; repeat split; auto; eauto. }
  destruct (is_resource_error e1 || is_connection_error e1); simpl.
  2:{ unfold executions, sleeps, recreate_events.
      rewrite wait_time_first.
      destruct (is_connection_error e0); simpl; repeat split; auto; eauto. }
  destruct (query 2) as [r2|e2]; simpl;
    [|destruct (is_resource_error e2 || is_connection_error e2); simpl];
    unfold executions, sleeps, recreate_events;
    rewrite wait_time_first, wait_time_second;
    destruct (is_connection_error e0), (is_connection_error e1); simpl;
    repeat split; auto; eauto.
Qed.

End ExecuteOutcomes.

Lemma execute_returns_only_on_success_witness :
  exists n r,
    n < 3 /\ Fixtures.flaky_query n = Database.Succeeds _ r
    /\ Some ["row"%string]
       = Database.data_or_default _ Fixtures.rows_truthy r (Some []).
Proof.
  destruct (execute_returns_only_on_success (list string) Fixtures.rows_truthy
              Fixtures.flaky_query (fun _ => true) (Some []) (Some ["row"%string])
              eq_refl) as (n & r & Hn & Hq & Hv & _).
  exists n, r. auto.
Defined.

Lemma execute_raises_last_failure_witness :
  exists n,
    n < 3 /\ Fixtures.refused_query n = Database.Fails _ Fixtures.refused
    /\ Database.executions
         (snd (Database._execute (list string) Fixtures.rows_truthy
                 Fixtures.refused_query (fun _ => true) (Some []))) = S n.
Proof.
  destruct (execute_raises_last_failure (list string) Fixtures.rows_truthy
              Fixtures.refused_query (fun _ => true) (Some []) Fixtures.refused
              eq_refl) as (n & Hn & Hq & _ & He & _).
  exists n. auto.
Defined.

(** ** The pipeline: what each block writes and when it runs *)
Section StageWrites.
Import PyStr PyDict PyDate Runner.

Ltac other_key Hk :=
  intros <-; apply Hk; simpl; tauto.

Lemma ams_section_get w s k :
  ~ In k ams_written ->
  get (fst (_process_ams_section_http w s)) k = get s k.
Proof.
  intros Hk. destruct w as [e | [| | link hawbs arrival] master]; simpl; auto.
  - apply get_set_other. other_key Hk.
  - destruct (match link with Some l => truthy l | None => false end);
      [destruct master|]; simpl;
      rewrite ?get_set_other; auto; other_key Hk.
Qed.

Lemma ams_stage_get w sections s s1 c1 k :
  ams_stage w sections s = (s1, c1) -> ~ In k ams_written -> get s1 k = get s k.
Proof.
  unfold ams_stage. destruct (ams sections); intros H Hk; inversion H; subst; auto.
  now apply ams_section_get.
Qed.

Lemma entries_stage_get w sections s s2 ed c2 k :
  entries_stage w sections s = (s2, ed, c2) -> ~ In k entries_written ->
  get s2 k = get s k.
Proof.
  unfold entries_stage. intros H Hk.
  destruct (entries sections || custom sections || download_7501_pdf sections);
    [|inversion H; subst; auto].
  destruct (entries_world w) as [e | | [d|] rows]; simpl in H;
    inversion H; subst; auto; apply get_set_other; other_key Hk.
Qed.

Lemma report_get answer today digits oldest fr path report k :
  _process_custom_report answer today digits oldest fr = Ok (path, report) ->
  ~ In k custom_written -> get report k = None.
Proof.
  unfold _process_custom_report, _process_custom_report_http.
  destruct fr as [[ident [tp|]]|]; simpl; try discriminate.
  destruct (CustomReport.headerFields tp); try discriminate.
  destruct (CustomReport.manifestFields tp); try discriminate.
  match goal with
  | |- context [answer ?form] => destruct (answer form) as [e | excel [[p u] | e]]
  end; try discriminate;
    intros H Hk; inversion H; subst; clear H;
    apply get_absent; intros Hin; apply Hk; revert Hin; simpl; tauto.
Qed.

Lemma custom_stage_get w sections digits fr ed s s3 path c3 k :
  custom_stage w sections digits fr ed s = (s3, path, c3) ->
  ~ In k custom_written -> get s3 k = get s k.
Proof.
  unfold custom_stage, custom_section. intros H Hk.
  destruct (custom sections); [|inversion H; subst; auto].
  destruct (match ed with Some e => entries_not_found e | None => false end);
    [inversion H; subst; auto|].
  destruct (match ed with Some e => oldest_entry e | None => None end);
    [|inversion H; subst; auto].
  destruct (_process_custom_report _ _ _ _ _) as [[p report]|e] eqn:E;
    inversion H; subst; auto.
  apply get_update_absent. eapply report_get; eauto.
Qed.

Variable py_float : string -> option float.

Lemma pdf_stage_get w sections ed s s4 c4 k :
  pdf_stage py_float w sections ed s = (s4, c4) ->
  ~ In k pdf_written -> get s4 k = get s k.
Proof.
  intros H Hk.
  assert (Hd : get (fst (download_and_store w s)) k = get s k)
    by (apply download_and_store_get; intros ->; apply Hk; simpl; tauto).
  apply pdf_stage_cases in H as [[-> _] | [_ H]]; auto.
  apply verify_and_download_cases in H
    as [[_ H] | [(_ & _ & -> & _) | (_ & _ & -> & _)]]; auto.
  rewrite (surjective_pairing (download_and_store w s)) in H.
  now inversion H; subst.
Qed.

(** The summary of a run that went past the AMS block, read under a key
    that a block does not write, is what the block before left there. *)
Lemma run_get w mawb sections fr cb r calls k :
  process_mawb py_float w mawb sections fr cb = Ok (r, calls) ->
  ~ In k entries_written -> ~ In k custom_written -> ~ In k pdf_written ->
  exists digits s1 c1,
    _normalize_mawb mawb = Ok digits
    /\ result_mawb r = digits
    /\ ams_stage w sections (initial_summary digits cb) = (s1, c1)
    /\ get (summary r) k = get s1 k.
Proof.
  intros H He Hc Hp.
  apply process_mawb_returns in H
    as (digits & s1 & c1 & Hn & Ha & [(_ & -> & _) | (_ & H)]).
  - exists digits, s1, c1. auto.
  - destruct H as (s2 & ed & c2 & s3 & path & c3 & s4 & c4 & H2 & H3 & H4 & -> & _).
    exists digits, s1, c1. repeat split; auto. simpl.
    rewrite (pdf_stage_get _ _ _ _ _ _ k H4 Hp).
    rewrite (custom_stage_get _ _ _ _ _ _ _ _ _ k H3 Hc).
    now rewrite (entries_stage_get _ _ _ _ _ _ k H2 He).
Qed.

(** X14. Whatever the portal and the store answer, the summary of a run keeps
    the master number it was started with, as its eleven digits, and the
    house count of the checkbook as it was given (stripped, or "N/A"). *)
Theorem summary_keeps_its_identity w mawb sections fr cb r calls :
  process_mawb py_float w mawb sections fr cb = Ok (r, calls) ->
  _normalize_mawb mawb = Ok (result_mawb r)
  /\ get (summary r) "MAWB Number" = Some (result_mawb r)
  /\ get (summary r) "Checkbook HAWBs"
     = Some match cb with Some c => strip c | None => "N/A" end.
Proof.
  intros H.
  destruct (run_get _ _ _ _ _ _ _ "MAWB Number" H)
    as (digits & s1 & c1 & Hn & Hr & Ha & Hg);
    try (simpl; intuition discriminate).
  destruct (run_get _ _ _ _ _ _ _ "Checkbook HAWBs" H)
    as (digits' & s1' & c1' & Hn' & _ & Ha' & Hg');
    try (simpl; intuition discriminate).
  rewrite Hn in Hn'. injection Hn' as <-. rewrite Ha in Ha'. injection Ha' as <- <-.
  rewrite Hr. repeat split; auto.
  - rewrite Hg. rewrite (ams_stage_get _ _ _ _ _ _ Ha)
      by (simpl; intuition discriminate).
    reflexivity.
  - rewrite Hg'. rewrite (ams_stage_get _ _ _ _ _ _ Ha)
      by (simpl; intuition discriminate).
    reflexivity.
Qed.

(** X15. When the AMS block finds the master and reads its page, the values it
    wrote are in the summary of the run whatever the later blocks do, and
    the rejected entries are the T-11 entries less the accepted ones. *)
Theorem ams_values_survive w mawb sections fr cb r calls link hawbs arrival md :
  process_mawb py_float w mawb sections fr cb = Ok (r, calls) ->
  ams sections = true ->
  ams_world w = AmsAnswers (SearchRow (Some link) hawbs arrival) (Ok md) ->
  truthy link = true ->
  get (summary r) "AMS Total HAWBs" = Some hawbs
  /\ get (summary r) "AMS Duty" = Some (duty md)
  /\ get (summary r) "AMS Total T-11 Entries" = Some (str_of_Z (t11_entries md))
  /\ get (summary r) "AMS Entries Accepted" = Some (str_of_Z (entries_accepted md))
  /\ get (summary r) "7501 Total Houses" = Some (str_of_Z (houses_7501 md))
  /\ get (summary r) "Rejected Entries"
     = Some (str_of_Z (t11_entries md - entries_accepted md)).
Proof.
  intros H Hams Hw Hlink.
  assert (Hk : forall k, In k ["AMS Total HAWBs"; "AMS Duty"; "AMS Total T-11 Entries";
                                "AMS Entries Accepted"; "7501 Total Houses";
                                "Rejected Entries"] ->
               get (summary r) k
               = get (fst (_process_ams_section_http (ams_world w)
                             (initial_summary (result_mawb r) cb))) k).
  { intros k Hin.
    destruct (run_get _ _ _ _ _ _ _ k H) as (digits & s1 & c1 & Hn & Hr & Ha & Hg);
      try (revert Hin; simpl; intuition (subst; discriminate)).
    rewrite Hg. unfold ams_stage in Ha. rewrite Hams in Ha.
    injection Ha as <- _. now rewrite Hr. }
  rewrite !Hk by (simpl; tauto).
  rewrite Hw. simpl. rewrite Hlink. simpl.
  repeat split; rewrite ?get_set_same;
    repeat (rewrite get_set_other by discriminate; rewrite ?get_set_same);
    reflexivity.
Qed.

End StageWrites.

Lemma summary_keeps_its_identity_witness :
  match Runner.process_mawb Fixtures.decimal_float (Fixtures.happy_world "4250")
          "235-94731221" Fixtures.all_sections (Some Fixtures.format_record)
          (Some " 4250 ") with
  | Ok (r, _) =>
      Runner._normalize_mawb "235-94731221" = Ok (Runner.result_mawb r)
      /\ PyDict.get (Runner.summary r) "MAWB Number" = Some (Runner.result_mawb r)
      /\ PyDict.get (Runner.summary r) "Checkbook HAWBs" = Some "4250"
  | Raise _ => False
  end.
Proof.
  concrete_run E r calls.
  exact (summary_keeps_its_identity _ _ _ _ _ _ r calls E).
Defined.

Lemma ams_values_survive_witness :
  match Runner.process_mawb Fixtures.decimal_float (Fixtures.happy_world "4250")
          "235-94731221" Fixtures.all_sections (Some Fixtures.format_record)
          (Some "4250") with
  | Ok (r, _) =>
      PyDict.get (Runner.summary r) "Rejected Entries" = Some "0"
      /\ PyDict.get (Runner.summary r) "7501 Total Houses" = Some "4250"
  | Raise _ => False
  end.
Proof.
  concrete_run E r calls.
  destruct (ams_values_survive _ _ _ _ _ _ r calls _ _ _ _ E eq_refl eq_refl eq_refl)
    as (_ & _ & _ & _ & H1 & H2).
  split; [exact H2 | exact H1].
Defined.

(** ** The pipeline: the order of the blocks and what they need *)
Section StageOrder.
Import PyStr PyDict PyDate Runner.

Lemma in_stage_calls (c : Call) c1 c2 c3 c4 :
  In c (c1 ++ c2 ++ c3 ++ c4)%list ->
  (c1 = [] \/ c1 = [CallAms]) -> (c2 = [] \/ c2 = [CallEntries]) ->
  c <> CallAms -> c <> CallEntries ->
  In c c3 \/ In c c4.
Proof.
  intros Hin [-> | ->] [-> | ->] Ha He; simpl in Hin;
    repeat (destruct Hin as [Hin | Hin]; [congruence|]);
    now apply in_app_or.
Qed.

Lemma ams_stage_shape w sections s s1 c1 :
  ams_stage w sections s = (s1, c1) -> c1 = [] \/ c1 = [CallAms].
Proof.
  unfold ams_stage. destruct (ams sections); intros H; inversion H; auto.
Qed.

(** The entries block is skipped or fails (no data), finds nothing, or
    finds the rows. *)
Lemma entries_stage_shape w sections s s2 ed c2 :
  entries_stage w sections s = (s2, ed, c2) ->
  (c2 = [] \/ c2 = [CallEntries])
  /\ (ed = None
      \/ (entries_world w = EntriesNotFound
          /\ ed = Some (mkEntriesData None None true)
          /\ s2 = set s "Entries Status" "Not Found")
      \/ (exists oldest rows,
            entries_world w = EntriesFound oldest rows
            /\ ed = Some (mkEntriesData oldest (Some rows) false))).
Proof.
  unfold entries_stage.
  destruct (entries sections || custom sections || download_7501_pdf sections);
    [|intros H; inversion H; auto].
  destruct (entries_world w) as [e | | oldest rows]; simpl;
    intros H; inversion H; subst; split; auto.
  right. right. eauto.
Qed.

(** The custom report is requested only with its flag set and the date of
    the oldest entry at hand; otherwise the block changes nothing. *)
Lemma custom_stage_shape w sections digits fr ed s s3 path c3 :
  custom_stage w sections digits fr ed s = (s3, path, c3) ->
  (c3 = [] /\ s3 = s /\ path = None)
  \/ (c3 = [CallCustomReport] /\ custom sections = true
      /\ exists e d, ed = Some e /\ entries_not_found e = false
                     /\ oldest_entry e = Some d).
Proof.
  unfold custom_stage, custom_section.
  destruct (custom sections); [|intros H; inversion H; auto].
  destruct ed as [e|]; [|intros H; inversion H; auto].
  destruct (entries_not_found e) eqn:Enf; [intros H; inversion H; auto|].
  destruct (oldest_entry e) as [d|] eqn:Eo; [|intros H; inversion H; auto].
  destruct (_process_custom_report _ _ _ _ _) as [[p report]|x];
    intros H; inversion H; subst; right; repeat split; eauto.
Qed.

Lemma download_and_store_shape w s :
  pdf_calls (snd (download_and_store w s))
  /\ forall g, g <> GateFailed ->
       pdf_calls (EvalGate g :: snd (download_and_store w s)).
Proof.
  unfold pdf_calls.
  destruct (download_and_store_calls w s) as [-> | [_ ->]]; split; auto 6;
    intros g Hg; right; right; left; exists g; auto.
Qed.

Variable py_float : string -> option float.

(** The PDF block does nothing, or its flag is set, the entries block found
    rows and the session holds cookies. *)
Lemma pdf_stage_shape w sections ed s s4 c4 :
  pdf_stage py_float w sections ed s = (s4, c4) ->
  pdf_calls c4
  /\ ((c4 = [] /\ s4 = s)
      \/ (download_7501_pdf sections = true /\ pdf_cookies w = Ok true
          /\ exists e row rows, ed = Some e /\ entries_not_found e = false
                                /\ entry_rows e = Some (row :: rows))).
Proof.
  intros H. split.
  - apply pdf_stage_cases in H as [[_ ->] | [_ H]]; [left; reflexivity|].
    apply verify_and_download_cases in H
      as [[_ H] | [(_ & _ & _ & ->) | (_ & Hg & _ & ->)]].
    + rewrite (surjective_pairing (download_and_store w s)) in H.
      inversion H; subst. apply download_and_store_shape.
    + right; left; reflexivity.
    + now apply download_and_store_shape.
  - revert H. unfold pdf_stage, pdf_section.
    destruct (download_7501_pdf sections); [|intros H; inversion H; subst; auto].
    destruct ed as [e|]; [|intros H; inversion H; subst; auto].
    destruct (entries_not_found e) eqn:Enf; [intros H; inversion H; subst; auto|].
    destruct (entry_rows e) as [[|row rows]|] eqn:Er;
      try (intros H; inversion H; subst; auto; fail).
    destruct (pdf_cookies w) as [[|]|];
      try (intros H; inversion H; subst; auto; fail).
    intros _. right. repeat split; auto. exists e, row, rows. auto.
Qed.

(** X16. The blocks of a run are entered once each at most and in the order
    AMS, entries, custom report, PDF; inside the PDF block the verification
    comes first, and the extraction and the upload follow a download
    together or not at all. *)
Theorem calls_follow_stage_order w mawb sections fr cb r calls :
  process_mawb py_float w mawb sections fr cb = Ok (r, calls) ->
  exists c1 c2 c3 c4,
    calls = (c1 ++ c2 ++ c3 ++ c4)%list
    /\ (c1 = [] \/ c1 = [CallAms])
    /\ (c2 = [] \/ c2 = [CallEntries])
    /\ (c3 = [] \/ c3 = [CallCustomReport])
    /\ pdf_calls c4.
Proof.
  intros H.
  apply process_mawb_returns in H
    as (digits & s1 & c1 & _ & Ha & [(_ & _ & ->) | (_ & H)]).
  - exists c1, [], [], []. rewrite !app_nil_r. repeat split; auto.
    + eapply ams_stage_shape; eauto.
    + left; reflexivity.
  - destruct H as (s2 & ed & c2 & s3 & path & c3 & s4 & c4 & H2 & H3 & H4 & _ & ->).
    exists c1, c2, c3, c4. repeat split.
    + eapply ams_stage_shape; eauto.
    + eapply entries_stage_shape; eauto.
    + apply custom_stage_shape in H3 as [(-> & _) | (-> & _)]; auto.
    + eapply pdf_stage_shape; eauto.
Qed.

(** X17. The custom report and the PDF download need the entries: the report
    is requested only when the portal listed entries with a date, the PDF
    is downloaded only when it listed at least one entry and the session
    holds cookies. *)
Theorem later_stages_need_entries w mawb sections fr cb r calls :
  process_mawb py_float w mawb sections fr cb = Ok (r, calls) ->
  (In CallCustomReport calls ->
   custom sections = true
   /\ exists d rows, entries_world w = EntriesFound (Some d) rows)
  /\ (In CallPdfDownload calls ->
      download_7501_pdf sections = true /\ pdf_cookies w = Ok true
      /\ exists oldest row rows,
           entries_world w = EntriesFound oldest (row :: rows)).
Proof.
  intros H.
  apply process_mawb_returns in H
    as (digits & s1 & c1 & _ & Ha & [(_ & _ & ->) | (_ & H)]).
  - apply ams_stage_shape in Ha as [-> | ->]; split; intros Hin; simpl in Hin;
      intuition discriminate.
  - destruct H as (s2 & ed & c2 & s3 & path & c3 & s4 & c4 & H2 & H3 & H4 & _ & ->).
    pose proof (ams_stage_shape _ _ _ _ _ Ha) as S1.
    destruct (entries_stage_shape _ _ _ _ _ _ H2) as [S2 Hed].
    pose proof (custom_stage_shape _ _ _ _ _ _ _ _ _ H3) as S3.
    destruct (pdf_stage_shape _ _ _ _ _ _ H4) as [S4 S4'].
    split; intros Hin;
      apply in_stage_calls in Hin as [Hin | Hin]; auto; try discriminate.
    + destruct S3 as [(-> & _) | (_ & Hc & e & d & -> & Hnf & Ho)]; [destruct Hin|].
      split; auto.
      destruct Hed as [Hed | [(_ & Hed & _) | (oldest & rows & Hw & Hed)]];
        try discriminate.
      * injection Hed as ->. discriminate.
      * injection Hed as ->. simpl in Ho. subst. eauto.
    + exfalso. destruct S4 as [-> | [-> | [(g & _ & [-> | ->]) | [-> | ->]]]];
        simpl in Hin; intuition discriminate.
    + exfalso. destruct S3 as [(-> & _) | (-> & _)]; simpl in Hin;
        intuition discriminate.
    + destruct S4' as [(-> & _) | (Hp & Hc & e & row & rows & -> & Hnf & Hr)];
        [destruct Hin|].
      repeat split; auto.
      destruct Hed as [Hed | [(_ & Hed & _) | (oldest & rows' & Hw & Hed)]];
        try discriminate.
      * injection Hed as ->. discriminate.
      * injection Hed as ->. simpl in Hr. injection Hr as ->. eauto.
Qed.

(** X18. When the portal lists no entry for the master, the run says so in the
    summary and ends there: no report is requested, no workbook path is
    returned and the PDF block does nothing. *)
Theorem entries_not_found_ends_run w mawb sections fr cb r calls :
  process_mawb py_float w mawb sections fr cb = Ok (r, calls) ->
  entries_world w = EntriesNotFound ->
  In CallEntries calls ->
  get (summary r) "Entries Status" = Some "Not Found"
  /\ download_path r = None
  /\ Forall (fun c => c = CallAms \/ c = CallEntries) calls.
Proof.
  intros H Hw Hin.
  apply process_mawb_returns in H
    as (digits & s1 & c1 & _ & Ha & [(_ & _ & ->) | (_ & H)]).
  - apply ams_stage_shape in Ha as [-> | ->]; simpl in Hin; intuition discriminate.
  - destruct H as (s2 & ed & c2 & s3 & path & c3 & s4 & c4 & H2 & H3 & H4 & -> & ->).
    pose proof (ams_stage_shape _ _ _ _ _ Ha) as S1.
    destruct (entries_stage_shape _ _ _ _ _ _ H2) as [S2 Hed].
    assert (Hed' : ed = Some (mkEntriesData None None true)
                   /\ s2 = set s1 "Entries Status" "Not Found").
    { destruct Hed as [-> | [(_ & -> & ->) | (oldest & rows & Hw' & _)]]; auto.
      - exfalso. unfold entries_stage in H2.
        destruct (entries sections || custom sections || download_7501_pdf sections).
        + rewrite Hw in H2. discriminate.
        + inversion H2; subst. destruct S1 as [-> | ->]; simpl in Hin.
          * apply custom_stage_shape in H3 as [(-> & _) | (_ & _ & e & d & He & _)];
              [|discriminate].
            apply pdf_stage_shape in H4 as [_ [(-> & _) | (_ & _ & e & x & y & He & _)]];
              [destruct Hin | discriminate].
          * destruct Hin as [Hin | Hin]; [discriminate|].
            apply custom_stage_shape in H3 as [(-> & _) | (_ & _ & e & d & He & _)];
              [|discriminate].
            apply pdf_stage_shape in H4 as [_ [(-> & _) | (_ & _ & e & x & y & He & _)]];
              [destruct Hin | discriminate].
      - congruence. }
    destruct Hed' as [-> ->].
    apply custom_stage_shape in H3 as [(-> & -> & ->) | (_ & _ & e & d & He & Hnf & _)];
      [|injection He as <-; discriminate].
    apply pdf_stage_shape in H4
      as [_ [(-> & ->) | (_ & _ & e & x & y & He & Hnf & _)]];
      [|injection He as <-; discriminate].
    simpl. repeat split; auto.
    + apply get_set_same.
    + rewrite !app_nil_r. apply Forall_app. split.
      * destruct S1 as [-> | ->];
          [constructor | constructor; [now left | constructor]].
      * destruct S2 as [-> | ->];
          [constructor | constructor; [now right | constructor]].
Qed.

End StageOrder.

Lemma calls_follow_stage_order_witness :
  match Runner.process_mawb Fixtures.decimal_float (Fixtures.happy_world "4250")
          "235-94731221" Fixtures.all_sections (Some Fixtures.format_record)
          (Some "4250") with
  | Ok (_, calls) =>
      exists c1 c2 c3 c4,
        calls = (c1 ++ c2 ++ c3 ++ c4)%list
        /\ (c1 = [] \/ c1 = [Runner.CallAms])
        /\ (c2 = [] \/ c2 = [Runner.CallEntries])
        /\ (c3 = [] \/ c3 = [Runner.CallCustomReport])
        /\ Runner.pdf_calls c4
  | Raise _ => False
  end.
Proof.
  concrete_run E r calls.
  exact (calls_follow_stage_order _ _ _ _ _ _ r calls E).
Defined.

Lemma later_stages_need_entries_witness :
  exists oldest row rows,
    Runner.entries_world (Fixtures.happy_world "4250")
    = Runner.EntriesFound oldest (row :: rows).
Proof.
  destruct (Runner.process_mawb Fixtures.decimal_float (Fixtures.happy_world "4250")
              "235-94731221" Fixtures.all_sections (Some Fixtures.format_record)
              (Some "4250")) as [[r calls]|] eqn:E;
    [|vm_compute in E; discriminate].
  destruct (later_stages_need_entries _ _ _ _ _ _ r calls E) as [_ H].
  apply H. pose proof E as E'. vm_compute in E'. inversion E'. in_list.
Defined.

Lemma entries_not_found_ends_run_witness :
  match Runner.process_mawb Fixtures.decimal_float Fixtures.no_entries_world
          "235-94731221" Fixtures.all_sections (Some Fixtures.format_record)
          (Some "4250") with
  | Ok (r, calls) =>
      PyDict.get (Runner.summary r) "Entries Status" = Some "Not Found"
      /\ Runner.download_path r = None
      /\ Forall (fun c => c = Runner.CallAms \/ c = Runner.CallEntries) calls
  | Raise _ => False
  end.
Proof.
  concrete_run E r calls.
  refine (entries_not_found_ends_run _ _ _ _ _ _ r calls E eq_refl _).
  pose proof E as E'. vm_compute in E'. inversion E'. in_list.
Defined.

(** ** The PDF link: from the upload to the archive *)
Section PdfLink.
Import PyStr PyDict PyDate Runner Reports.
Variable py_float : string -> option float.

(** The link the PDF block records once the file is downloaded: the signed
    URL of the upload when there is one that is not blank, and the empty
    string otherwise. *)
Lemma download_and_store_url w s :
  pdf_download w = Ok (Some true) ->
  get (fst (download_and_store w s)) "7501 Batch PDF URL"
  = Some match pdf_upload w with
         | Ok (_, Some pdf_url) =>
             if truthy pdf_url && truthy (strip pdf_url) then pdf_url
             else EmptyString
         | _ => EmptyString
         end.
Proof.
  intros Hd. unfold download_and_store. rewrite Hd.
  destruct (pdf_upload w) as [[p [u|]]|]; simpl; apply get_set_same.
Qed.

Lemma download_without_file w s :
  ~ In CallPdfUpload (snd (download_and_store w s)) ->
  fst (download_and_store w s) = s.
Proof.
  unfold download_and_store.
  destruct (pdf_download w) as [[[|]|]|]; simpl; auto.
  intros H. elim H. auto.
Qed.

Lemma upload_follows_download w s :
  In CallPdfUpload (snd (download_and_store w s)) -> pdf_download w = Ok (Some true).
Proof.
  destruct (download_and_store_calls w s) as [-> | [H _]]; auto.
  simpl. intuition discriminate.
Qed.

Lemma run_summary_keyed w mawb sections fr cb r calls :
  process_mawb py_float w mawb sections fr cb = Ok (r, calls) ->
  well_keyed (summary r).
Proof.
  intros Hrun.
  destruct (process_mawb_returns _ _ _ _ _ _ _ _ Hrun)
    as (digits & s1 & c1 & _ & E1 & Hcases).
  pose proof (ams_stage_keyed _ _ _ _ _ E1 (well_keyed_initial digits cb)) as K1.
  destruct Hcases as [(_ & -> & _) | (_ & s2 & ed & c2 & s3 & path & c3 & s4 & c4
                                       & E2 & E3 & E4 & -> & _)]; auto.
  simpl. eapply pdf_stage_keyed; eauto.
  eapply custom_stage_keyed; eauto.
  eapply entries_stage_keyed; eauto.
Qed.

(** The link of the summary is the placeholder "N/A" until a PDF has been
    uploaded; after the upload it is the signed URL, or the empty string
    when the upload failed or gave a blank URL. *)
Lemma run_pdf_url w mawb sections fr cb r calls :
  process_mawb py_float w mawb sections fr cb = Ok (r, calls) ->
  (~ In CallPdfUpload calls
   /\ get (summary r) "7501 Batch PDF URL" = Some "N/A")
  \/ (In CallPdfUpload calls
      /\ get (summary r) "7501 Batch PDF URL"
         = Some match pdf_upload w with
                | Ok (_, Some pdf_url) =>
                    if truthy pdf_url && truthy (strip pdf_url) then pdf_url
                    else EmptyString
                | _ => EmptyString
                end).
Proof.
  intros H.
  apply process_mawb_returns in H
    as (digits & s1 & c1 & _ & Ha & [(_ & -> & ->) | (_ & H)]).
  - left. split.
    + apply ams_stage_shape in Ha as [-> | ->]; simpl; intuition discriminate.
    + simpl. rewrite (ams_stage_get _ _ _ _ _ "7501 Batch PDF URL" Ha)
        by (simpl; intuition discriminate).
      destruct cb; reflexivity.
  - destruct H as (s2 & ed & c2 & s3 & path & c3 & s4 & c4 & H2 & H3 & H4 & -> & ->).
    assert (Hna : get s3 "7501 Batch PDF URL" = Some "N/A")
      by (eapply url_after_early_stages; eauto).
    pose proof (ams_stage_shape _ _ _ _ _ Ha) as S1.
    destruct (entries_stage_shape _ _ _ _ _ _ H2) as [S2 _].
    pose proof (custom_stage_shape _ _ _ _ _ _ _ _ _ H3) as S3.
    assert (Hin : In CallPdfUpload (c1 ++ c2 ++ c3 ++ c4)%list -> In CallPdfUpload c4).
    { intros Hin. apply in_stage_calls in Hin as [Hin | Hin]; auto; try discriminate.
      destruct S3 as [(-> & _) | (-> & _)]; simpl in Hin; intuition discriminate. }
    assert (Hout : In CallPdfUpload c4 -> In CallPdfUpload (c1 ++ c2 ++ c3 ++ c4)%list)
      by (intros; repeat (apply in_or_app; right); assumption).
    simpl.
    assert (Hc4 : (~ In CallPdfUpload c4 /\ s4 = s3)
                  \/ (In CallPdfUpload c4 /\ s4 = fst (download_and_store w s3))).
    { apply pdf_stage_cases in H4 as [[-> ->] | [_ H4]]; [left; auto|].
      apply verify_and_download_cases in H4
        as [[_ H4] | [(_ & _ & -> & ->) | (_ & _ & -> & ->)]].
      - rewrite (surjective_pairing (download_and_store w s3)) in H4.
        inversion H4; subst.
        destruct (in_dec (fun a b : Call => ltac:(decide equality; decide equality)
                          : {a = b} + {a <> b})
                    CallPdfUpload (snd (download_and_store w s3))) as [Hi | Hi].
        + right. auto.
        + left. split; auto. now apply download_without_file.
      - left. split; auto. simpl. intuition discriminate.
      - destruct (in_dec (fun a b : Call => ltac:(decide equality; decide equality)
                          : {a = b} + {a <> b})
                    CallPdfUpload (snd (download_and_store w s3))) as [Hi | Hi].
        + right. split; auto. now right.
        + left. split.
          * simpl. intros [Hx | Hx]; [discriminate | contradiction].
          * now apply download_without_file. }
    destruct Hc4 as [[Hno ->] | [Hyes ->]].
    + left. split; auto.
    + right. split; auto. apply download_and_store_url.
      destruct (download_and_store_calls w s3) as [Hc | [Hd Hc]]; auto.
      pose proof (pdf_stage_shape _ _ _ _ _ _ _ H4) as [Hp _].
      exfalso. clear - Hyes H4 Hp Hc.
      apply pdf_stage_cases in H4 as [[_ ->] | [_ H4]]; [destruct Hyes|].
      apply verify_and_download_cases in H4
        as [[_ H4] | [(_ & _ & _ & ->) | (_ & _ & _ & ->)]].
      * rewrite (surjective_pairing (download_and_store w s3)) in H4.
        inversion H4; subst. rewrite Hc in Hyes. simpl in Hyes. intuition discriminate.
      * simpl in Hyes. intuition discriminate.
      * rewrite Hc in Hyes. simpl in Hyes. intuition discriminate.
Qed.

(** X26. The PDF archive takes a link from the summary of a run only when the
    run uploaded a PDF and the store gave it a URL: the link is that URL,
    stripped. A run that stopped at the verification, or whose upload
    failed, contributes no PDF. *)
Theorem archive_takes_uploaded_pdfs_only w mawb sections fr cb r calls url :
  process_mawb py_float w mawb sections fr cb = Ok (r, calls) ->
  find_pdf_url (summary r) = Some url ->
  In CallPdfUpload calls
  /\ exists path signed, pdf_upload w = Ok (path, Some signed) /\ url = strip signed.
Proof.
  intros H Hf.
  destruct (pdf_url_found_under_its_key _ (run_summary_keyed _ _ _ _ _ _ _ H))
    as (v & Hv & Hfind).
  rewrite Hfind in Hf.
  destruct (run_pdf_url _ _ _ _ _ _ _ H) as [[_ Hna] | [Hin Hurl]].
  - rewrite Hv in Hna. injection Hna as ->. discriminate.
  - split; auto. rewrite Hv in Hurl. injection Hurl as ->.
    destruct (pdf_upload w) as [[p [u|]]|]; try discriminate.
    destruct (truthy u && truthy (strip u)); [|discriminate].
    exists p, u. split; auto.
    unfold usable in Hf.
    destruct (truthy (strip u) && negb (String.eqb (strip u) "N/A"));
      [|discriminate].
    now injection Hf as <-.
Qed.

End PdfLink.

Lemma archive_takes_uploaded_pdfs_only_witness :
  exists path signed,
    Runner.pdf_upload (Fixtures.happy_world "4250") = Ok (path, Some signed)
    /\ "https://store/pdf" = PyStr.strip signed.
Proof.
  destruct (Runner.process_mawb Fixtures.decimal_float (Fixtures.happy_world "4250")
              "235-94731221" Fixtures.all_sections (Some Fixtures.format_record)
              (Some "4250")) as [[r calls]|] eqn:E;
    [|vm_compute in E; discriminate].
  apply (archive_takes_uploaded_pdfs_only _ _ _ _ _ _ r calls "https://store/pdf" E).
  pose proof E as E'. vm_compute in E'. inversion E'. reflexivity.
Defined.

(** ** The service: the row it saves *)
Section SavedRow.
Import PyStr PyDict Runner Service.
Variable py_float : string -> option float.

Lemma run_result_mawb w mawb sections fr cb r calls :
  Runner.process_mawb py_float w mawb sections fr cb = Ok (r, calls) ->
  _normalize_mawb mawb = Ok (result_mawb r).
Proof.
  intros H.
  apply process_mawb_returns in H
    as (digits & s1 & c1 & Hn & _ & [(_ & -> & _) | (_ & H)]); auto.
  destruct H as (s2 & ed & c2 & s3 & path & c3 & s4 & c4 & _ & _ & _ & -> & _).
  auto.
Qed.

(** X19. With a known broker and a known format, once the [try] block is
    reached, the service passes one or two rows to [upsert_result]. Either
    one success row, and the call returns the success dictionary: then the
    upsert and what follows it returned. Or one failed row, when a step
    before the success upsert raised. Or the success row and then a failed
    row, when the success upsert or a step after it raised inside the [try]
    block. A success row carries the summary, no error message, the master
    number as its eleven digits, and a storage path exactly when it carries a
    download URL; a failed row carries the master number as it was given, an
    error message and nothing else; after a failed row the call returns the
    failure dictionary or raises what the failed upsert raised. *)
Theorem saved_rows_are_consistent sw mawb sections cb fr :
  broker_found sw = true ->
  format_found sw = Some fr ->
  before_try sw = Ok tt ->
  exists rows reply,
    Service.process_mawb py_float sw mawb sections cb = (rows, reply)
    /\ ((exists row,
           rows = [row] /\ success_shape mawb row
           /\ reply = Ok (ReplySuccess row)
           /\ upsert_success sw = Ok tt /\ after_save sw = Ok tt)
        \/ (exists row,
              rows = [row] /\ failed_shape mawb row /\ failure_reply sw row reply)
        \/ (exists row1 row2,
              rows = [row1; row2] /\ success_shape mawb row1
              /\ failed_shape mawb row2 /\ failure_reply sw row2 reply
              /\ ((exists e, upsert_success sw = Raise e)
                  \/ (exists e, after_save sw = Raise e)))).
Proof.
  intros Hb Hf Hpre. unfold Service.process_mawb. rewrite Hb, Hf, Hpre. simpl.
  assert (Hreply : forall issued e,
            failure_reply sw (failed_row mawb e)
              (snd (except_branch sw mawb issued e))).
  { intros issued e. unfold failure_reply, except_branch. simpl.
    destruct (upsert_failed sw) as [[]|e']; [left | right]; eauto. }
  assert (Hshape : forall e, failed_shape mawb (failed_row mawb e)).
  { intros e. unfold failed_shape. simpl. repeat split; auto. discriminate. }
  assert (Hfailed : forall e,
            exists rows reply,
              except_branch sw mawb [] e = (rows, reply)
              /\ ((exists row,
                     rows = [row] /\ success_shape mawb row
                     /\ reply = Ok (ReplySuccess row)
                     /\ upsert_success sw = Ok tt /\ after_save sw = Ok tt)
                  \/ (exists row,
                        rows = [row] /\ failed_shape mawb row
                        /\ failure_reply sw row reply)
                  \/ (exists row1 row2,
                        rows = [row1; row2] /\ success_shape mawb row1
                        /\ failed_shape mawb row2 /\ failure_reply sw row2 reply
                        /\ ((exists e, upsert_success sw = Raise e)
                            \/ (exists e, after_save sw = Raise e))))).
  { intros e. eexists. eexists. split; [reflexivity|].
    right. left. eexists. split; [reflexivity|]. split; [apply Hshape|].
    apply (Hreply []). }
  destruct (session_ready sw) as [[]|e]; [|apply Hfailed].
  destruct (Runner.process_mawb py_float (runner_world sw) mawb sections (Some fr) cb)
    as [[r calls]|e] eqn:E; [|apply Hfailed].
  pose proof (run_result_mawb _ _ _ _ _ _ _ E) as Hn.
  assert (Hsaved : forall p u : option string,
            (p = None <-> u = None) ->
            exists rows reply,
              match saving_progress sw with
              | Raise e => except_branch sw mawb [] e
              | Ok _ =>
                  match upsert_success sw with
                  | Raise e =>
                      except_branch sw mawb
                        [mkResultRow (result_mawb r) "success" (Some (summary r))
                           p u None] e
                  | Ok _ =>
                      match after_save sw with
                      | Raise e =>
                          except_branch sw mawb
                            [mkResultRow (result_mawb r) "success"
                               (Some (summary r)) p u None] e
                      | Ok _ =>
                          ([mkResultRow (result_mawb r) "success"
                              (Some (summary r)) p u None],
                           Ok (ReplySuccess
                                 (mkResultRow (result_mawb r) "success"
                                    (Some (summary r)) p u None)))
                      end
                  end
              end = (rows, reply)
              /\ ((exists row,
                     rows = [row] /\ success_shape mawb row
                     /\ reply = Ok (ReplySuccess row)
                     /\ upsert_success sw = Ok tt /\ after_save sw = Ok tt)
                  \/ (exists row,
                        rows = [row] /\ failed_shape mawb row
                        /\ failure_reply sw row reply)
                  \/ (exists row1 row2,
                        rows = [row1; row2] /\ success_shape mawb row1
                        /\ failed_shape mawb row2 /\ failure_reply sw row2 reply
                        /\ ((exists e, upsert_success sw = Raise e)
                            \/ (exists e, after_save sw = Raise e))))).
  { intros p u Hpu.
    assert (Hs : success_shape mawb
                   (mkResultRow (result_mawb r) "success" (Some (summary r))
                      p u None)).
    { unfold success_shape. simpl. repeat split; auto; try discriminate;
        apply Hpu. }
    destruct (saving_progress sw) as [[]|e]; [|apply Hfailed].
    destruct (upsert_success sw) as [[]|e] eqn:Eu.
    - destruct (after_save sw) as [[]|e] eqn:Ea.
      + eexists. eexists. split; [reflexivity|]. left.
        eexists. repeat split; eauto; apply Hs.
      + eexists. eexists. split; [reflexivity|]. right. right.
        eexists. eexists. split; [reflexivity|]. split; [exact Hs|].
        split; [apply Hshape|]. split; [apply (Hreply [])|]. right. eauto.
    - eexists. eexists. split; [reflexivity|]. right. right.
      eexists. eexists. split; [reflexivity|]. split; [exact Hs|].
      split; [apply Hshape|]. split; [apply (Hreply [])|]. left. eauto. }
  destruct (get_truthy (summary r) "excel_storage_path") as [p|].
  - destruct (get_truthy (summary r) "excel_download_url") as [u|].
    + apply Hsaved. split; discriminate.
    + destruct (download_path r).
      * destruct (excel_upload sw) as [[p' u']|e]; [|apply Hfailed].
        apply Hsaved. split; discriminate.
      * apply Hsaved. tauto.
  - destruct (download_path r).
    + destruct (excel_upload sw) as [[p' u']|e]; [|apply Hfailed].
      apply Hsaved. split; discriminate.
    + apply Hsaved. tauto.
Qed.

End SavedRow.

Lemma saved_rows_are_consistent_witness :
  map Service.row_status
    (fst (Service.process_mawb Fixtures.decimal_float
            (Fixtures.late_failure_world (Fixtures.happy_world "4250"))
            "235-94731221" Fixtures.all_sections (Some "4250")))
  = ["success"; "failed"]
  /\ map Service.row_mawb
       (fst (Service.process_mawb Fixtures.decimal_float
               (Fixtures.late_failure_world (Fixtures.happy_world "4250"))
               "235-94731221" Fixtures.all_sections (Some "4250")))
     = ["23594731221"; "235-94731221"].
Proof.
  destruct (saved_rows_are_consistent Fixtures.decimal_float
              (Fixtures.late_failure_world (Fixtures.happy_world "4250"))
              "235-94731221" Fixtures.all_sections (Some "4250")
              Fixtures.format_record eq_refl eq_refl eq_refl)
    as (rows & reply & E & _).
  rewrite E. vm_compute in E. inversion E. split; reflexivity.
Defined.

(** ** The parsers: what they return and when they raise *)
Section ParserFacts.
Import PyStr.

(** What an item of a parser is: a master number the runner takes as it
    is, and a port and a customer that are absent or not empty. *)
Lemma falsy_to_none_not_empty v : falsy_to_none v <> Some EmptyString.
Proof.
  destruct v as [s|]; simpl; [|discriminate].
  unfold or_none. destruct s; simpl; discriminate.
Qed.

Lemma gui_parse_lines_items (P : Item -> Prop) :
  (forall raw normalized airport cust checkbook,
     MawbParser.normalize_mawb raw = Ok normalized ->
     P (mkItem normalized (falsy_to_none airport) (falsy_to_none cust) checkbook)) ->
  forall lines results,
    Forall P results -> Forall P (MawbParser.parse_lines lines results).
Proof.
  intros HP. induction lines as [|raw lines IH]; intros results Hres; simpl; auto.
  destruct (is_empty (strip raw)); auto.
  destruct (MawbParser.line_vars (strip raw)) as [|[m|] a c k]; auto.
  destruct (MawbParser.normalize_mawb m) as [n|e] eqn:E; auto.
  apply IH. apply Forall_app. split; auto. constructor; eauto.
Qed.

Lemma service_parse_lines_items (P : Item -> Prop) :
  (forall raw normalized airport cust checkbook,
     InputParser.normalize_mawb raw = Ok normalized ->
     P (mkItem normalized (falsy_to_none airport) (falsy_to_none cust) checkbook)) ->
  forall lines results items,
    Forall P results ->
    InputParser.parse_lines lines results = Ok items -> Forall P items.
Proof.
  intros HP. induction lines as [|raw lines IH]; intros results items Hres; simpl.
  - intros H. now injection H as <-.
  - destruct (is_empty (strip raw)); [now apply IH|].
    destruct (InputParser.line_vars (strip raw)) as [|m a c k]; [now apply IH|].
    destruct (InputParser.normalize_mawb m) as [n|e] eqn:E.
    + apply IH. apply Forall_app. split; auto. constructor; eauto.
    + destruct e; try discriminate. now apply IH.
Qed.

Lemma normal_digits s :
  String.length (digits_of s) = 11 ->
  Runner._normalize_mawb (digits_of s) = Ok (digits_of s).
Proof.
  intros H. apply normalize_digits; auto. apply digits_of_all_digits.
Qed.

(** X1. Every item the two parsers return holds a master number of eleven
    digits, which the runner's normaliser returns unchanged, and a port and
    a customer that are absent or not empty. *)
Theorem parsed_items_are_normal text item :
  (In item (MawbParser.parse_mawb_input text)
   \/ exists items, InputParser.parse_mawb_input text = Ok items /\ In item items) ->
  Runner._normalize_mawb (mawb item) = Ok (mawb item)
  /\ airport_code item <> Some EmptyString
  /\ customer item <> Some EmptyString.
Proof.
  set (P := fun item =>
              Runner._normalize_mawb (mawb item) = Ok (mawb item)
              /\ airport_code item <> Some EmptyString
              /\ customer item <> Some EmptyString).
  intros [Hin | (items & Hrun & Hin)].
  - assert (Hall : Forall P (MawbParser.parse_mawb_input text)).
    { unfold MawbParser.parse_mawb_input.
      destruct (is_empty text || is_empty (strip text)); [constructor|].
      apply gui_parse_lines_items; [|constructor].
      intros raw n a c k Hn. unfold MawbParser.normalize_mawb in Hn.
      destruct (String.length (digits_of raw) =? 11) eqn:E; [|discriminate].
      injection Hn as <-. apply Nat.eqb_eq in E.
      repeat split; simpl; auto using normal_digits, falsy_to_none_not_empty. }
    rewrite Forall_forall in Hall. now apply Hall.
  - assert (Hall : Forall P items).
    { unfold InputParser.parse_mawb_input in Hrun.
      destruct (is_empty text || is_empty (strip text));
        [injection Hrun as <-; constructor|].
      revert Hrun. apply service_parse_lines_items; [|constructor].
      intros [raw|] n a c k Hn; [|discriminate].
      unfold InputParser.normalize_mawb in Hn.
      destruct (String.length (digits_of raw) =? 11) eqn:E; [|discriminate].
      injection Hn as <-. apply Nat.eqb_eq in E.
      repeat split; simpl; auto using normal_digits, falsy_to_none_not_empty. }
    rewrite Forall_forall in Hall. now apply Hall.
Qed.

Lemma parsed_items_are_normal_witness :
  Runner._normalize_mawb "23594731221" = Ok "23594731221".
Proof.
  apply (parsed_items_are_normal "ORD, MZZ, 235-94731221"
           (mkItem "23594731221" (Some "ORD") (Some "MZZ") None)).
  left. vm_compute. auto.
Defined.

(** *** When the service's parser raises *)

Lemma columns_none parts a c k :
  InputParser.columns parts = Vars None a c k ->
  5 <= List.length parts /\ search_d11 (nth 4 parts EmptyString) = false.
Proof.
  unfold InputParser.columns.
  destruct (5 <=? List.length parts) eqn:E5.
  - apply Nat.leb_le in E5.
    destruct (search_d11 (nth 4 parts EmptyString)) eqn:Es; [discriminate|].
    auto.
  - destruct (3 <=? List.length parts); [discriminate|].
    destruct (List.length parts =? 2); [|discriminate].
    destruct (search_d11 (nth 0 parts EmptyString)); [discriminate|].
    destruct (search_d11 (nth 1 parts EmptyString)); discriminate.
Qed.

Lemma spaced_some parts a c k : InputParser.spaced parts <> Vars None a c k.
Proof.
  unfold InputParser.spaced.
  destruct (InputParser.find_mawb 0 parts) as [[idx part]|]; [|discriminate].
  destruct ((5 <=? List.length parts) && (idx =? 4)); [discriminate|].
  destruct (2 <=? List.length (firstn idx parts)); [discriminate|].
  destruct (List.length (firstn idx parts) =? 1); discriminate.
Qed.

Lemma nth_map_strip n l : nth n (map strip l) EmptyString = strip (nth n l EmptyString).
Proof. apply (map_nth strip l EmptyString n). Qed.

(** A line without a master number to normalise has five columns or
    more, separated by tabs or by commas, the fifth without eleven
    consecutive digits. *)
Lemma line_vars_none line a c k :
  InputParser.line_vars line = Vars None a c k ->
  exists sep,
    (sep = tab \/ sep = comma)
    /\ contains_chr sep line = true
    /\ 5 <= List.length (split_chr sep line)
    /\ search_d11 (strip (nth 4 (split_chr sep line) EmptyString)) = false.
Proof.
  unfold InputParser.line_vars.
  destruct (contains_chr tab line) eqn:Et.
  - intros H. apply columns_none in H as [Hlen Hs].
    rewrite length_map in Hlen. rewrite nth_map_strip in Hs.
    exists tab. auto.
  - destruct (contains_chr comma line) eqn:Ec.
    + intros H. apply columns_none in H as [Hlen Hs].
      rewrite length_map in Hlen. rewrite nth_map_strip in Hs.
      exists comma. auto.
    + destruct (search_s2 line || (2 <=? count_chr space line)).
      * intros H. now apply spaced_some in H.
      * discriminate.
Qed.

Lemma service_parse_lines_raise lines : forall results e,
  InputParser.parse_lines lines results = Raise e ->
  e = TypeError "'NoneType' object is not iterable"
  /\ exists raw a c k,
       In raw lines /\ InputParser.line_vars (strip raw) = Vars None a c k.
Proof.
  induction lines as [|raw lines IH]; intros results e; simpl; [discriminate|].
  assert (Hrest : forall results',
            InputParser.parse_lines lines results' = Raise e ->
            e = TypeError "'NoneType' object is not iterable"
            /\ exists raw0 a c k,
                 (raw = raw0 \/ In raw0 lines)
                 /\ InputParser.line_vars (strip raw0) = Vars None a c k).
  { intros results' H. apply IH in H as (He & raw0 & a & c & k & Hin & Hv).
    split; auto. exists raw0, a, c, k. auto. }
  destruct (is_empty (strip raw)); [apply Hrest|].
  destruct (InputParser.line_vars (strip raw)) as [|m a c k] eqn:Ev; [apply Hrest|].
  destruct m as [m|]; simpl.
  - destruct (String.length (digits_of m) =? 11); [apply Hrest|].
    apply Hrest.
  - intros H. injection H as <-. split; auto.
    exists raw, a, c, k. auto.
Qed.

(** X2. The service's parser raises nothing but the [TypeError] of a missing
    master number, and only on a text with a line of five columns or more,
    separated by tabs or by commas, whose fifth column holds no eleven
    consecutive digits; on every other text it returns. *)
Theorem service_parser_raises_only_on_five_columns text e :
  InputParser.parse_mawb_input text = Raise e ->
  e = TypeError "'NoneType' object is not iterable"
  /\ exists raw sep,
       In raw (split_chr newline (strip text))
       /\ (sep = tab \/ sep = comma)
       /\ contains_chr sep (strip raw) = true
       /\ 5 <= List.length (split_chr sep (strip raw))
       /\ search_d11 (strip (nth 4 (split_chr sep (strip raw)) EmptyString)) = false.
Proof.
  unfold InputParser.parse_mawb_input.
  destruct (is_empty text || is_empty (strip text)); [discriminate|].
  intros H. apply service_parse_lines_raise in H as (He & raw & a & c & k & Hin & Hv).
  split; auto.
  apply line_vars_none in Hv as (sep & Hsep & Hc & Hlen & Hs).
  exists raw, sep. auto.
Qed.

Lemma service_parser_raises_only_on_five_columns_witness :
  exists raw sep,
    In raw (split_chr newline (strip "ORD,MZZ,BKR,4250,N/A"))
    /\ (sep = tab \/ sep = comma)
    /\ contains_chr sep (strip raw) = true.
Proof.
  destruct (service_parser_raises_only_on_five_columns "ORD,MZZ,BKR,4250,N/A"
              (TypeError "'NoneType' object is not iterable") eq_refl)
    as (_ & raw & sep & Hin & Hsep & Hc & _).
  exists raw, sep. auto.
Defined.

End ParserFacts.

(** ** A printed master number read back by the parsers *)
Section PrintedMawb.
Import PyStr.

Lemma all_chr_impl (p q : ascii -> bool) s :
  (forall c, p c = true -> q c = true) ->
  all_chr p s = true -> all_chr q s = true.
Proof.
  intros Hpq. induction s as [|c s IH]; simpl; auto.
  intros H. apply andb_prop in H as [Hc Hs]. now rewrite (Hpq c Hc), IH.
Qed.

Lemma all_chr_free p c s :
  p c = false -> all_chr p s = true -> contains_chr c s = false.
Proof.
  intros Hc. induction s as [|d s IH]; simpl; auto.
  intros H. apply andb_prop in H as [Hd Hs].
  destruct (Ascii.eqb d c) eqn:E; [|now apply IH].
  apply Ascii.eqb_eq in E. subst. congruence.
Qed.

Lemma printed_not_space c : printed c = true -> isspace c = false.
Proof.
  destruct c as [[] [] [] [] [] [] [] []]; vm_compute; intros H;
    solve [reflexivity | discriminate H].
Qed.

Lemma no_space_lstrip s :
  all_chr (fun c => negb (isspace c)) s = true -> lstrip s = s.
Proof.
  destruct s as [|c s]; simpl; auto.
  intros H. apply andb_prop in H as [Hc _].
  apply negb_true_iff in Hc. now rewrite Hc.
Qed.

Lemma no_space_rstrip s :
  all_chr (fun c => negb (isspace c)) s = true -> rstrip s = s.
Proof.
  induction s as [|c s IH]; simpl; auto.
  intros H. apply andb_prop in H as [Hc Hs].
  apply negb_true_iff in Hc. now rewrite Hc, IH.
Qed.

Lemma no_space_run need s :
  0 < need ->
  all_chr (fun c => negb (isspace c)) s = true ->
  has_run isspace need 0 s = false.
Proof.
  intros Hneed. induction s as [|c s IH]; simpl.
  - intros _. destruct need; [lia | reflexivity].
  - intros H. apply andb_prop in H as [Hc Hs].
    apply negb_true_iff in Hc. rewrite Hc, IH by assumption.
    destruct need; [lia | reflexivity].
Qed.

Lemma no_space_count s :
  all_chr (fun c => negb (isspace c)) s = true -> count_chr space s = 0.
Proof.
  induction s as [|c s IH]; simpl; auto.
  intros H. apply andb_prop in H as [Hc Hs]. rewrite IH by assumption.
  destruct (Ascii.eqb c space) eqn:E; auto.
  apply Ascii.eqb_eq in E. subst. discriminate.
Qed.

(** A line of digits and dashes is taken whole as a master number by the
    two parsers. *)
Lemma printed_line s :
  all_chr printed s = true ->
  strip s = s
  /\ InputParser.line_vars s = Vars (Some s) None None None
  /\ MawbParser.line_vars s = Vars (Some s) None None None
  /\ contains_chr tab s = false
  /\ split_chr newline s = [s].
Proof.
  intros Hp.
  assert (Hns : all_chr (fun c => negb (isspace c)) s = true).
  { revert Hp. apply all_chr_impl. intros c Hc.
    now rewrite (printed_not_space c Hc). }
  assert (Ht : contains_chr tab s = false) by now apply (all_chr_free printed).
  assert (Hc : contains_chr comma s = false) by now apply (all_chr_free printed).
  assert (Hn : contains_chr newline s = false) by now apply (all_chr_free printed).
  assert (Hs2 : search_s2 s = false) by (apply no_space_run; auto).
  repeat split; auto.
  - unfold strip. now rewrite no_space_lstrip, no_space_rstrip.
  - unfold InputParser.line_vars.
    now rewrite Ht, Hc, Hs2, no_space_count.
  - unfold MawbParser.line_vars.
    now rewrite Ht, Hc, Hs2, no_space_count.
  - now apply split_chr_free.
Qed.

Lemma printed_dashed d :
  all_chr isdigit d = true ->
  all_chr printed (slice_to 3 d ++ "-" ++ slice_from 3 d) = true.
Proof.
  intros Hall.
  assert (Hp : all_chr printed d = true).
  { revert Hall. apply all_chr_impl. intros c Hc. unfold printed. now rewrite Hc. }
  rewrite !all_chr_app. unfold slice_to, slice_from.
  now rewrite !substring_all.
Qed.

(** X3. The master number of a run, printed as [xxx-xxxxxxxx] by the store and
    by the export, is read back by the two parsers as one item: the same
    eleven digits, no port, no customer, no house count. *)
Theorem printed_mawb_parses_back m d :
  Runner._normalize_mawb m = Ok d ->
  MawbParser.parse_mawb_input (Storage.formatted_mawb d)
  = [mkItem d None None None]
  /\ InputParser.parse_mawb_input (Storage.formatted_mawb d)
     = Ok [mkItem d None None None].
Proof.
  intros H. apply normalized_digits in H as (_ & Hlen & Hall).
  assert (Hf : Storage.formatted_mawb d = slice_to 3 d ++ "-" ++ slice_from 3 d).
  { unfold Storage.formatted_mawb. now rewrite (mawb_clean_digits d Hall), Hlen. }
  rewrite Hf.
  pose proof (dashed_digits d Hall) as Hd.
  destruct (printed_line _ (printed_dashed d Hall)) as (Hs & Hi & Hg & Ht & Hn).
  set (f := slice_to 3 d ++ "-" ++ slice_from 3 d) in *.
  assert (He : is_empty f = false).
  { subst f. rewrite is_empty_app. cbn [append is_empty]. apply andb_false_r. }
  split.
  - unfold MawbParser.parse_mawb_input, MawbParser.preprocess,
      MawbParser.all_lines_of.
    rewrite Hs, He, Ht, Hn. cbn [orb filter map List.length negb andb].
    unfold truthy. rewrite Hs, He. cbn [negb filter map List.length Nat.ltb Nat.leb andb].
    rewrite Hn. cbn [MawbParser.parse_lines]. rewrite Hs, He, Hg.
    unfold MawbParser.normalize_mawb. rewrite Hd, Hlen. reflexivity.
  - unfold InputParser.parse_mawb_input.
    rewrite Hs, He, Hn. cbn [orb InputParser.parse_lines]. rewrite Hs, He, Hi.
    unfold InputParser.normalize_mawb. rewrite Hd, Hlen. reflexivity.
Qed.

Lemma printed_mawb_parses_back_witness :
  MawbParser.parse_mawb_input (Storage.formatted_mawb "23594731221")
  = [mkItem "23594731221" None None None].
Proof.
  apply (printed_mawb_parses_back "235-94731221" "23594731221"). reflexivity.
Defined.

End PrintedMawb.

(** ** The recovery of a vertical paste: the rows of the look-ahead *)
Section LookAhead.
Import PyStr MawbParser.

Lemma slice_length (lines : list string) a b :
  b <= List.length lines -> List.length (slice lines a b) = b - a.
Proof.
  intros Hb. unfold slice. rewrite length_firstn, length_skipn. lia.
Qed.

Lemma slice_nth (lines : list string) a b k :
  k < b - a -> nth k (slice lines a b) EmptyString = nth (a + k) lines EmptyString.
Proof.
  intros Hk. unfold slice. rewrite nth_firstn, nth_skipn.
  apply Nat.ltb_lt in Hk. now rewrite Hk.
Qed.

(** A group closed by the look-ahead has four lines, or six to ten. *)
Lemma look_ahead_size lines i j :
  ~ five_at lines i -> ~ three_at lines i -> closes lines i j ->
  j + 1 <= List.length lines
  /\ (j - i = 3
      \/ (5 <= j - i < 10 /\ has11 (nth (i + 4) lines EmptyString) = false))
  /\ has11 (nth (i + 2) lines EmptyString) = false.
Proof.
  intros H5 H3 (Hij & Hj10 & Hlen & H11 & H2).
  assert (Hthree : has11 (nth (i + 2) lines EmptyString) = false).
  { destruct (has11 (nth (i + 2) lines EmptyString)) eqn:E; auto.
    exfalso. apply H3. split; [lia | assumption]. }
  repeat split; auto; [lia|].
  destruct (Nat.eq_dec (j - i) 2) as [E2 | E2].
  { exfalso. replace (i + 2) with j in Hthree by lia. congruence. }
  destruct (Nat.eq_dec (j - i) 3) as [E3 | E3]; [now left|].
  right.
  destruct (Nat.eq_dec (j - i) 4) as [E4 | E4].
  { exfalso. apply H5. split; [lia|]. now replace (i + 4) with j by lia. }
  split; [lia|].
  destruct (has11 (nth (i + 4) lines EmptyString)) eqn:E; auto.
  exfalso. apply H5. split; [lia | assumption].
Qed.

(** X4. The rows that the look-ahead of the recovery rebuilds never give an
    item: such a row has four columns, whose third is not a master number,
    or six columns or more, whose fifth is not one; the lines it took are
    lost for the parse. *)
Theorem look_ahead_rows_give_no_item lines i j rest results :
  Forall clean lines ->
  ~ five_at lines i -> ~ three_at lines i ->
  scan lines i = Some j ->
  parse_lines (join tab_s (slice lines i (j + 1)) :: rest) results
  = parse_lines rest results.
Proof.
  intros Hclean H5 H3 Hscan.
  apply scan_some in Hscan as [Hcl _].
  pose proof Hcl as (Hij & _).
  destruct (look_ahead_size lines i j H5 H3 Hcl) as (Hlen & Hsize & Hthree).
  pose proof (slice_length lines i (j + 1) Hlen) as Hn.
  destruct (row_of_clean_fields (slice lines i (j + 1))
              (clean_slice lines i (j + 1) Hclean) ltac:(lia))
    as (Hstrip & Hne & Htab & _ & Hsplit).
  cbv zeta in *.
  cbn [parse_lines]. rewrite Hstrip, Hne.
  unfold line_vars. rewrite Htab, Hsplit.
  unfold columns. rewrite Hn.
  destruct Hsize as [E3 | [Hbig Hfive]].
  - replace (j + 1 - i) with 4 by lia. cbn [Nat.leb].
    rewrite slice_nth by lia.
    unfold normalize_mawb. unfold has11 in Hthree. now rewrite Hthree.
  - destruct (5 <=? j + 1 - i) eqn:E; [|apply Nat.leb_gt in E; lia].
    rewrite slice_nth by lia. now rewrite Hfive.
Qed.

Lemma look_ahead_rows_give_no_item_witness :
  parse_lines
    (join tab_s (slice ["JFK"; "YDH"; "M3"; "999-38649026"] 0 (3 + 1)) :: []) []
  = [].
Proof.
  apply (look_ahead_rows_give_no_item ["JFK"; "YDH"; "M3"; "999-38649026"] 0 3 [] []).
  - repeat (apply Forall_cons; [repeat split; reflexivity|]). apply Forall_nil.
  - intros [H _]. simpl in H. lia.
  - intros [_ H]. discriminate H.
  - reflexivity.
Defined.

End LookAhead.

(** ** The names of the stored workbook and of the archived files *)
Section StoredNames.
Import PyStr Storage Reports.


Lemma append_assoc_string a b c : ((a ++ b) ++ c = a ++ (b ++ c))%string.
Proof. induction a as [|x a IH]; simpl; auto. now rewrite IH. Qed.

(** X22. The workbook that the custom report section uploads is stored under
    the master number alone, printed as [xxx-xxxxxxxx], with the suffix
    [_V2] exactly when the template identifier names the Shoaib template;
    a signed URL that cannot be made leaves the upload in place with an
    empty URL. *)
Theorem early_upload_key prefix b file_path m d template_identifier key url :
  Runner._normalize_mawb m = Ok d ->
  early_upload_excel prefix b file_path d template_identifier = Ok (key, url) ->
  key = prefix ++ "/customizable-reports/" ++ slice_to 3 d ++ "-" ++ slice_from 3 d
        ++ (if match template_identifier with
               | Some t => contains "shoaib" (lower t)
               | None => false
               end
            then "_V2.xlsx" else ".xlsx")
  /\ file_exists b = true /\ upload_file b = Ok tt
  /\ url = match generate_presigned_url b with
           | Ok signed => signed
           | Raise _ => EmptyString
           end.
Proof.
  intros Hn. apply normalized_digits in Hn as (_ & Hlen & Hall).
  unfold early_upload_excel, upload_excel.
  destruct (file_exists b); [|discriminate]. cbn [negb].
  destruct (upload_file b) as [[]|e]; [|discriminate].
  intros H. injection H as <- <-. repeat split; auto.
  unfold excel_key, file_stem, safe_part. cbn [app join].
  unfold formatted_mawb. rewrite (mawb_clean_digits d Hall), Hlen. cbn [Nat.eqb].
  rewrite !append_assoc_string. do 4 f_equal.
  unfold early_template_name, excel_suffix.
  destruct template_identifier as [t|]; [|reflexivity].
  destruct t as [|c t]; [reflexivity|].
  cbn [truthy is_empty negb andb].
  destruct (contains "shoaib" (lower (String c t))); reflexivity.
Qed.

Lemma early_upload_key_witness :
  exists key url,
    early_upload_excel "netchb-duty" (mkBucket true (Ok tt) (Raise (RuntimeError "no")))
      "/tmp/report.xlsx" "23594731221" (Some "shoaib-match") = Ok (key, url)
    /\ key = "netchb-duty/customizable-reports/235-94731221_V2.xlsx"
    /\ url = EmptyString.
Proof.
  eexists. eexists. split; [reflexivity|].
  destruct (early_upload_key "netchb-duty"
              (mkBucket true (Ok tt) (Raise (RuntimeError "no")))
              "/tmp/report.xlsx" "235-94731221" "23594731221" (Some "shoaib-match")
              _ _ eq_refl eq_refl) as (Hk & _ & _ & Hu).
  split; [exact Hk | exact Hu].
Defined.




End StoredNames.
